(** * IDAPython plugin core (python.cpp): execution control, name resolver,
      result bridge and external-language adapter.

    The plugin talks to two foreign runtimes (the CPython C API and the IDA
    SDK) and to the conversion layer of pywraps.  None of them is part of
    python.cpp, so every call that leaves the file is an *event* of an
    interaction tree over an inductive free monad; the answers come from a
    handler, and every theorem below is proved for all handlers.  The static
    variables of python.cpp are an explicit record threaded through the code.
    C strings are [string]s (the text before the terminating NUL). *)

From Stdlib Require Import ZArith List String Ascii Bool Lia DecimalString.
From Stdlib Require DecimalNat.
Import ListNotations.
Local Open Scope string_scope.

(** ** C strings: libc and IDA SDK helpers used by python.cpp *)

Module CStr.

(** The text of [s] from offset [n] on: pointer arithmetic [s + n]. *)
Fixpoint advance (n : nat) (s : string) : string :=
  match n, s with
  | O, _ => s
  | S n', String _ s' => advance n' s'
  | S _, EmptyString => EmptyString
  end.

(** The first [n] characters of [s]. *)
Fixpoint prefix_n (n : nat) (s : string) : string :=
  match n, s with
  | S n', String c s' => String c (prefix_n n' s')
  | _, _ => EmptyString
  end.

(** [strchr s c]: offset of the first occurrence of [c], NULL if none. *)
Fixpoint strchr (s : string) (c : ascii) : option nat :=
  match s with
  | EmptyString => None
  | String a s' =>
      if Ascii.eqb a c then Some O
      else match strchr s' c with
           | Some i => Some (S i)
           | None => None
           end
  end.

(** [strrchr s c]: offset of the last occurrence of [c], NULL if none. *)
Fixpoint strrchr (s : string) (c : ascii) : option nat :=
  match s with
  | EmptyString => None
  | String a s' =>
      match strrchr s' c with
      | Some i => Some (S i)
      | None => if Ascii.eqb a c then Some O else None
      end
  end.

Definition qstrlen (s : string) : nat := String.length s.

(** [qstrncpy(dst, src, dstsize)]: copies at most [dstsize-1] characters
    and always terminates the destination; a zero size writes nothing. *)
Definition qstrncpy (dst src : string) (dstsize : nat) : string :=
  match dstsize with
  | O => dst
  | S n => prefix_n n src
  end.

(** [qsnprintf(buf, size, fmt, ...)] stores the formatted text like
    [qstrncpy] stores a string; [formatted] is the expanded format. *)
Definition qsnprintf (buf : string) (size : nat) (formatted : string) : string :=
  qstrncpy buf formatted size.

(** [buf[0] = '\0'] guarded by [size > 0]. *)
Definition clear_if_room (buf : string) (size : nat) : string :=
  match size with
  | O => buf
  | S _ => EmptyString
  end.

(** [s[0] == '\0']: the string is at its terminating NUL. *)
Definition at_end (s : string) : bool :=
  match s with
  | EmptyString => true
  | String _ _ => false
  end.

(** [s[i]]; the terminating NUL past the end. *)
Definition char_at (s : string) (i : nat) : ascii :=
  match String.get i s with
  | Some c => c
  | None => zero
  end.

(** [qisspace(c)]: the C-locale [isspace] on the character as unsigned. *)
Definition qisspace (c : ascii) : bool :=
  let n := nat_of_ascii c in
  Nat.eqb n 32 || (Nat.leb 9 n && Nat.leb n 13).

End CStr.
Import CStr.

(** ** Name resolver *)

(** [parse_py_modname(full_name, modname, attrname, sz, defmod)]; the two
    output buffers are returned after the separator flag.  The copy of the
    module part is bounded by the position of the dot, not by [sz]: for a
    module part of [sz] or more characters the source writes past [modname],
    and the definition gives the whole module part.  The theorems about a
    name therefore assume that the name is shorter than the buffers. *)
Definition parse_py_modname
    (full_name modname attrname : string) (sz : nat) (defmod : string)
  : bool * string * string :=
  match strchr full_name "." with
  | None =>
      (false, qstrncpy modname defmod sz, qstrncpy attrname full_name sz)
  | Some p =>
      (true, qstrncpy modname full_name (p + 1),
             qstrncpy attrname (advance (p + 1) full_name) sz)
  end.

(** Specification vocabulary: a string without the separator. *)
Fixpoint no_dot (s : string) : bool :=
  match s with
  | EmptyString => true
  | String c s' => negb (Ascii.eqb c ".") && no_dot s'
  end.

(** ** Values of the two runtimes *)

(** A [PyObject*]: the address of an object, or NULL. *)
Definition PyObject := N.
Definition PyPtr := option PyObject.

(** [idc_value_t] of the IDA SDK (expr.hpp), one constructor per [vtype]. *)
Inductive idc_value_t : Type :=
| VT_LONG (num : Z)
| VT_FLOAT (raw : Z)
| VT_STR2 (str : string)
| VT_PVOID (pvoid : N)
| VT_INT64 (i64 : Z)
| VT_OBJ (obj : N)
| VT_FUNC (funcidx : Z)
| VT_WILD.

(** [idc_value_t::clear()] leaves the number 0; [set_string] a string. *)
Definition idc_clear (_ : idc_value_t) : idc_value_t := VT_LONG 0.
Definition set_string (_ : idc_value_t) (s : string) : idc_value_t := VT_STR2 s.

(** The only trace function python.cpp installs (profiling is compiled out). *)
Inductive Py_tracefunc : Type := break_check_fn.

(** Constants that python.cpp takes from headers outside the file
    (pywraps.hpp, pro.h, Python.h). *)
Class Foreign : Type := {
  CIP_FAILED : Z;
  CIP_OK : Z;
  CIP_OK_NODECREF : Z;
  S_IDAAPI_MODNAME : string;
  MAXSTR : nat;
  Py_None : PyObject
}.

Definition S_MAIN : string := "__main__".

(** ** Calls that leave python.cpp

    Four of these calls run Python code: [PyEval_EvalCodeEx],
    [PyObject_CallObject], [PyEval_EvalCode] and [PyRun_SimpleString].  They
    are events like the others: they answer, and the code they run is not
    followed into python.cpp.  The code that Python can call back is
    modelled where it is the subject: the trace hook and
    [set_script_timeout] as the steps of a [window], the statement run of
    [IDAPython_extlang_run_statements] as a computation over the statics.
    A theorem that speaks of the return of a function making one of the four
    calls is about the runs in which the Python code returns. *)

Inductive Ext : Type -> Type :=
(* IDA kernel and libc *)
| wasBreak : Ext bool
| show_wait_box (text : string) : Ext unit
| hide_wait_box : Ext unit
| time_NULL : Ext Z
| msg (text : string) : Ext unit
(* CPython *)
| PyErr_SetInterrupt : Ext unit
| PyEval_SetTrace (f : option Py_tracefunc) : Ext unit
| PyErr_Occurred : Ext bool
| PyErr_Clear : Ext unit
| PyErr_Print : Ext unit
| Py_DECREF (o : PyObject) : Ext unit
| PyImport_ImportModule (name : string) : Ext PyPtr
| PyImport_AddModule (name : string) : Ext PyPtr
| PyModule_GetDict (m : PyPtr) : Ext PyPtr
| PyDict_GetItemString (d : PyObject) (key : string) : Ext PyPtr
| PyFunction_GetCode (f : PyObject) : Ext PyPtr
| PyEval_EvalCodeEx (code : PyPtr) (globals : PyObject)
                    (args : list PyPtr) (nargs : Z) : Ext PyPtr
| PyObject_GetAttrString (o : PyObject) (name : string) : Ext PyPtr
| PyObject_Str (o : PyObject) : Ext PyPtr
| PyString_AsString (o : PyObject) : Ext (option string)
| PyCallable_Check (o : PyObject) : Ext bool
| PyObject_CallObject (f : PyObject) (args : PyPtr) : Ext PyPtr
| Py_CompileStringFlags (str filename : string) : Ext PyPtr
| PyRun_SimpleString (str : string) : Ext Z
| PyEval_EvalCode (code : PyObject) (globals locals : PyPtr) : Ext PyPtr
(* pywraps *)
| PYW_GIL_ENSURE : Ext unit
| PYW_GIL_RELEASE : Ext unit
| PyW_GetError (clear_error : bool) : Ext (bool * string)
| PyW_ObjectToString (o : PyObject) : Ext (bool * string)
| PyW_TryImportModule (name : string) : Ext PyPtr
| PyW_TryGetAttrString (o : PyPtr) (name : string) : Ext PyPtr
| pyvar_to_idcvar (o : PyObject) (cur : idc_value_t) : Ext (Z * idc_value_t)
| idcvar_to_pyvar (v : idc_value_t) : Ext (Z * PyPtr)
| pyw_convert_idc_args (args : list idc_value_t) (with_decref : bool)
                       (errbuf : string) (errbufsize : nat)
    : Ext (bool * list PyPtr * list bool * string)
| pyw_free_idc_args (pargs : list PyPtr) (decref : option (list bool))
    : Ext unit.

(** ** Programs: trees of foreign calls *)

Inductive fault : Type :=
| INTERR (code : Z)     (* a failed QASSERT *)
| NullDeref.            (* a member call through a NULL pointer *)

Inductive prog (A : Type) : Type :=
| Ret (a : A)
| Fault (f : fault)
| Vis {X : Type} (e : Ext X) (k : X -> prog A).
Arguments Ret {A} a.
Arguments Fault {A} f.
Arguments Vis {A X} e k.

Fixpoint pbind {A B : Type} (p : prog A) (f : A -> prog B) : prog B :=
  match p with
  | Ret a => f a
  | Fault x => Fault x
  | Vis e k => Vis e (fun x => pbind (k x) f)
  end.

(** ** The static variables of python.cpp *)

Record Globals : Type := mkGlobals {
  ninsns : Z;             (* number of times trace function was called *)
  box_displayed : bool;   (* has the wait box been displayed? *)
  start_time : Z;         (* the start time of the execution *)
  script_timeout : Z;
  g_ui_ready : bool
}.

Definition set_ninsns (n : Z) (g : Globals) : Globals :=
  mkGlobals n (box_displayed g) (start_time g) (script_timeout g) (g_ui_ready g).
Definition set_box_displayed (b : bool) (g : Globals) : Globals :=
  mkGlobals (ninsns g) b (start_time g) (script_timeout g) (g_ui_ready g).
Definition set_start_time (t : Z) (g : Globals) : Globals :=
  mkGlobals (ninsns g) (box_displayed g) t (script_timeout g) (g_ui_ready g).
Definition set_timeout (t : Z) (g : Globals) : Globals :=
  mkGlobals (ninsns g) (box_displayed g) (start_time g) t (g_ui_ready g).

(** The initial values of the file-scope definitions. *)
Definition initial_globals : Globals := mkGlobals 0 false 0 2 false.

(** Code of python.cpp: a state monad on [Globals] over [prog]. *)
Definition M (A : Type) : Type := Globals -> prog (A * Globals).

Definition ret {A : Type} (a : A) : M A := fun g => Ret (a, g).
Definition bind {A B : Type} (m : M A) (f : A -> M B) : M B :=
  fun g => pbind (m g) (fun ag => f (fst ag) (snd ag)).
Definition get : M Globals := fun g => Ret (g, g).
Definition modify (f : Globals -> Globals) : M unit := fun g => Ret (tt, f g).
Definition call {X : Type} (e : Ext X) : M X := fun g => Vis e (fun x => Ret (x, g)).
Definition raise {A : Type} (f : fault) : M A := fun _ => Fault f.

Declare Scope cpp_scope.
Delimit Scope cpp_scope with cpp.
Notation "x <- c1 ;; c2" := (bind c1 (fun x => c2))
  (at level 61, c1 at next level, right associativity) : cpp_scope.
Notation "' pat <- c1 ;; c2" :=
  (bind c1 (fun x => match x with pat => c2 end))
  (at level 61, pat pattern, c1 at next level, right associativity) : cpp_scope.
Notation "c1 ;; c2" := (bind c1 (fun _ => c2))
  (at level 61, right associativity) : cpp_scope.
Local Open Scope cpp_scope.

(** [QASSERT(code, cond)] *)
Definition QASSERT (code : Z) (cond : bool) : M unit :=
  if cond then ret tt else raise (INTERR code).

(** [Py_XDECREF(p)]: [Py_DECREF] unless [p] is NULL. *)
Definition Py_XDECREF (p : PyPtr) : M unit :=
  match p with
  | Some o => call (Py_DECREF o)
  | None => ret tt
  end.

Definition is_null (p : PyPtr) : bool :=
  match p with Some _ => false | None => true end.

(** ** Running a program against a runtime *)

(** A runtime answers every foreign call from its own state [W]. *)
Definition handler (W : Type) : Type := forall X : Type, Ext X -> W -> X * W.

(** One foreign call with its answer. *)
Record invocation : Type := Invoke {
  inv_type : Type;
  inv_call : Ext inv_type;
  inv_answer : inv_type
}.
Arguments Invoke {inv_type} inv_call inv_answer.

Inductive outcome (A : Type) : Type :=
| Done (a : A)
| Crashed (f : fault).
Arguments Done {A} a.
Arguments Crashed {A} f.

(** Result, final runtime state and the chronological list of calls. *)
Fixpoint exec {W A : Type} (h : handler W) (p : prog A) (w : W)
  : outcome A * W * list invocation :=
  match p with
  | Ret a => (Done a, w, [])
  | Fault f => (Crashed f, w, [])
  | Vis e k =>
      let xw := h _ e w in
      let r := exec h (k (fst xw)) (snd xw) in
      (fst (fst r), snd (fst r), Invoke e (fst xw) :: snd r)
  end.

Definition run {W A : Type} (h : handler W) (m : M A) (g : Globals) (w : W)
  : outcome (A * Globals) * W * list invocation :=
  exec h (m g) w.

Arguments run : simpl never.

Definition result_of {A W : Type} (r : outcome A * W * list invocation) : outcome A :=
  fst (fst r).
Definition world_of {A W : Type} (r : outcome A * W * list invocation) : W :=
  snd (fst r).
Definition calls_of {A W : Type} (r : outcome A * W * list invocation)
  : list invocation := snd r.

(** ** Execution control *)

Section Code.
Context {F : Foreign}.
Local Open Scope Z_scope.

(** A C [int]: the value of [z] in 32-bit two's complement. *)
Definition int_wrap (z : Z) : Z := (z + 2 ^ 31) mod 2 ^ 32 - 2 ^ 31.

(** [break_check(obj, frame, what, arg)]: the trace callback; its arguments
    are unused. *)
Definition break_check : M Z :=
  brk <- call wasBreak ;;
  (if brk then
     (* User pressed Cancel in the waitbox; send KeyboardInterrupt *)
     call PyErr_SetInterrupt
   else
     g <- get ;;
     if negb (box_displayed g) then
       modify (set_ninsns (int_wrap (ninsns g + 1))) ;;        (* ++ninsns *)
       g <- get ;;
       if ninsns g >? 10 then
         modify (set_ninsns 0) ;;
         g <- get ;;
         if negb (script_timeout g =? 0) then
           now <- call time_NULL ;;
           if now - start_time g >? script_timeout g then
             modify (set_box_displayed true) ;;
             call (show_wait_box "Running Python script")
           else ret tt
         else ret tt
       else ret tt
     else ret tt) ;;
  ret 0.

Definition reset_execution_time : M unit :=
  now <- call time_NULL ;;
  modify (set_start_time now) ;;
  modify (set_ninsns 0).

Definition hide_script_waitbox : M unit :=
  g <- get ;;
  if box_displayed g then
    call hide_wait_box ;;
    modify (set_box_displayed false)
  else ret tt.

(** Called after Python execution finishes. *)
Definition end_execution : M unit :=
  hide_script_waitbox ;;
  call (PyEval_SetTrace None).

(** Prepare for Python execution. *)
Definition begin_execution : M unit :=
  g <- get ;;
  if negb (g_ui_ready g) || (script_timeout g =? 0) then ret tt
  else
    end_execution ;;
    reset_execution_time ;;
    call (PyEval_SetTrace (Some break_check_fn)).

Definition disable_script_timeout : M unit :=
  modify (set_timeout 0) ;;
  end_execution.

(** [set_script_timeout(timeout)] returns the previous timeout. *)
Definition set_script_timeout (timeout : Z) : M Z :=
  g <- get ;;
  modify (set_timeout timeout) ;;                 (* qswap *)
  reset_execution_time ;;
  hide_script_waitbox ;;
  ret (script_timeout g).

(** ** Error reporting and the result bridge *)

(** [handle_python_error(errbuf, errbufsize, clear_error)]; returns the
    buffer. *)
Definition handle_python_error (errbuf : string) (errbufsize : nat)
    (clear_error : bool) : M string :=
  let errbuf := clear_if_room errbuf errbufsize in
  occurred <- call PyErr_Occurred ;;
  if negb occurred then ret errbuf
  else
    '(ok, s) <- call (PyW_GetError clear_error) ;;
    if (ok : bool) then ret (qstrncpy errbuf s errbufsize) else ret errbuf.

(** [GetMainGlobals()] *)
Definition GetMainGlobals : M PyPtr :=
  module <- call (PyImport_AddModule S_MAIN) ;;
  if is_null module then ret None else call (PyModule_GetDict module).

(** [return_python_result(idc_result, py_result, errbuf, errbufsize)];
    returns the flag, the IDC result slot and the buffer. *)
Definition return_python_result (idc_result : option idc_value_t)
    (py_result : PyPtr) (errbuf : string) (errbufsize : nat)
  : M (bool * option idc_value_t * string) :=
  let errbuf := clear_if_room errbuf errbufsize in
  match py_result with
  | None =>
      errbuf <- handle_python_error errbuf errbufsize true ;;
      ret (false, idc_result, errbuf)
  | Some o =>
      '(cvt, idc_result, errbuf) <-
        match idc_result with
        | Some v =>
            '(cvt, v') <- call (pyvar_to_idcvar o (idc_clear v)) ;;
            ret (cvt, Some v',
                 if cvt <? CIP_OK
                 then qsnprintf errbuf errbufsize "ERROR: bad return value"
                 else errbuf)
        | None => ret (CIP_OK, None, errbuf)
        end ;;
      (if negb (cvt =? CIP_OK_NODECREF) then Py_XDECREF (Some o) else ret tt) ;;
      ret (cvt >=? CIP_OK, idc_result, errbuf)
  end.

(** ** External-language adapter *)

(** [IDAPython_extlang_run(name, nargs, args, result, errbuf, errbufsize)] *)
Definition IDAPython_extlang_run (name : string) (args : list idc_value_t)
    (result : option idc_value_t) (errbuf : string) (errbufsize : nat)
  : M (bool * option idc_value_t * string) :=
  let nargs := Z.of_nat (List.length args) in
  let '(imported_module, modname, funcname) :=
    parse_py_modname name "" "" MAXSTR S_IDAAPI_MODNAME in
  '(ok, pargs, decref, errbuf) <-
    call (pyw_convert_idc_args args true errbuf errbufsize) ;;
  '(ok, module, result, errbuf) <-
    (if negb ok then ret (false, None, result, errbuf)
     else
       module <-
         (if imported_module then
            call PYW_GIL_ENSURE ;;
            m <- call (PyImport_ImportModule modname) ;;
            call PYW_GIL_RELEASE ;;
            ret m
          else
            m <- call (PyImport_AddModule S_MAIN) ;;
            QASSERT 30156 (negb (is_null m)) ;;
            ret m) ;;
       globals <- call (PyModule_GetDict module) ;;
       match globals with
       | None => raise (INTERR 30157)
       | Some globals =>
           func <- call (PyDict_GetItemString globals funcname) ;;
           match func with
           | None =>
               ret (false, module, result,
                    qsnprintf errbuf errbufsize ("undefined function " ++ name))
           | Some func =>
               code <- call (PyFunction_GetCode func) ;;
               call PYW_GIL_ENSURE ;;
               pres <- call (PyEval_EvalCodeEx code globals pargs nargs) ;;
               call PYW_GIL_RELEASE ;;
               '(ok, result, errbuf) <-
                 return_python_result result pres errbuf errbufsize ;;
               ret (ok, module, result, errbuf)
           end
       end) ;;
  call (pyw_free_idc_args pargs (Some decref)) ;;
  (if imported_module then Py_XDECREF module else ret tt) ;;
  ret (ok, result, errbuf).

(** The locals of [IDAPython_extlang_get_attr] alive after its
    [do ... while (false)] block. *)
Record get_attr_locals : Type := mkLocals {
  ga_cvt : Z;
  ga_py_mod : PyPtr;
  ga_py_obj : PyPtr;
  ga_is_opaque_obj : bool;
  ga_result : option idc_value_t
}.

(** The special case of [IDAPython_extlang_get_attr]: no attribute passed,
    retrieve the class name of the object; returns [cvt] and the result. *)
Definition get_attr_class_name (py_obj : PyObject)
    (result : option idc_value_t) : M (Z * option idc_value_t) :=
  cls <- call (PyObject_GetAttrString py_obj "__class__") ;;
  match cls with
  | None => ret (CIP_FAILED, result)
  | Some cls =>
      name <- call (PyObject_GetAttrString cls "__name__") ;;
      call (Py_DECREF cls) ;;
      match name with
      | None => ret (CIP_FAILED, result)
      | Some name =>
          str <- call (PyObject_Str name) ;;
          call (Py_DECREF name) ;;
          match str with
          | None => ret (CIP_FAILED, result)
          | Some _ =>
              clsname <- call (PyString_AsString name) ;;
              match clsname with
              | None => ret (CIP_FAILED, result)
              | Some clsname =>
                  match result with
                  | None => raise NullDeref
                  | Some r => ret (CIP_OK, Some (set_string r clsname))
                  end
              end
          end
      end
  end.

(** The ordinary case: look the attribute up and convert it. *)
Definition get_attr_lookup (py_obj : PyObject) (attr : string)
    (result : option idc_value_t) : M (Z * option idc_value_t) :=
  py_attr <- call (PyW_TryGetAttrString (Some py_obj) attr) ;;
  match py_attr with
  | None => ret (CIP_FAILED, result)
  | Some py_attr =>
      match result with
      | None =>
          call (Py_DECREF py_attr) ;;
          ret (CIP_OK, None)
      | Some r =>
          '(cvt, r') <- call (pyvar_to_idcvar py_attr r) ;;
          (if (cvt >=? CIP_OK) && negb (cvt =? CIP_OK_NODECREF)
           then call (Py_DECREF py_attr) else ret tt) ;;
          ret (cvt, Some r')
      end
  end.

Definition attr_not_passed (attr : option string) : bool :=
  match attr with
  | None => true
  | Some a => at_end a
  end.

Definition get_attr_block (obj : option idc_value_t) (attr : option string)
    (result : option idc_value_t) : M get_attr_locals :=
  py_mod <- call (PyW_TryImportModule S_MAIN) ;;
  match py_mod with
  | None => ret (mkLocals CIP_FAILED None None false result)
  | Some m =>
      let finish (py_obj : PyObject) (is_opaque : bool) :=
        '(cvt, result) <-
          (if attr_not_passed attr then get_attr_class_name py_obj result
           else get_attr_lookup py_obj
                  (match attr with Some a => a | None => "" end) result) ;;
        ret (mkLocals cvt py_mod (Some py_obj) is_opaque result) in
      match obj with
      | Some (VT_STR2 s) =>
          py_obj <- call (PyW_TryGetAttrString py_mod s) ;;
          match py_obj with
          | None => ret (mkLocals CIP_FAILED py_mod None false result)
          | Some o => finish o false
          end
      | Some v =>
          '(cvt, py_obj) <- call (idcvar_to_pyvar v) ;;
          if negb (cvt =? CIP_OK_NODECREF) then
            Py_XDECREF py_obj ;;
            ret (mkLocals CIP_FAILED py_mod None false result)
          else
            match py_obj with
            | None => ret (mkLocals cvt py_mod None true result)
            | Some o => finish o true
            end
      | None => finish m false
      end
  end.

(** [IDAPython_extlang_get_attr(obj, attr, result)] *)
Definition IDAPython_extlang_get_attr (obj : option idc_value_t)
    (attr : option string) (result : option idc_value_t)
  : M (bool * option idc_value_t) :=
  l <- get_attr_block obj attr result ;;
  Py_XDECREF (ga_py_mod l) ;;
  (match obj with
   | Some _ => if negb (ga_is_opaque_obj l) then Py_XDECREF (ga_py_obj l) else ret tt
   | None => ret tt
   end) ;;
  ret (ga_cvt l >=? CIP_OK, ga_result l).

(** [IDAPython_extlang_call_method(idc_obj, method_name, nargs, args,
    result, errbuf, errbufsize)] *)
Definition IDAPython_extlang_call_method (idc_obj : option idc_value_t)
    (method_name : option string) (args : list idc_value_t)
    (result : option idc_value_t) (errbuf : string) (errbufsize : nat)
  : M (bool * option idc_value_t * string) :=
  match idc_obj, method_name with
  | _, None =>
      ret (false, result,
           qstrncpy errbuf "call_method does not support this operation" errbufsize)
  | None, Some method_name =>
      (* Behave like run() *)
      IDAPython_extlang_run method_name args result errbuf errbufsize
  | Some obj, Some method_name =>
      '(obj_cvt, py_obj) <- call (idcvar_to_pyvar obj) ;;
      '(ok, py_method, pargs, result, errbuf) <-
        (if obj_cvt <? CIP_OK then
           ret (false, None, [], result,
                qstrncpy errbuf "Failed to convert input object to Python value"
                         errbufsize)
         else
           py_method <- call (PyW_TryGetAttrString py_obj method_name) ;;
           callable <-
             match py_method with
             | None => ret false
             | Some f => call (PyCallable_Check f)
             end ;;
           match py_method, callable with
           | Some f, true =>
               '(ok, pargs, _, errbuf) <-
                 call (pyw_convert_idc_args args false errbuf errbufsize) ;;
               if negb ok then ret (false, py_method, pargs, result, errbuf)
               else
                 call PYW_GIL_ENSURE ;;
                 py_res <- call (PyObject_CallObject f
                                   (match pargs with [] => None | a :: _ => a end)) ;;
                 call PYW_GIL_RELEASE ;;
                 '(ok, result, errbuf) <-
                   return_python_result result py_res errbuf errbufsize ;;
                 ret (ok, py_method, pargs, result, errbuf)
           | _, _ =>
               ret (false, py_method, [], result,
                    qsnprintf errbuf errbufsize
                      ("The input object does not have a callable method called '"
                         ++ method_name ++ "'"))
           end) ;;
      call (pyw_free_idc_args pargs None) ;;
      (if negb (obj_cvt =? CIP_OK_NODECREF) then Py_XDECREF py_obj else ret tt) ;;
      Py_XDECREF py_method ;;
      ret (ok, result, errbuf)
  end.

(** ** Interactive console *)

(** [PythonEvalOrExec(str, filename)] *)
Definition PythonEvalOrExec (str filename : string) : M unit :=
  py_code <- call (Py_CompileStringFlags str filename) ;;
  failed <- match py_code with
            | None => ret true
            | Some _ => call PyErr_Occurred
            end ;;
  match py_code, failed with
  | Some code, false =>
      py_globals <- GetMainGlobals ;;
      call PYW_GIL_ENSURE ;;
      py_result <- call (PyEval_EvalCode code py_globals py_globals) ;;
      call PYW_GIL_RELEASE ;;
      call (Py_DECREF code) ;;
      failed <- match py_result with
                | None => ret true
                | Some _ => call PyErr_Occurred
                end ;;
      match py_result, failed with
      | Some r, false =>
          (if negb (N.eqb r Py_None) then
             '(ok, result_str) <- call (PyW_ObjectToString r) ;;
             if (ok : bool) then call (msg (result_str ++ String "010" ""))
             else ret tt
           else ret tt) ;;
          call (Py_DECREF r)
      | _, _ => call PyErr_Print
      end
  | _, _ =>
      (* Not an expression?  Run as a string *)
      call PyErr_Clear ;;
      call (PyRun_SimpleString str) ;;
      ret tt
  end.

(** The last line of the input: the text after the last newline. *)
Definition cli_last_line (line : string) : string :=
  match strrchr line "010" with
  | None => line
  | Some i => advance (i + 1) line
  end.

(** Line ends with ":" or begins with a space character? *)
Definition cli_more (line : string) : bool :=
  let last_line := cli_last_line line in
  if negb (at_end last_line) then
    Ascii.eqb (char_at last_line (qstrlen last_line - 1)) ":"
    || qisspace (char_at last_line 0)
  else false.

(** The pseudo commands [?] (help) and [!] (shell). *)
Definition cli_pseudo_command (line : string) : string :=
  if Ascii.eqb (char_at line 0) "?" then
    "help(" ++ advance 1 line ++ ")"
  else if Ascii.eqb (char_at line 0) "!" then
    "idaapi.IDAPython_ExecSystem(r'" ++ advance 1 line ++ "')"
  else line.

(** [IDAPython_cli_execute_line(line)] *)
Definition IDAPython_cli_execute_line (line : string) : M bool :=
  if at_end line then ret true
  else if cli_more line then ret false
  else
    let line := cli_pseudo_command line in
    begin_execution ;;
    PythonEvalOrExec line "<string>" ;;
    end_execution ;;
    ret true.

End Code.

(** ** Observations on a run *)

(** The trace function in force after a list of calls, from the one in force
    before: [PyEval_SetTrace] replaces it, nothing else touches it. *)
Fixpoint installed_hook (before : option Py_tracefunc) (calls : list invocation)
  : option Py_tracefunc :=
  match calls with
  | [] => before
  | c :: rest =>
      installed_hook
        (match inv_call c with
         | PyEval_SetTrace f => f
         | _ => before
         end) rest
  end.

Definition is_show (c : invocation) : bool :=
  match inv_call c with show_wait_box _ => true | _ => false end.
Definition is_hide (c : invocation) : bool :=
  match inv_call c with hide_wait_box => true | _ => false end.
Definition is_decref_of (o : PyObject) (c : invocation) : bool :=
  match inv_call c with Py_DECREF o' => N.eqb o o' | _ => false end.
Definition is_attr_lookup (c : invocation) : bool :=
  match inv_call c with
  | PyObject_GetAttrString _ _ => true
  | PyW_TryGetAttrString _ _ => true
  | _ => false
  end.
Definition is_any_decref (c : invocation) : bool :=
  match inv_call c with Py_DECREF _ => true | _ => false end.
Definition is_time (c : invocation) : bool :=
  match inv_call c with time_NULL => true | _ => false end.







(** How many calls of a kind a run made. *)
Definition count (f : invocation -> bool) (calls : list invocation) : nat :=
  List.length (List.filter f calls).

(** The static variables after a run that returned. *)
Definition globals_of {A W : Type}
    (r : outcome (A * Globals) * W * list invocation) : option Globals :=
  match result_of r with
  | Done ag => Some (snd ag)
  | Crashed _ => None
  end.

Definition value_of {A W : Type}
    (r : outcome (A * Globals) * W * list invocation) : option A :=
  match result_of r with
  | Done ag => Some (fst ag)
  | Crashed _ => None
  end.

(** ** The console heuristic, in the words of its documentation *)

(** The input cut at its newlines; never empty. *)
Fixpoint split_lines (s : string) : list string :=
  match s with
  | EmptyString => [EmptyString]
  | String c s' =>
      if Ascii.eqb c "010" then EmptyString :: split_lines s'
      else match split_lines s' with
           | l :: ls => String c l :: ls
           | [] => [String c EmptyString]
           end
  end.

Definition last_input_line (line : string) : string :=
  List.last (split_lines line) EmptyString.

Fixpoint ends_with (c : ascii) (s : string) : bool :=
  match s with
  | EmptyString => false
  | String a EmptyString => Ascii.eqb a c
  | String _ s' => ends_with c s'
  end.

(** Space, tab, newline, vertical tab, form feed, carriage return. *)
Definition whitespace (c : ascii) : bool :=
  existsb (Ascii.eqb c) [" "; "009"; "010"; "011"; "012"; "013"]%char.

Definition begins_with_whitespace (s : string) : bool :=
  match s with
  | EmptyString => false
  | String c _ => whitespace c
  end.

(** More input is needed: the last line is not empty and ends with the
    block opener or begins with white space. *)
Definition needs_more_input (line : string) : bool :=
  let l := last_input_line line in
  negb (String.eqb l "") && (ends_with ":" l || begins_with_whitespace l).

(** ** Execution windows *)

Section Windows.
Context {F : Foreign}.

(** What can run between [begin_execution] and the matching
    [end_execution]: the interpreter invokes the trace callback, and the
    script may call [set_script_timeout] (exported to scripts). *)
Inductive window_step : Type :=
| HookCall
| SetTimeout (timeout : Z).

Definition do_step (s : window_step) : M unit :=
  match s with
  | HookCall => break_check ;; ret tt
  | SetTimeout t => set_script_timeout t ;; ret tt
  end.

Fixpoint do_steps (steps : list window_step) : M unit :=
  match steps with
  | [] => ret tt
  | s :: rest => do_step s ;; do_steps rest
  end.

Definition window (steps : list window_step) : M unit :=
  begin_execution ;; do_steps steps ;; end_execution.

Definition is_hook_call (s : window_step) : bool :=
  match s with HookCall => true | SetTimeout _ => false end.

(** Shows still possible before the flag must be cleared again. *)
Definition shows_left (g : Globals) : nat :=
  if box_displayed g then 0 else 1.

(** Calls of [set_script_timeout] among the steps of a window. *)
Definition timeout_changes (steps : list window_step) : nat :=
  List.length (List.filter (fun s => negb (is_hook_call s)) steps).

(** [begin_execution] does install the hook in these states. *)
Definition polling_enabled (g : Globals) : bool :=
  g_ui_ready g && negb (script_timeout g =? 0)%Z.

End Windows.

(** ** Two concrete runtimes *)

(** The pywraps constants of the IDAPython sources. *)
#[export] Instance idapython_foreign : Foreign := {|
  CIP_FAILED := -1;
  CIP_OK := 1;
  CIP_OK_NODECREF := 2;
  S_IDAAPI_MODNAME := "idaapi";
  MAXSTR := 1024;
  Py_None := 1%N
|}.

(** A runtime in which nothing is found and nothing is pending: every
    pointer answer is NULL, no cancel request, and a clock (the state) that
    advances by [tick] seconds per reading. *)
Definition bare_runtime (tick : Z) : handler Z :=
  fun X e =>
    match e in Ext X return Z -> X * Z with
    | wasBreak => fun w => (false, w)
    | show_wait_box _ => fun w => (tt, w)
    | hide_wait_box => fun w => (tt, w)
    | time_NULL => fun w => (w, (w + tick)%Z)
    | msg _ => fun w => (tt, w)
    | PyErr_SetInterrupt => fun w => (tt, w)
    | PyEval_SetTrace _ => fun w => (tt, w)
    | PyErr_Occurred => fun w => (false, w)
    | PyErr_Clear => fun w => (tt, w)
    | PyErr_Print => fun w => (tt, w)
    | Py_DECREF _ => fun w => (tt, w)
    | PyImport_ImportModule _ => fun w => (None, w)
    | PyImport_AddModule _ => fun w => (None, w)
    | PyModule_GetDict _ => fun w => (None, w)
    | PyDict_GetItemString _ _ => fun w => (None, w)
    | PyFunction_GetCode _ => fun w => (None, w)
    | PyEval_EvalCodeEx _ _ _ _ => fun w => (None, w)
    | PyObject_GetAttrString _ _ => fun w => (None, w)
    | PyObject_Str _ => fun w => (None, w)
    | PyString_AsString _ => fun w => (None, w)
    | PyCallable_Check _ => fun w => (false, w)
    | PyObject_CallObject _ _ => fun w => (None, w)
    | Py_CompileStringFlags _ _ => fun w => (None, w)
    | PyRun_SimpleString _ => fun w => (0%Z, w)
    | PyEval_EvalCode _ _ _ => fun w => (None, w)
    | PYW_GIL_ENSURE => fun w => (tt, w)
    | PYW_GIL_RELEASE => fun w => (tt, w)
    | PyW_GetError _ => fun w => ((false, ""), w)
    | PyW_ObjectToString _ => fun w => ((false, ""), w)
    | PyW_TryImportModule _ => fun w => (None, w)
    | PyW_TryGetAttrString _ _ => fun w => (None, w)
    | pyvar_to_idcvar _ cur => fun w => ((CIP_FAILED, cur), w)
    | idcvar_to_pyvar _ => fun w => ((CIP_FAILED, None), w)
    | pyw_convert_idc_args _ _ errbuf _ => fun w => ((false, [], [], errbuf), w)
    | pyw_free_idc_args _ _ => fun w => (tt, w)
    end.

(** *** A small interpreter

    Enough of CPython and of the pywraps conversions to run the adapter on
    concrete inputs: integers, strings and objects with an attribute table
    (modules, classes, instances; a module's dictionary is its table), with
    reference counts.  It cannot compile or call code. *)

Inductive py_value : Type :=
| PyInt (z : Z)
| PyStr (s : string)
| PyAttrs (attrs : list (string * PyObject)).

Record py_world : Type := mkWorld {
  heap : list (PyObject * py_value);
  ob_refcnt : list (PyObject * Z);
  sys_modules : list (string * PyObject);
  clock : Z;
  next_address : N
}.

Fixpoint assoc_N {A : Type} (k : N) (l : list (N * A)) : option A :=
  match l with
  | [] => None
  | (k', a) :: rest => if N.eqb k k' then Some a else assoc_N k rest
  end.

Fixpoint assoc_str {A : Type} (k : string) (l : list (string * A)) : option A :=
  match l with
  | [] => None
  | (k', a) :: rest => if String.eqb k k' then Some a else assoc_str k rest
  end.

Definition refcount (w : py_world) (o : PyObject) : Z :=
  match assoc_N o (ob_refcnt w) with Some n => n | None => 0%Z end.

Definition add_ref (d : Z) (o : PyObject) (w : py_world) : py_world :=
  mkWorld (heap w) ((o, (refcount w o + d)%Z) :: ob_refcnt w)
          (sys_modules w) (clock w) (next_address w).

(** A new object, with one reference. *)
Definition allocate (v : py_value) (w : py_world) : PyObject * py_world :=
  let a := next_address w in
  (a, mkWorld ((a, v) :: heap w) ((a, 1%Z) :: ob_refcnt w)
              (sys_modules w) (clock w) (N.succ a)).

(** The attribute [name] of [o], as a borrowed reference. *)
Definition attribute (w : py_world) (o : PyObject) (name : string) : PyPtr :=
  match assoc_N o (heap w) with
  | Some (PyAttrs attrs) => assoc_str name attrs
  | _ => None
  end.

Definition new_reference (p : PyPtr) (w : py_world) : PyPtr * py_world :=
  match p with
  | Some o => (Some o, add_ref 1 o w)
  | None => (None, w)
  end.


Definition decimal (n : nat) : string := NilZero.string_of_uint (Nat.to_uint n).

(** Modelled from the spec: the conversion of one Host Value to an
    Embedded Object (pywraps [idcvar_to_pyvar], not in python.cpp).  Scalars
    and strings convert by value to a new object; an opaque handle gives back
    the object it wraps, without a new reference; any other category fails. *)
Definition toy_idcvar_to_pyvar {F : Foreign} (v : idc_value_t) (w : py_world)
  : (Z * PyPtr) * py_world :=
  match v with
  | VT_LONG z | VT_INT64 z | VT_FLOAT z =>
      let aw := allocate (PyInt z) w in ((CIP_OK, Some (fst aw)), snd aw)
  | VT_PVOID p =>
      let aw := allocate (PyInt (Z.of_N p)) w in ((CIP_OK, Some (fst aw)), snd aw)
  | VT_STR2 s =>
      let aw := allocate (PyStr s) w in ((CIP_OK, Some (fst aw)), snd aw)
  | VT_OBJ o =>
      match assoc_N o (heap w) with
      | Some _ => ((CIP_OK_NODECREF, Some o), w)
      | None => ((CIP_FAILED, None), w)
      end
  | VT_FUNC _ | VT_WILD => ((CIP_FAILED, None), w)
  end.

(** Modelled from the spec: the conversion of an Embedded Object to a Host
    Value (pywraps [pyvar_to_idcvar], not in python.cpp).  Scalars and
    strings are copied out; any other object is wrapped as an opaque handle
    that takes over the caller's reference. *)
Definition toy_pyvar_to_idcvar {F : Foreign} (o : PyObject) (cur : idc_value_t)
    (w : py_world) : (Z * idc_value_t) * py_world :=
  match assoc_N o (heap w) with
  | Some (PyInt z) => ((CIP_OK, VT_LONG z), w)
  | Some (PyStr s) => ((CIP_OK, VT_STR2 s), w)
  | Some (PyAttrs _) => ((CIP_OK_NODECREF, VT_OBJ o), w)
  | None => ((CIP_FAILED, cur), w)
  end.

Definition release_all (pargs : list PyPtr) (w : py_world) : py_world :=
  fold_left (fun w p => match p with Some o => add_ref (-1) o w | None => w end)
            pargs w.

(** Modelled from the spec: the bulk variant (pywraps
    [pyw_convert_idc_args], not in python.cpp).  It converts the arguments in
    order and produces the parallel must-release flags; on the first element
    that fails, the objects converted so far are released and the failure is
    reported with a message of its own. *)
Fixpoint toy_convert_args {F : Foreign} (i : nat) (args : list idc_value_t)
    (pargs : list PyPtr) (decref : list bool) (errbuf : string)
    (errbufsize : nat) (w : py_world)
  : (bool * list PyPtr * list bool * string) * py_world :=
  match args with
  | [] => ((true, pargs, decref, errbuf), w)
  | v :: rest =>
      let r := toy_idcvar_to_pyvar v w in
      let cvt := fst (fst r) in
      if (cvt <? CIP_OK)%Z then
        ((false, [], [],
          qsnprintf errbuf errbufsize ("arg#" ++ decimal i ++ " has wrong type")),
         release_all pargs (snd r))
      else
        toy_convert_args (S i) rest (pargs ++ [snd (fst r)])%list
          (decref ++ [negb (cvt =? CIP_OK_NODECREF)%Z])%list
          errbuf errbufsize (snd r)
  end.

Definition toy_free_args (pargs : list PyPtr) (decref : option (list bool))
    (w : py_world) : py_world :=
  match decref with
  | Some flags =>
      release_all (map fst (filter (fun pf : PyPtr * bool => snd pf)
                                   (combine pargs flags))) w
  | None => release_all pargs w
  end.

Definition toy_import (add : bool) (name : string) (w : py_world)
  : PyPtr * py_world :=
  match assoc_str name (sys_modules w) with
  | Some m => if add then (Some m, w) else (Some m, add_ref 1 m w)
  | None =>
      if add then
        let aw := allocate (PyAttrs []) w in
        (Some (fst aw),
         mkWorld (heap (snd aw)) (ob_refcnt (snd aw))
                 ((name, fst aw) :: sys_modules w) (clock w)
                 (next_address (snd aw)))
      else (None, w)
  end.

Definition toy_str (o : PyObject) (w : py_world) : PyPtr * py_world :=
  match assoc_N o (heap w) with
  | Some (PyStr _) => (Some o, add_ref 1 o w)
  | Some (PyInt z) =>
      let aw := allocate (PyStr (NilZero.string_of_int (Z.to_int z))) w in
      (Some (fst aw), snd aw)
  | _ => (None, w)
  end.

Definition toy_python {F : Foreign} : handler py_world :=
  fun X e =>
    match e in Ext X return py_world -> X * py_world with
    | wasBreak => fun w => (false, w)
    | show_wait_box _ => fun w => (tt, w)
    | hide_wait_box => fun w => (tt, w)
    | time_NULL => fun w =>
        (clock w, mkWorld (heap w) (ob_refcnt w) (sys_modules w)
                          (clock w + 1)%Z (next_address w))
    | msg _ => fun w => (tt, w)
    | PyErr_SetInterrupt => fun w => (tt, w)
    | PyEval_SetTrace _ => fun w => (tt, w)
    | PyErr_Occurred => fun w => (false, w)
    | PyErr_Clear => fun w => (tt, w)
    | PyErr_Print => fun w => (tt, w)
    | Py_DECREF o => fun w => (tt, add_ref (-1) o w)
    | PyImport_ImportModule name => toy_import false name
    | PyImport_AddModule name => toy_import true name
    | PyModule_GetDict m => fun w =>
        (match m with
         | Some o => match assoc_N o (heap w) with
                     | Some (PyAttrs _) => Some o
                     | _ => None
                     end
         | None => None
         end, w)
    | PyDict_GetItemString d key => fun w => (attribute w d key, w)
    | PyFunction_GetCode _ => fun w => (None, w)
    | PyEval_EvalCodeEx _ _ _ _ => fun w => (None, w)
    | PyObject_GetAttrString o name => fun w => new_reference (attribute w o name) w
    | PyObject_Str o => toy_str o
    | PyString_AsString o => fun w =>
        (match assoc_N o (heap w) with
         | Some (PyStr s) => Some s
         | _ => None
         end, w)
    | PyCallable_Check _ => fun w => (false, w)
    | PyObject_CallObject _ _ => fun w => (None, w)
    | Py_CompileStringFlags _ _ => fun w => (None, w)
    | PyRun_SimpleString _ => fun w => ((-1)%Z, w)
    | PyEval_EvalCode _ _ _ => fun w => (None, w)
    | PYW_GIL_ENSURE => fun w => (tt, w)
    | PYW_GIL_RELEASE => fun w => (tt, w)
    | PyW_GetError _ => fun w => ((false, ""), w)
    | PyW_ObjectToString _ => fun w => ((false, ""), w)
    | PyW_TryImportModule name => toy_import false name
    | PyW_TryGetAttrString o name => fun w =>
        match o with
        | Some o => new_reference (attribute w o name) w
        | None => (None, w)
        end
    | pyvar_to_idcvar o cur => toy_pyvar_to_idcvar o cur
    | idcvar_to_pyvar v => toy_idcvar_to_pyvar v
    | pyw_convert_idc_args args _ errbuf errbufsize =>
        toy_convert_args 0 args [] [] errbuf errbufsize
    | pyw_free_idc_args pargs decref => fun w => (tt, toy_free_args pargs decref w)
    end.

(** A session: [__main__] (object 10) defines [answer = 42] and [greet], an
    instance of class [Greeter]; each object has its [__class__], each class
    its [__name__]; object 50 stands for an object whose [__class__] lookup
    raises. *)
Definition session : py_world :=
  mkWorld
    [ (10%N, PyAttrs [("__class__", 11%N); ("answer", 20%N); ("greet", 30%N);
                      ("broken", 50%N)]);
      (11%N, PyAttrs [("__name__", 12%N)]);
      (12%N, PyStr "module");
      (20%N, PyInt 42);
      (30%N, PyAttrs [("__class__", 31%N)]);
      (31%N, PyAttrs [("__name__", 32%N)]);
      (32%N, PyStr "Greeter");
      (50%N, PyAttrs []) ]
    [ (10%N, 1%Z); (11%N, 5%Z); (12%N, 1%Z); (20%N, 1%Z); (30%N, 1%Z);
      (31%N, 2%Z); (32%N, 1%Z); (50%N, 1%Z) ]
    [ (S_MAIN, 10%N) ]
    0 100.

(** ** More of the adapter *)

Section MoreCode.
Context {F : Foreign}.
Local Open Scope Z_scope.

(** [IDAPython_extlang_create_object(name, nargs, args, result, errbuf,
    errbufsize)] *)
Definition IDAPython_extlang_create_object (name : string)
    (args : list idc_value_t) (result : option idc_value_t)
    (errbuf : string) (errbufsize : nat)
  : M (bool * option idc_value_t * string) :=
  (* Parse the object name (to get the module and class name) *)
  let '(_, modname, clsname) :=
    parse_py_modname name "" "" MAXSTR S_IDAAPI_MODNAME in
  py_mod <- call (PyW_TryImportModule modname) ;;
  '(ok, py_cls, pargs, result, errbuf) <-
    match py_mod with
    | None =>
        ret (false, None, [], result,
             qsnprintf errbuf errbufsize
               ("Could not import module '" ++ modname ++ "'!"))
    | Some _ =>
        py_cls <- call (PyW_TryGetAttrString py_mod clsname) ;;
        match py_cls with
        | None =>
            ret (false, None, [], result,
                 qsnprintf errbuf errbufsize
                   ("Could not find class type '" ++ clsname ++ "'!"))
        | Some cls =>
            '(ok, pargs, _, errbuf) <-
              call (pyw_convert_idc_args args false errbuf errbufsize) ;;
            if negb ok then ret (false, py_cls, pargs, result, errbuf)
            else
              call PYW_GIL_ENSURE ;;
              py_res <- call (PyObject_CallObject cls
                                (match pargs with [] => None | a :: _ => a end)) ;;
              call PYW_GIL_RELEASE ;;
              '(ok, result, errbuf) <-
                return_python_result result py_res errbuf errbufsize ;;
              ret (ok, py_cls, pargs, result, errbuf)
        end
    end ;;
  Py_XDECREF py_mod ;;
  Py_XDECREF py_cls ;;
  (* Free the arguments tuple *)
  call (pyw_free_idc_args pargs None) ;;
  ret (ok, result, errbuf).

End MoreCode.

(** ** Running statements for IDC *)

Section Statements.
Context {F : Foreign}.

(** [PyRun_String(str, Py_file_input, globals, globals)] runs arbitrary
    Python, which can call back into python.cpp (the trace callback, the
    exported timeout functions); it is taken as the computation over the
    statics that it stands for. *)
Variable PyRun_String : string -> PyObject -> M PyPtr.

(** [IDAPython_extlang_run_statements(str, errbuf, errbufsize)]; returns the
    flag and the buffer. *)
Definition IDAPython_extlang_run_statements (str errbuf : string)
    (errbufsize : nat) : M (bool * string) :=
  globals <- GetMainGlobals ;;
  '(ok, errbuf) <-
    match globals with
    | None => ret (false, errbuf)
    | Some globals =>
        let errbuf := EmptyString in                  (* errbuf[0] = '\0' *)
        call PyErr_Clear ;;
        begin_execution ;;
        call PYW_GIL_ENSURE ;;
        result <- PyRun_String str globals ;;
        call PYW_GIL_RELEASE ;;
        Py_XDECREF result ;;
        end_execution ;;
        ok <- match result with
              | None => ret false
              | Some _ => occurred <- call PyErr_Occurred ;; ret (negb occurred)
              end ;;
        if negb ok then
          errbuf <- handle_python_error errbuf errbufsize true ;;
          ret (ok, errbuf)
        else ret (ok, errbuf)
    end ;;
  if negb ok && at_end errbuf
  then ret (ok, qstrncpy errbuf "internal error" errbufsize)
  else ret (ok, errbuf).

(** The only code [idc_runpythonstatement] returns. *)
Inductive error_t : Type := eOk.

(** [idc_runpythonstatement(argv, res)]: [argv0] is the string argument,
    [errbuf] the content of the local buffer, which is not initialised. *)
Definition idc_runpythonstatement (argv0 : string) (res : idc_value_t)
    (errbuf : string) : M (error_t * idc_value_t) :=
  '(ok, errbuf) <- IDAPython_extlang_run_statements argv0 errbuf MAXSTR ;;
  if (ok : bool) then ret (eOk, VT_LONG 0)
  else ret (eOk, set_string res errbuf).

End Statements.

(** ** Start-up helpers

    Their foreign calls only fetch the input and deliver the output, so each
    is the function from the one to the other. *)

(** Constants of the IDA SDK (pro.h) the helpers depend on. *)
Class Platform : Type := {
  DELIMITER : string;     (* separator of path lists: ":" or ";" *)
  QMAXPATH : nat
}.

(** [qstrtok(s, delim, &ctx)] like [strtok_r]: skip the delimiters in front,
    NULL at the end of the string; otherwise the token up to the next
    delimiter and, in [ctx], the text after that delimiter. *)
Definition is_delim (delim : string) (c : ascii) : bool :=
  existsb (Ascii.eqb c) (list_ascii_of_string delim).

Fixpoint skip_delims (delim s : string) : string :=
  match s with
  | EmptyString => EmptyString
  | String c s' => if is_delim delim c then skip_delims delim s' else s
  end.

Fixpoint take_token (delim s : string) : string * string :=
  match s with
  | EmptyString => (EmptyString, EmptyString)
  | String c s' =>
      if is_delim delim c then (EmptyString, s')
      else let tr := take_token delim s' in (String c (fst tr), snd tr)
  end.

Definition qstrtok (s delim : string) : option (string * string) :=
  let s := skip_delims delim s in
  if at_end s then None else Some (take_token delim s).

Section StartUp.
Context {P : Platform}.
Local Open Scope Z_scope.

(** The [for] loop of [sanitize_path]: [ctx] is the text still to be cut,
    [newpath] the path built so far; one unit of fuel per iteration. *)
Fixpoint sanitize_path_loop (fuel : nat) (ctx newpath : string) : string :=
  match fuel with
  | O => newpath
  | S fuel' =>
      match qstrtok ctx DELIMITER with
      | None => newpath
      | Some (d0, ctx') =>
          if at_end d0 then
            (* skip empty entry *)
            sanitize_path_loop fuel' ctx' newpath
          else
            let newpath :=
              if negb (at_end newpath) then newpath ++ DELIMITER else newpath in
            sanitize_path_loop fuel' ctx' (newpath ++ d0)
      end
  end.

(** [sanitize_path()]: from the answer of [Py_GetPath()] to the argument of
    [PySys_SetPath]. Every iteration consumes a character of the buffer, so
    its length bounds the number of iterations. *)
Definition sanitize_path (py_path : string) : string :=
  let buf := qstrncpy "" py_path QMAXPATH in
  sanitize_path_loop (S (String.length buf)) buf "".

(** [atoi]: white space, an optional sign, decimal digits.  A value that
    does not fit an [int] is undefined in C; here it wraps. *)
Definition is_digit (c : ascii) : bool :=
  let n := nat_of_ascii c in Nat.leb 48 n && Nat.leb n 57.

Fixpoint atoi_digits (s : string) (acc : Z) : Z :=
  match s with
  | EmptyString => acc
  | String c s' =>
      if is_digit c
      then atoi_digits s' (10 * acc + (Z.of_nat (nat_of_ascii c) - 48))
      else acc
  end.

Fixpoint atoi_skip_space (s : string) : string :=
  match s with
  | EmptyString => EmptyString
  | String c s' => if qisspace c then atoi_skip_space s' else s
  end.

Definition atoi (s : string) : Z :=
  match atoi_skip_space s with
  | String "-" s' => int_wrap (- atoi_digits s' 0)
  | String "+" s' => int_wrap (atoi_digits s' 0)
  | s' => int_wrap (atoi_digits s' 0)
  end.

(** [enum script_run_when] *)
Definition run_on_db_open : Z := 0.
Definition run_on_ui_ready : Z := 1.
Definition run_on_init : Z := 2.

(** The statics written by [parse_plugin_options]. *)
Record RunOptions : Type := mkRunOptions {
  g_run_when : Z;
  g_run_script : string
}.

(** [parse_plugin_options()], from the answer of
    [get_plugin_options(S_IDAPYTHON)] (NULL: no options). *)
Definition parse_plugin_options (options : option string) (st : RunOptions)
  : RunOptions :=
  match options with
  | None => st
  | Some options =>
      match strchr options ";" with
      | None =>
          mkRunOptions run_on_db_open
            (qstrncpy (g_run_script st) options QMAXPATH)
      | Some p =>
          mkRunOptions (atoi options)
            (qstrncpy (g_run_script st) (advance (p + 1) options) QMAXPATH)
      end
  end.

(** The boolean settings written by [set_python_options]. *)
Record Switches : Type := mkSwitches {
  g_alert_auto_scripts : bool;
  g_remove_cwd_sys_path : bool;
  g_use_local_python : bool
}.

Definition initial_switches : Switches := mkSwitches true false false.

Inductive idpopt_result : Type := IDPOPT_OK | IDPOPT_BADKEY.

(** [set_python_options(keyword, value_type, value)]; [value] is the
    [uval_t] behind the pointer, [IDPOPT_NUM] the SDK's tag for numbers. *)
Definition set_python_options (IDPOPT_NUM : Z) (keyword : string)
    (value_type : Z) (value : Z) (g : Globals) (sw : Switches)
  : idpopt_result * Globals * Switches :=
  if value_type =? IDPOPT_NUM then
    if String.eqb keyword "SCRIPT_TIMEOUT" then
      (IDPOPT_OK, set_timeout (int_wrap value) g, sw)
    else if String.eqb keyword "ALERT_AUTO_SCRIPTS" then
      (IDPOPT_OK, g,
       mkSwitches (negb (value =? 0)) (g_remove_cwd_sys_path sw)
                  (g_use_local_python sw))
    else if String.eqb keyword "REMOVE_CWD_SYS_PATH" then
      (IDPOPT_OK, g,
       mkSwitches (g_alert_auto_scripts sw) (negb (value =? 0))
                  (g_use_local_python sw))
    else if String.eqb keyword "USE_LOCAL_PYTHON" then
      (IDPOPT_OK, g,
       mkSwitches (g_alert_auto_scripts sw) (g_remove_cwd_sys_path sw)
                  (negb (value =? 0)))
    else (IDPOPT_BADKEY, g, sw)
  else (IDPOPT_BADKEY, g, sw).

End StartUp.

#[export] Instance unix_platform : Platform := {|
  DELIMITER := ":";
  QMAXPATH := 4096
|}.

(** ** Path lists, in plain terms *)

(** The entries of a path list: the text between delimiters, empty entries
    included. *)
Fixpoint path_entries (delim s : string) : list string :=
  match s with
  | EmptyString => [EmptyString]
  | String c s' =>
      if is_delim delim c then EmptyString :: path_entries delim s'
      else match path_entries delim s' with
           | e :: es => String c e :: es
           | [] => [String c EmptyString]
           end
  end.

Definition nonempty_entries (delim s : string) : list string :=
  filter (fun e => negb (at_end e)) (path_entries delim s).

(** The loop of [sanitize_path] seen as a fold over the entries it keeps. *)
Definition join_onto {P : Platform} (newpath : string) (entries : list string)
  : string :=
  fold_left
    (fun acc e => (if negb (at_end acc) then acc ++ DELIMITER else acc) ++ e)
    entries newpath.

Definition nonempty (e : string) : bool := negb (at_end e).

(** An entry without the delimiter [d]. *)
Fixpoint delim_free (d : ascii) (e : string) : bool :=
  match e with
  | EmptyString => true
  | String c e' => negb (Ascii.eqb c d) && delim_free d e'
  end.

Definition is_single_char (s : string) : bool :=
  match s with
  | String _ EmptyString => true
  | _ => false
  end.

(** ** More observations on a run *)

(** The objects released by a run, in order. *)
Fixpoint decref_list (calls : list invocation) : list PyObject :=
  match calls with
  | [] => []
  | c :: rest =>
      match inv_call c with
      | Py_DECREF o => o :: decref_list rest
      | _ => decref_list rest
      end
  end.

(** The [pyw_free_idc_args] calls of a run. *)
Fixpoint free_calls (calls : list invocation)
  : list (list PyPtr * option (list bool)) :=
  match calls with
  | [] => []
  | c :: rest =>
      match inv_call c with
      | pyw_free_idc_args pargs decref => (pargs, decref) :: free_calls rest
      | _ => free_calls rest
      end
  end.

(** The [PyW_TryGetAttrString] calls of a run, with their answers. *)
Fixpoint attr_lookup_answers (calls : list invocation)
  : list (PyPtr * string * PyPtr) :=
  match calls with
  | [] => []
  | c :: rest =>
      match inv_call c as e in Ext X return X -> list (PyPtr * string * PyPtr) with
      | PyW_TryGetAttrString o name => fun p => (o, name, p) :: attr_lookup_answers rest
      | _ => fun _ => attr_lookup_answers rest
      end (inv_answer c)
  end.

(** The answers of [PyEval_EvalCode] in a run. *)
Fixpoint eval_code_answers (calls : list invocation) : list PyPtr :=
  match calls with
  | [] => []
  | c :: rest =>
      match inv_call c as e in Ext X return X -> list PyPtr with
      | PyEval_EvalCode _ _ _ => fun p => p :: eval_code_answers rest
      | _ => fun _ => eval_code_answers rest
      end (inv_answer c)
  end.

(** The texts printed with [msg], and those run with
    [PyRun_SimpleString]. *)
Fixpoint msg_texts (calls : list invocation) : list string :=
  match calls with
  | [] => []
  | c :: rest =>
      match inv_call c with
      | msg text => text :: msg_texts rest
      | _ => msg_texts rest
      end
  end.

Fixpoint simple_string_runs (calls : list invocation) : list string :=
  match calls with
  | [] => []
  | c :: rest =>
      match inv_call c with
      | PyRun_SimpleString text => text :: simple_string_runs rest
      | _ => simple_string_runs rest
      end
  end.

(** The [PyW_ObjectToString] calls of a run, with their answers. *)
Fixpoint to_string_answers (calls : list invocation)
  : list (PyObject * (bool * string)) :=
  match calls with
  | [] => []
  | c :: rest =>
      match inv_call c as e in Ext X return X -> list (PyObject * (bool * string)) with
      | PyW_ObjectToString o => fun a => (o, a) :: to_string_answers rest
      | _ => fun _ => to_string_answers rest
      end (inv_answer c)
  end.

(** The answers of [PyImport_ImportModule] and of [PyEval_EvalCodeEx]. *)
Fixpoint import_module_answers (calls : list invocation) : list PyPtr :=
  match calls with
  | [] => []
  | c :: rest =>
      match inv_call c as e in Ext X return X -> list PyPtr with
      | PyImport_ImportModule _ => fun p => p :: import_module_answers rest
      | _ => fun _ => import_module_answers rest
      end (inv_answer c)
  end.

Fixpoint eval_code_ex_answers (calls : list invocation) : list PyPtr :=
  match calls with
  | [] => []
  | c :: rest =>
      match inv_call c as e in Ext X return X -> list PyPtr with
      | PyEval_EvalCodeEx _ _ _ _ => fun p => p :: eval_code_ex_answers rest
      | _ => fun _ => eval_code_ex_answers rest
      end (inv_answer c)
  end.

Definition is_convert_args (c : invocation) : bool :=
  match inv_call c with pyw_convert_idc_args _ _ _ _ => true | _ => false end.
Definition is_python_call (c : invocation) : bool :=
  match inv_call c with
  | PyObject_CallObject _ _ | PyEval_EvalCodeEx _ _ _ _
  | PyEval_EvalCode _ _ _ | PyRun_SimpleString _ => true
  | _ => false
  end.

(** What a bounded write may leave in a buffer of [size] bytes: nothing new
    when there is no room, otherwise a text that fits with its NUL. *)
Definition within_buffer (before after : string) (size : nat) : Prop :=
  (size = 0 -> after = before) /\ (0 < size -> String.length after < size).

(** The objects answered to the [PyObject_CallObject] calls of a run. *)
Fixpoint call_object_answers (calls : list invocation) : list PyPtr :=
  match calls with
  | [] => []
  | c :: rest =>
      match inv_call c as e in Ext X return X -> list PyPtr with
      | PyObject_CallObject _ _ => fun p => p :: call_object_answers rest
      | _ => fun _ => call_object_answers rest
      end (inv_answer c)
  end.



(** A single line: no newline in it. *)
Fixpoint no_newline (s : string) : bool :=
  match s with
  | EmptyString => true
  | String c s' => negb (Ascii.eqb c "010") && no_newline s'
  end.


Definition pointer_list (p : PyPtr) : list PyObject :=
  match p with Some o => [o] | None => [] end.

Definition flag_count (g : Globals) : nat :=
  if box_displayed g then 1 else 0.

Definition counter_in_range (g : Globals) : Prop :=
  (0 <= ninsns g <= 10)%Z.

(** The clock readings of a run: the answers of [time(NULL)], in order. *)
Fixpoint time_readings (calls : list invocation) : list Z :=
  match calls with
  | [] => []
  | c :: rest =>
      match inv_call c as e in Ext X return X -> list Z with
      | time_NULL => fun t => t :: time_readings rest
      | _ => fun _ => time_readings rest
      end (inv_answer c)
  end.


(** The [Py_CompileStringFlags] calls of a run: text, file name, answer. *)
Fixpoint compile_calls (calls : list invocation)
  : list (string * string * PyPtr) :=
  match calls with
  | [] => []
  | c :: rest =>
      match inv_call c as e in Ext X return X -> list (string * string * PyPtr) with
      | Py_CompileStringFlags str filename =>
          fun p => (str, filename, p) :: compile_calls rest
      | _ => fun _ => compile_calls rest
      end (inv_answer c)
  end.

(** The [PyEval_EvalCode] calls of a run: code, globals, locals, answer. *)
Fixpoint eval_code_calls (calls : list invocation)
  : list (PyObject * PyPtr * PyPtr * PyPtr) :=
  match calls with
  | [] => []
  | c :: rest =>
      match inv_call c as e in Ext X
            return X -> list (PyObject * PyPtr * PyPtr * PyPtr) with
      | PyEval_EvalCode code globals locals =>
          fun p => (code, globals, locals, p) :: eval_code_calls rest
      | _ => fun _ => eval_code_calls rest
      end (inv_answer c)
  end.

(** The answers of the [pyw_convert_idc_args] calls of a run. *)
Fixpoint convert_answers (calls : list invocation)
  : list (bool * list PyPtr * list bool * string) :=
  match calls with
  | [] => []
  | c :: rest =>
      match inv_call c as e in Ext X
            return X -> list (bool * list PyPtr * list bool * string) with
      | pyw_convert_idc_args _ _ _ _ => fun a => a :: convert_answers rest
      | _ => fun _ => convert_answers rest
      end (inv_answer c)
  end.

(** The argument vector handed to [pyw_free_idc_args] by a function that
    converts its arguments at most once: the vector the conversion left, or
    the empty vector of the declaration when no conversion took place. *)
Definition converted_vector (calls : list invocation) : list PyPtr :=
  match convert_answers calls with
  | (_, pargs, _, _) :: _ => pargs
  | [] => []
  end.

(** A runtime with an error indicator and nothing else: the state is the
    text of the pending exception, if any; every other call is answered as
    by [bare_runtime]. *)
Definition error_runtime {F : Foreign} : handler (option string) :=
  fun X e w =>
    match e in Ext X return X -> X * option string with
    | PyErr_Occurred =>
        fun _ => (match w with Some _ => true | None => false end, w)
    | PyW_GetError clear_error =>
        fun _ => (match w with Some s => (true, s) | None => (false, "") end,
                  if clear_error then None else w)
    | PyErr_Clear => fun _ => (tt, None)
    | PyErr_Print => fun _ => (tt, None)
    | _ => fun x => (x, w)
    end (fst (bare_runtime 0 X e 0%Z)).



(** Specification vocabulary: what it means for a run to execute a text as
    [PythonEvalOrExec] does.  The text is compiled once; then either the
    very text is run as statements and nothing is evaluated, or the code
    object the compilation answered is evaluated once, with one dictionary
    as globals and locals, and no statement is run. *)
Definition executed (text filename : string) (calls : list invocation) : Prop :=
  exists code : PyPtr,
    compile_calls calls = [(text, filename, code)]
    /\ ((simple_string_runs calls = [text] /\ eval_code_calls calls = [])
        \/ (exists (c : PyObject) (globals answer : PyPtr),
              code = Some c
              /\ eval_code_calls calls = [(c, globals, globals, answer)]
              /\ simple_string_runs calls = [])).

(** ** Proof automation *)

(** Answer the next foreign call of the goal. *)
Ltac answer h :=
  match goal with
  | |- context [h ?X ?e ?w] =>
      is_var w;
      let x := fresh "x" in
      let w' := fresh "w" in
      destruct (h X e w) as [x w'] eqn:?; cbn in *
  end.

(** Follow every answer and every branch of the goal. *)
Ltac crunch h :=
  repeat first
    [ match goal with
      | u : unit |- _ => destruct u
      end
    | match goal with
      | |- context [h ?X ?e ?w] =>
          is_var w; destruct (h X e w) as [? ?] eqn:?; cbn in *
      end
    | match goal with
      | |- context [match ?x with _ => _ end] => is_var x; destruct x; cbn in *
      end
    | match goal with
      | |- context [if ?b then _ else _] => destruct b eqn:?; cbn in *
      end ].

Ltac unfold_run :=
  unfold run, bind, call, get, modify, ret, raise; cbn.




(** ** Facts on the string helpers *)

Lemma prefix_n_all (n : nat) (s : string) :
  String.length s <= n -> prefix_n n s = s.
Proof.
  revert n; induction s as [|c s IH]; intros [|n] H; simpl in *;
    try reflexivity; try lia.
  f_equal. apply IH. lia.
Qed.

Lemma qstrncpy_fits (dst src : string) (sz : nat) :
  String.length src < sz -> qstrncpy dst src sz = src.
Proof.
  destruct sz as [|n]; simpl; [lia|]. intros H. apply prefix_n_all. lia.
Qed.

Lemma strchr_no_dot (s : string) :
  no_dot s = true -> strchr s "." = None.
Proof.
  induction s as [|c s IH]; simpl; [reflexivity|].
  intros H. apply andb_prop in H as [Hc Hs].
  apply negb_true_iff in Hc. rewrite Hc, (IH Hs). reflexivity.
Qed.

Lemma strchr_split (m l : string) :
  no_dot m = true ->
  strchr (m ++ String "." l) "." = Some (String.length m).
Proof.
  induction m as [|c m IH]; simpl; [reflexivity|].
  intros H. apply andb_prop in H as [Hc Hm].
  apply negb_true_iff in Hc. rewrite Hc, (IH Hm). reflexivity.
Qed.

Lemma prefix_n_app (m l : string) :
  prefix_n (String.length m) (m ++ l) = m.
Proof.
  induction m as [|c m IH]; simpl.
  - destruct l; reflexivity.
  - now rewrite IH.
Qed.

Lemma advance_app (m l : string) (c : ascii) :
  advance (String.length m + 1) (m ++ String c l) = l.
Proof.
  induction m as [|a m IH]; simpl; [reflexivity|]. exact IH.
Qed.

Lemma string_length_app (m l : string) :
  String.length (m ++ l) = String.length m + String.length l.
Proof.
  induction m as [|c m IH]; simpl; [reflexivity|]. now rewrite IH.
Qed.

Lemma strchr_Some_dot (s : string) (p : nat) :
  strchr s "." = Some p -> no_dot s = false.
Proof.
  revert p; induction s as [|c s IH]; simpl; intros p H; [discriminate|].
  destruct (Ascii.eqb c ".") eqn:E; simpl; [reflexivity|].
  destruct (strchr s ".") eqn:E'; [|discriminate]. eapply IH; reflexivity.
Qed.

Lemma parse_py_modname_flag (full_name modname attrname defmod : string)
    (sz : nat) :
  fst (fst (parse_py_modname full_name modname attrname sz defmod))
  = negb (no_dot full_name).
Proof.
  unfold parse_py_modname. destruct (strchr full_name ".") eqn:E; simpl.
  - now rewrite (strchr_Some_dot _ _ E).
  - destruct (no_dot full_name) eqn:E'; [reflexivity|].
    exfalso. induction full_name as [|c s IH]; simpl in *; [discriminate|].
    destruct (Ascii.eqb c "."); [discriminate|].
    destruct (strchr s "."); [discriminate|]. simpl in E'. now apply IH.
Qed.

(** C5. For a qualified name that fits the output buffers,
    [parse_py_modname] splits at the first ['.'] only: the module part is
    the text before it, the leaf part is everything after it (later dots
    included); without a ['.'] the module part is the default module and the
    leaf is the whole input; the boolean result tells whether a separator was
    found. *)
Theorem parse_py_modname_first_dot
    (full_name modname attrname defmod : string) (sz : nat)
    (Hname : String.length full_name < sz)
    (Hdef : String.length defmod < sz) :
  (forall m l : string,
      full_name = m ++ String "." l -> no_dot m = true ->
      parse_py_modname full_name modname attrname sz defmod = (true, m, l))
  /\ (no_dot full_name = true ->
      parse_py_modname full_name modname attrname sz defmod
      = (false, defmod, full_name))
  /\ (fst (fst (parse_py_modname full_name modname attrname sz defmod))
      = negb (no_dot full_name)).
Proof.
  split; [|split].
  - intros m l -> Hm. unfold parse_py_modname.
    rewrite (strchr_split m l Hm), advance_app.
    rewrite string_length_app in Hname; simpl in Hname.
    rewrite (qstrncpy_fits attrname l sz) by lia.
    unfold qstrncpy. rewrite Nat.add_1_r.
    now rewrite (prefix_n_app m (String "." l)).
  - intros H. unfold parse_py_modname. rewrite (strchr_no_dot _ H).
    now rewrite !qstrncpy_fits.
  - apply parse_py_modname_flag.
Qed.

(** The two resolutions quoted by the documentation, on the buffers of
    [IDAPython_extlang_run]. *)
Lemma parse_py_modname_first_dot_witness :
  parse_py_modname "mod.sub.leaf" "" "" 1024 "main" = (true, "mod", "sub.leaf")
  /\ parse_py_modname "leaf" "" "" 1024 "main" = (false, "main", "leaf").
Proof.
  split.
  - apply (parse_py_modname_first_dot "mod.sub.leaf" "" "" "main" 1024);
      simpl; try lia; reflexivity.
  - apply (parse_py_modname_first_dot "leaf" "" "" "main" 1024);
      simpl; try lia; reflexivity.
Defined.

(** ** Running sequenced code *)

Lemma exec_pbind {W A B : Type} (h : handler W) (p : prog A) (f : A -> prog B) (w : W) :
  exec h (pbind p f) w =
  match result_of (exec h p w) with
  | Done a =>
      let r := exec h (f a) (world_of (exec h p w)) in
      (result_of r, world_of r, (calls_of (exec h p w) ++ calls_of r)%list)
  | Crashed x => (Crashed x, world_of (exec h p w), calls_of (exec h p w))
  end.
Proof.
  revert w. induction p as [a|x|X e k IH]; intros w; simpl.
  - unfold result_of, world_of, calls_of. simpl.
    now destruct (exec h (f a) w) as [[r w'] l].
  - reflexivity.
  - rewrite IH. unfold result_of, world_of, calls_of. simpl.
    destruct (exec h (k (fst (h X e w))) (snd (h X e w))) as [[[a|x] w'] l];
      reflexivity.
Qed.

Lemma run_bind {W A B : Type} (h : handler W) (m : M A) (f : A -> M B)
    (g : Globals) (w : W) :
  run h (bind m f) g w =
  match result_of (run h m g w) with
  | Done ag =>
      let r := run h (f (fst ag)) (snd ag) (world_of (run h m g w)) in
      (result_of r, world_of r, (calls_of (run h m g w) ++ calls_of r)%list)
  | Crashed x => (Crashed x, world_of (run h m g w), calls_of (run h m g w))
  end.
Proof. unfold run, bind. apply exec_pbind. Qed.

Lemma count_app (f : invocation -> bool) (l1 l2 : list invocation) :
  count f (l1 ++ l2)%list = count f l1 + count f l2.
Proof. unfold count. now rewrite filter_app, List.length_app. Qed.

Lemma installed_hook_app (b : option Py_tracefunc) (l1 l2 : list invocation) :
  installed_hook b (l1 ++ l2)%list = installed_hook (installed_hook b l1) l2.
Proof. revert b; induction l1 as [|c l1 IH]; intros b; simpl; auto. Qed.

(** ** Execution control: facts *)

Section ExecutionControl.
Context {F : Foreign} {W : Type} (h : handler W).
Local Open Scope Z_scope.

Lemma int_wrap_small (z : Z) : - 2 ^ 31 <= z < 2 ^ 31 -> int_wrap z = z.
Proof.
  intros H. unfold int_wrap. rewrite Z.mod_small; lia.
Qed.

Lemma run_hide_script_waitbox (g : Globals) (w : W) :
  run h hide_script_waitbox g w =
  if box_displayed g
  then (Done (tt, set_box_displayed false g), snd (h _ hide_wait_box w),
        [Invoke hide_wait_box (fst (h _ hide_wait_box w))])
  else (Done (tt, g), w, []).
Proof.
  unfold hide_script_waitbox. unfold_run.
  destruct (box_displayed g); reflexivity.
Qed.

Lemma run_end_execution (g : Globals) (w : W) :
  exists w' : W,
    run h end_execution g w =
    (Done (tt, set_box_displayed false g), w',
     ((if box_displayed g then [Invoke hide_wait_box tt] else [])
        ++ [Invoke (PyEval_SetTrace None) tt])%list).
Proof.
  unfold end_execution, hide_script_waitbox. unfold_run.
  destruct g as [n b t s u]; simpl. destruct b; simpl.
  - answer h. destruct x. answer h. destruct x. eexists; reflexivity.
  - answer h. destruct x. eexists; reflexivity.
Qed.


Lemma run_begin_execution_enabled (g : Globals) (w : W) :
  polling_enabled g = true ->
  exists (now : Z) (w' : W),
    run h begin_execution g w =
    (Done (tt, set_ninsns 0 (set_start_time now (set_box_displayed false g))), w',
     ((if box_displayed g then [Invoke hide_wait_box tt] else [])
        ++ [Invoke (PyEval_SetTrace None) tt; Invoke time_NULL now;
            Invoke (PyEval_SetTrace (Some break_check_fn)) tt])%list).
Proof.
  unfold polling_enabled. intros H. apply andb_prop in H as [Hu Ht].
  unfold begin_execution, end_execution, reset_execution_time,
    hide_script_waitbox. unfold_run.
  destruct g as [n b t s u]; simpl in *. subst u.
  apply negb_true_iff in Ht. rewrite Ht. simpl.
  destruct b; simpl.
  - answer h. destruct x. answer h. destruct x. answer h. answer h. destruct x0.
    eexists _, _; reflexivity.
  - answer h. destruct x. answer h. answer h. destruct x0.
    eexists _, _; reflexivity.
Qed.

Lemma run_begin_execution_disabled (g : Globals) (w : W) :
  polling_enabled g = false ->
  run h begin_execution g w = (Done (tt, g), w, []).
Proof.
  unfold polling_enabled. intros H.
  unfold begin_execution. unfold_run.
  destruct (g_ui_ready g); simpl in *; [|reflexivity].
  apply negb_false_iff in H. now rewrite H.
Qed.

(** What one invocation of the trace callback does to the wait box:
    it returns, and it shows the box only from a state in which the flag is
    clear, setting the flag as it does. *)
Lemma run_break_check_box (g : Globals) (w : W) :
  exists (g' : Globals) (w' : W) (l : list invocation),
    run h break_check g w = (Done (0, g'), w', l)
    /\ (count is_show l + (if box_displayed g' then 0 else 1)
        = (if box_displayed g then 0 else 1))%nat
    /\ count is_hide l = 0%nat
    /\ (box_displayed g = true -> g' = g).
Proof.
  unfold break_check. unfold_run. answer h. destruct x; cbn.
  - answer h. destruct x. eexists _, _, _; split; [reflexivity|].
    simpl. destruct (box_displayed g); auto.
  - destruct (box_displayed g) eqn:Hb; cbn.
    + eexists _, _, _; split; [reflexivity|]. simpl. rewrite Hb. auto.
    + destruct (int_wrap (ninsns g + 1) >? 10); cbn.
      * destruct (script_timeout g =? 0); cbn.
        -- eexists _, _, _; split; [reflexivity|]. simpl. rewrite Hb.
           repeat split; auto; discriminate.
        -- answer h. destruct (x - start_time g >? script_timeout g); cbn.
           ++ answer h. destruct x0.
              eexists _, _, _; split; [reflexivity|]. simpl.
              repeat split; auto; discriminate.
           ++ eexists _, _, _; split; [reflexivity|]. simpl. rewrite Hb.
              repeat split; auto; discriminate.
      * eexists _, _, _; split; [reflexivity|]. simpl. rewrite Hb.
        repeat split; auto; discriminate.
Qed.

Lemma run_set_script_timeout_box (t : Z) (g : Globals) (w : W) :
  exists (g' : Globals) (w' : W) (l : list invocation),
    run h (set_script_timeout t) g w = (Done (script_timeout g, g'), w', l)
    /\ count is_show l = 0%nat /\ box_displayed g' = false.
Proof.
  unfold set_script_timeout, reset_execution_time, hide_script_waitbox.
  unfold_run. answer h. destruct (box_displayed g) eqn:Hb; cbn.
  - answer h. destruct x0. eexists _, _, _; split; [reflexivity|]. auto.
  - eexists _, _, _; split; [reflexivity|]. auto.
Qed.

End ExecutionControl.

(** ** Execution windows: the wait box *)

Section WaitBox.
Context {F : Foreign} {W : Type} (h : handler W).

Lemma do_steps_box (steps : list window_step) :
  forall (g : Globals) (w : W),
  exists (g' : Globals) (w' : W) (l : list invocation),
    run h (do_steps steps) g w = (Done (tt, g'), w', l)
    /\ count is_show l + shows_left g' <= shows_left g + timeout_changes steps.
Proof.
  induction steps as [|s steps IH]; intros g w.
  - exists g, w, []. split; [reflexivity|]. simpl. lia.
  - change (do_steps (s :: steps)) with (do_step s ;; do_steps steps).
    rewrite run_bind.
    assert (Hs : exists g1 w1 l1,
               run h (do_step s) g w = (Done (tt, g1), w1, l1)
               /\ count is_show l1 + shows_left g1
                  <= shows_left g + (if is_hook_call s then 0 else 1)).
    { destruct s as [|t]; unfold do_step; rewrite run_bind.
      - destruct (run_break_check_box h g w) as (g1 & w1 & l1 & -> & Hc & _).
        cbn. exists g1, w1, (l1 ++ [])%list. split; [reflexivity|].
        rewrite app_nil_r. unfold shows_left. lia.
      - destruct (run_set_script_timeout_box h t g w)
          as (g1 & w1 & l1 & -> & Hc & Hb).
        cbn. exists g1, w1, (l1 ++ [])%list. split; [reflexivity|].
        rewrite app_nil_r, Hc. unfold shows_left. rewrite Hb.
        destruct (box_displayed g); simpl; lia. }
    destruct Hs as (g1 & w1 & l1 & -> & Hc). cbn.
    destruct (IH g1 w1) as (g2 & w2 & l2 & -> & Hc2). cbn.
    exists g2, w2, (l1 ++ l2)%list. split; [reflexivity|].
    rewrite count_app. unfold timeout_changes in *. simpl.
    destruct (is_hook_call s); simpl in *; lia.
Qed.

Lemma window_box (steps : list window_step) (g : Globals) (w : W) :
  exists (g' : Globals) (w' : W) (l : list invocation),
    run h (window steps) g w = (Done (tt, g'), w', l)
    /\ count is_show l <= 1 + timeout_changes steps
    /\ box_displayed g' = false.
Proof.
  unfold window. rewrite run_bind.
  assert (Hb : exists g1 w1 l1,
             run h begin_execution g w = (Done (tt, g1), w1, l1)
             /\ count is_show l1 = 0).
  { destruct (polling_enabled g) eqn:He.
    - destruct (run_begin_execution_enabled h g w He) as (now & w1 & ->).
      eexists _, _, _. split; [reflexivity|].
      destruct (box_displayed g); reflexivity.
    - rewrite (run_begin_execution_disabled h g w He).
      eexists _, _, _. split; reflexivity. }
  destruct Hb as (g1 & w1 & l1 & -> & Hc1). cbn. rewrite run_bind.
  destruct (do_steps_box steps g1 w1) as (g2 & w2 & l2 & -> & Hc2). cbn.
  destruct (run_end_execution h g2 w2) as (w3 & ->). cbn.
  eexists _, _, _. split; [reflexivity|]. split; [|reflexivity].
  assert (shows_left g1 <= 1) by (unfold shows_left; destruct (box_displayed g1); lia).
  assert (count is_show
            ((if box_displayed g2 then [Invoke hide_wait_box tt] else [])
               ++ [Invoke (PyEval_SetTrace None) tt])%list = 0)
    by (destruct (box_displayed g2); reflexivity).
  rewrite count_app, Hc1, count_app. lia.
Qed.

Lemma timeout_changes_hooks_only (steps : list window_step) :
  forallb is_hook_call steps = true -> timeout_changes steps = 0.
Proof.
  unfold timeout_changes. induction steps as [|s steps IH]; simpl; [reflexivity|].
  intros H. apply andb_prop in H as [Hs Hr]. rewrite Hs. simpl. auto.
Qed.

End WaitBox.

(** ** Execution control: the documented properties *)

Section ExecutionControlClaims.
Context {F : Foreign} {W : Type} (h : handler W).
Local Open Scope Z_scope.

(** C3 (as amended). One invocation of the step hook [break_check]: if a
    user cancel is pending it injects the interrupt ([PyErr_SetInterrupt])
    and leaves the static variables, the sample counter included, as they
    were.  Otherwise, if the wait box is already displayed it does nothing at
    all (the counter is not incremented).  Otherwise it increments the
    counter; while the counter is at most 10 nothing else happens; once it
    exceeds 10 it is reset to zero, and, when the timeout is nonzero, the
    clock is read and the "Running Python script" box is shown (and the flag
    set) exactly when the elapsed time exceeds the timeout. *)
Theorem break_check_step (g : Globals) (w : W) :
  let brk := fst (h _ wasBreak w) in
  let w1 := snd (h _ wasBreak w) in
  let n := int_wrap (ninsns g + 1) in
  let now := fst (h _ time_NULL w1) in
  let w2 := snd (h _ time_NULL w1) in
  let R := run h break_check g w in
  (brk = true ->
     R = (Done (0, g), snd (h _ PyErr_SetInterrupt w1),
          [Invoke wasBreak true; Invoke PyErr_SetInterrupt tt]))
  /\ (brk = false -> box_displayed g = true ->
     R = (Done (0, g), w1, [Invoke wasBreak false]))
  /\ (brk = false -> box_displayed g = false -> n <= 10 ->
     R = (Done (0, set_ninsns n g), w1, [Invoke wasBreak false]))
  /\ (brk = false -> box_displayed g = false -> n > 10 ->
      script_timeout g = 0 ->
     R = (Done (0, set_ninsns 0 g), w1, [Invoke wasBreak false]))
  /\ (brk = false -> box_displayed g = false -> n > 10 ->
      script_timeout g <> 0 -> now - start_time g <= script_timeout g ->
     R = (Done (0, set_ninsns 0 g), w2,
          [Invoke wasBreak false; Invoke time_NULL now]))
  /\ (brk = false -> box_displayed g = false -> n > 10 ->
      script_timeout g <> 0 -> now - start_time g > script_timeout g ->
     R = (Done (0, set_box_displayed true (set_ninsns 0 g)),
          snd (h _ (show_wait_box "Running Python script") w2),
          [Invoke wasBreak false; Invoke time_NULL now;
           Invoke (show_wait_box "Running Python script") tt])).
Proof.
  cbv zeta. unfold break_check. unfold_run.
  destruct (h bool wasBreak w) as [brk w1] eqn:E1; cbn.
  repeat split.
  - intros ->. cbn. destruct (h unit PyErr_SetInterrupt w1) as [[] w2]. reflexivity.
  - intros -> Hb. cbn. rewrite Hb. reflexivity.
  - intros -> Hb Hn. cbn. rewrite Hb. cbn.
    destruct (int_wrap (ninsns g + 1) >? 10) eqn:E; [|reflexivity].
    apply Z.gtb_lt in E. lia.
  - intros -> Hb Hn Ht. cbn. rewrite Hb. cbn.
    destruct (int_wrap (ninsns g + 1) >? 10) eqn:E.
    + cbn. rewrite Ht. reflexivity.
    + rewrite Z.gtb_ltb in E. apply Z.ltb_ge in E. lia.
  - intros -> Hb Hn Ht Hnow. cbn. rewrite Hb. cbn.
    destruct (int_wrap (ninsns g + 1) >? 10) eqn:E.
    + cbn. apply Z.eqb_neq in Ht. rewrite Ht. cbn.
      destruct (h Z time_NULL w1) as [now w2]; cbn in *.
      destruct (now - start_time g >? script_timeout g) eqn:E2; [|reflexivity].
      apply Z.gtb_lt in E2. lia.
    + rewrite Z.gtb_ltb in E. apply Z.ltb_ge in E. lia.
  - intros -> Hb Hn Ht Hnow. cbn. rewrite Hb. cbn.
    destruct (int_wrap (ninsns g + 1) >? 10) eqn:E.
    + cbn. apply Z.eqb_neq in Ht. rewrite Ht. cbn.
      destruct (h Z time_NULL w1) as [now w2]; cbn in *.
      destruct (now - start_time g >? script_timeout g) eqn:E2.
      * cbn. destruct (h unit (show_wait_box "Running Python script") w2) as [[] w3].
        reflexivity.
      * rewrite Z.gtb_ltb in E2. apply Z.ltb_ge in E2. lia.
    + rewrite Z.gtb_ltb in E. apply Z.ltb_ge in E. lia.
Qed.


(** C2 (as amended). [begin_execution] does not save the trace function it
    finds.  A nested entry (with the UI ready and a nonzero timeout) first
    ends the window in progress ([PyEval_SetTrace(NULL)], after hiding the
    wait box if it is displayed), then reads the clock into the start time,
    zeroes the counter and installs [break_check] again, so the hook is
    re-established whatever was installed before, with the wait box hidden,
    exactly as after a first entry: each entry reads the clock once and the
    start time is the reading of the latest entry.  The matching inner
    [end_execution] only uninstalls the hook: after it no trace function is
    installed and the wait box flag is clear. *)
Theorem nested_begin_execution (before : option Py_tracefunc)
    (g : Globals) (w : W) :
  polling_enabled g = true ->
  let once := run h begin_execution g w in
  let twice := run h (begin_execution ;; begin_execution) g w in
  let inner_exit :=
    run h (begin_execution ;; begin_execution ;; end_execution) g w in
  installed_hook before (calls_of once) = Some break_check_fn
  /\ installed_hook before (calls_of twice) = Some break_check_fn
  /\ option_map ninsns (globals_of twice) = Some 0
  /\ option_map box_displayed (globals_of twice) = Some false
  /\ installed_hook before (calls_of inner_exit) = None
  /\ option_map box_displayed (globals_of inner_exit) = Some false
  /\ (exists t1 t2 : Z,
        time_readings (calls_of once) = [t1]
        /\ globals_of once
           = Some (mkGlobals 0 false t1 (script_timeout g) (g_ui_ready g))
        /\ time_readings (calls_of twice) = [t1; t2]
        /\ globals_of twice
           = Some (mkGlobals 0 false t2 (script_timeout g) (g_ui_ready g))
        /\ globals_of inner_exit = globals_of twice
        /\ calls_of once
           = ((if box_displayed g then [Invoke hide_wait_box tt] else [])
                ++ [Invoke (PyEval_SetTrace None) tt; Invoke time_NULL t1;
                    Invoke (PyEval_SetTrace (Some break_check_fn)) tt])%list
        /\ calls_of twice
           = (calls_of once
                ++ [Invoke (PyEval_SetTrace None) tt; Invoke time_NULL t2;
                    Invoke (PyEval_SetTrace (Some break_check_fn)) tt])%list
        /\ calls_of inner_exit
           = (calls_of twice ++ [Invoke (PyEval_SetTrace None) tt])%list).
Proof.
  intros He. cbv zeta.
  destruct (run_begin_execution_enabled h g w He) as (now & w1 & E1).
  set (g1 := set_ninsns 0 (set_start_time now (set_box_displayed false g))) in *.
  assert (He1 : polling_enabled g1 = true) by exact He.
  destruct (run_begin_execution_enabled h g1 w1 He1) as (now2 & w2 & E2).
  set (g2 := set_ninsns 0 (set_start_time now2 (set_box_displayed false g1))) in *.
  destruct (run_end_execution h g2 w2) as (w3 & E3).
  rewrite !run_bind, E1. cbn. rewrite !run_bind, E2. cbn. rewrite E3. cbn.
  rewrite !installed_hook_app.
  repeat split; try (destruct (box_displayed g); reflexivity).
  exists now, now2.
  repeat split; destruct (box_displayed g); cbn;
    rewrite <- ?app_assoc; reflexivity.
Qed.

(** C4 (as amended). In an execution window in which the script does not
    call [set_script_timeout] (only the trace callback runs between
    [begin_execution] and the matching [end_execution]) the wait box is
    shown at most once: [break_check] shows it at most once per call and
    only when the [box_displayed] flag is clear, setting the flag as it
    does; [end_execution] hides the box exactly when the flag is set and
    leaves the flag clear. *)
Theorem wait_box_once_per_window (steps : list window_step)
    (g : Globals) (w : W) :
  forallb is_hook_call steps = true ->
  (exists (g' : Globals) (w' : W) (l : list invocation),
      run h (window steps) g w = (Done (tt, g'), w', l)
      /\ (count is_show l <= 1)%nat
      /\ box_displayed g' = false)
  /\ (forall (g0 : Globals) (w0 : W),
        let R := run h break_check g0 w0 in
        (count is_show (calls_of R) <= 1)%nat
        /\ (count is_show (calls_of R) = 1%nat ->
            box_displayed g0 = false
            /\ option_map box_displayed (globals_of R) = Some true))
  /\ (forall (g0 : Globals) (w0 : W),
        let R := run h end_execution g0 w0 in
        globals_of R = Some (set_box_displayed false g0)
        /\ count is_hide (calls_of R) = (if box_displayed g0 then 1 else 0)%nat).
Proof.
  intros Hs. split; [|split].
  - destruct (window_box h steps g w) as (g' & w' & l & E & Hc & Hb).
    exists g', w', l. rewrite (timeout_changes_hooks_only steps Hs) in Hc.
    repeat split; auto.
  - intros g0 w0. cbv zeta.
    destruct (run_break_check_box h g0 w0) as (g1 & w1 & l & -> & Hc & _).
    cbn. unfold count in *.
    destruct (box_displayed g0), (box_displayed g1); split; try lia;
      intros; try lia; auto.
  - intros g0 w0. cbv zeta.
    destruct (run_end_execution h g0 w0) as (w1 & ->). cbn.
    split; [reflexivity|]. destruct (box_displayed g0); reflexivity.
Qed.

(** With [set_script_timeout] called inside the window the box can come
    back: one more show per call. *)
Lemma wait_box_per_timeout_change (steps : list window_step)
    (g : Globals) (w : W) :
  (count is_show (calls_of (run h (window steps) g w))
   <= 1 + timeout_changes steps)%nat.
Proof.
  destruct (window_box h steps g w) as (g' & w' & l & -> & Hc & _). exact Hc.
Qed.

End ExecutionControlClaims.

(** The sample counter never leaves [0, 10] between calls, so the C [int]
    increment of [break_check] is the mathematical one. *)
Lemma break_check_counter_bounded {F : Foreign} {W : Type} (h : handler W)
    (g : Globals) (w : W) :
  (0 <= ninsns g <= 10)%Z ->
  exists g' : Globals,
    globals_of (run h break_check g w) = Some g'
    /\ (0 <= ninsns g' <= 10)%Z
    /\ (ninsns g' = ninsns g \/ ninsns g' = ninsns g + 1 \/ ninsns g' = 0)%Z.
Proof.
  intros Hn.
  assert (Hw : int_wrap (ninsns g + 1) = (ninsns g + 1)%Z)
    by (apply int_wrap_small; lia).
  unfold break_check. unfold_run. unfold globals_of, result_of.
  answer h. destruct x; cbn.
  - eexists; split; [reflexivity|]. lia.
  - destruct (box_displayed g); cbn.
    + eexists; split; [reflexivity|]. lia.
    + rewrite Hw. destruct (ninsns g + 1 >? 10)%Z eqn:E; cbn.
      * destruct (script_timeout g =? 0)%Z; cbn.
        -- eexists; split; [reflexivity|]. simpl. lia.
        -- answer h. destruct (x - start_time g >? script_timeout g)%Z; cbn.
           ++ eexists; split; [reflexivity|]. simpl. lia.
           ++ eexists; split; [reflexivity|]. simpl. lia.
      * eexists; split; [reflexivity|]. simpl.
        rewrite Z.gtb_ltb in E. apply Z.ltb_ge in E. lia.
Qed.

(** ** Execution control: concrete runs *)

(** A script runs past the timeout, so the wait box is displayed; at the
    next invocation of the hook no cancel is pending, and the counter is
    left at 0: [break_check] only asks [wasBreak]. *)
Lemma break_check_box_displayed_no_count :
  let g := mkGlobals 0 true 0 2 true in
  globals_of (run (bare_runtime 5)
                (begin_execution ;; do_steps (repeat HookCall 11))
                (mkGlobals 0 false 0 2 true) 0%Z) = Some g
  /\ run (bare_runtime 5) break_check g 10%Z
     = (Done (0%Z, g), 10%Z, [Invoke wasBreak false])
  /\ ninsns g <> int_wrap (ninsns g + 1).
Proof. vm_compute. repeat split; discriminate. Qed.

Lemma break_check_step_witness :
  run (bare_runtime 5) break_check (mkGlobals 10 false 0 2 true) 100%Z
  = (Done (0%Z, mkGlobals 0 true 0 2 true), 105%Z,
     [Invoke wasBreak false; Invoke time_NULL 100%Z;
      Invoke (show_wait_box "Running Python script") tt]).
Proof.
  apply (break_check_step (bare_runtime 5) (mkGlobals 10 false 0 2 true) 100%Z);
    vm_compute; congruence.
Defined.

(** An outer window is open with its hook installed; a nested entry and its
    matching exit leave no hook installed. *)
Lemma nested_exit_uninstalls_hook :
  let g := mkGlobals 0 false 0 2 true in
  polling_enabled g = true
  /\ installed_hook None
       (calls_of (run (bare_runtime 1) begin_execution g 0%Z))
     = Some break_check_fn
  /\ installed_hook None
       (calls_of (run (bare_runtime 1)
                    (begin_execution ;; begin_execution ;; end_execution) g 0%Z))
     = None
  /\ installed_hook None
       (calls_of (run (bare_runtime 1)
                    (begin_execution ;; begin_execution ;; end_execution) g 0%Z))
     <> installed_hook None
          (calls_of (run (bare_runtime 1) begin_execution g 0%Z)).
Proof. vm_compute. repeat split; discriminate. Qed.

Lemma nested_begin_execution_witness :
  let g := mkGlobals 7 true 0 2 true in
  let once := run (bare_runtime 1) begin_execution g 5%Z in
  let twice := run (bare_runtime 1) (begin_execution ;; begin_execution) g 5%Z in
  let inner_exit :=
    run (bare_runtime 1) (begin_execution ;; begin_execution ;; end_execution)
      g 5%Z in
  installed_hook None (calls_of once) = Some break_check_fn
  /\ installed_hook None (calls_of twice) = Some break_check_fn
  /\ option_map ninsns (globals_of twice) = Some 0%Z
  /\ option_map box_displayed (globals_of twice) = Some false
  /\ installed_hook None (calls_of inner_exit) = None
  /\ option_map box_displayed (globals_of inner_exit) = Some false
  /\ (exists t1 t2 : Z,
        time_readings (calls_of once) = [t1]
        /\ globals_of once = Some (mkGlobals 0 false t1 2 true)
        /\ time_readings (calls_of twice) = [t1; t2]
        /\ globals_of twice = Some (mkGlobals 0 false t2 2 true)
        /\ globals_of inner_exit = globals_of twice).
Proof.
  destruct (nested_begin_execution (bare_runtime 1) None
              (mkGlobals 7 true 0 2 true) 5%Z ltac:(reflexivity))
    as (H1 & H2 & H3 & H4 & H5 & H6 & t1 & t2 & T1 & T2 & T3 & T4 & T5 & _).
  repeat (split; [assumption|]).
  exists t1, t2. repeat (split; [assumption|]). assumption.
Defined.

(** A script that runs past the timeout, calls [set_script_timeout] and
    runs past the timeout again: the wait box is shown twice between one
    [begin_execution] and its [end_execution]. *)
Lemma wait_box_shown_again_after_set_script_timeout :
  let steps := (repeat HookCall 11 ++ [SetTimeout 2] ++ repeat HookCall 11)%list in
  count is_show
    (calls_of (run (bare_runtime 5) (window steps) (mkGlobals 0 false 0 2 true) 0%Z))
  = 2
  /\ ~ (count is_show
          (calls_of (run (bare_runtime 5) (window steps)
                       (mkGlobals 0 false 0 2 true) 0%Z)) <= 1).
Proof. vm_compute. split; [reflexivity|]. intros H. inversion H as [|? H']. inversion H'. Qed.

Lemma wait_box_once_per_window_witness :
  exists (g' : Globals) (w' : Z) (l : list invocation),
    run (bare_runtime 5) (window (repeat HookCall 30))
      (mkGlobals 0 false 0 2 true) 0%Z = (Done (tt, g'), w', l)
    /\ count is_show l <= 1
    /\ box_displayed g' = false.
Proof.
  apply (wait_box_once_per_window (bare_runtime 5) (repeat HookCall 30)
           (mkGlobals 0 false 0 2 true) 0%Z).
  reflexivity.
Defined.

(** ** The result bridge *)

Section ResultBridge.
Context {F : Foreign} {W : Type} (h : handler W).
Local Open Scope Z_scope.

Lemma clear_if_room_twice (buf : string) (size : nat) :
  clear_if_room (clear_if_room buf size) size = clear_if_room buf size.
Proof. destruct size; reflexivity. Qed.

(** [handle_python_error] always returns; without a pending error the
    buffer is just emptied, otherwise it receives the error text, cut to the
    buffer. *)
Lemma run_handle_python_error (errbuf : string) (errbufsize : nat)
    (clear_error : bool) (g : Globals) (w : W) :
  exists (eb : string) (w' : W) (l : list invocation),
    run h (handle_python_error errbuf errbufsize clear_error) g w
    = (Done (eb, g), w', l)
    /\ count is_any_decref l = 0%nat
    /\ (fst (h _ PyErr_Occurred w) = false -> eb = clear_if_room errbuf errbufsize).
Proof.
  unfold handle_python_error. unfold_run. answer h. destruct x; cbn.
  - answer h. destruct x as [[] s]; cbn;
      eexists _, _, _; (split; [reflexivity|]); split; auto; discriminate.
  - eexists _, _, _; split; [reflexivity|]. split; auto.
Qed.

(** C1. [return_python_result] on a result object [o]: the object's
    reference count is decremented exactly when the conversion outcome is not
    [CIP_OK_NODECREF] (an opaque result whose ownership went into the host
    value is left alone), no other object is touched, and the function
    returns true if and only if the outcome is at least [CIP_OK].  On a NULL
    result it reports the pending Python error: it asks [PyErr_Occurred];
    when an error is pending it fetches its text with [PyW_GetError]
    (clearing it) and stores the text, cut to the size of the buffer, in the
    error buffer; when none is pending, or the text cannot be fetched, the
    buffer is just emptied; in every case it makes no other call, decrements
    nothing, leaves the result slot alone and returns false. *)
Theorem return_python_result_ownership (idc_result : option idc_value_t)
    (py_result : PyPtr) (errbuf : string) (errbufsize : nat)
    (g : Globals) (w : W) :
  let R := run h (return_python_result idc_result py_result errbuf errbufsize) g w in
  match py_result with
  | Some o =>
      let cvt :=
        match idc_result with
        | Some v => fst (fst (h _ (pyvar_to_idcvar o (idc_clear v)) w))
        | None => CIP_OK
        end in
      (exists (ok : bool) (res : option idc_value_t) (eb : string),
          result_of R = Done ((ok, res, eb), g)
          /\ (ok = true <-> cvt >= CIP_OK))
      /\ count (is_decref_of o) (calls_of R)
         = (if cvt =? CIP_OK_NODECREF then 0%nat else 1%nat)
      /\ count is_any_decref (calls_of R) = count (is_decref_of o) (calls_of R)
  | None =>
      let pending := h _ PyErr_Occurred w in
      let fetched := h _ (PyW_GetError true) (snd pending) in
      (if fst pending then
         R = (Done ((false, idc_result,
                     if fst (fst fetched)
                     then qstrncpy errbuf (snd (fst fetched)) errbufsize
                     else clear_if_room errbuf errbufsize), g),
              snd fetched,
              [Invoke PyErr_Occurred true;
               Invoke (PyW_GetError true) (fst fetched)])
       else
         R = (Done ((false, idc_result, clear_if_room errbuf errbufsize), g),
              snd pending, [Invoke PyErr_Occurred false]))
      /\ count is_any_decref (calls_of R) = 0%nat
  end.
Proof.
  cbv zeta. destruct py_result as [o|].
  - unfold return_python_result. unfold_run.
    destruct idc_result as [v|]; cbn.
    + answer h. destruct x as [cvt v']; cbn.
      destruct (cvt =? CIP_OK_NODECREF) eqn:E; cbn.
      * repeat split; try reflexivity.
        eexists _, _, _. split; [reflexivity|].
        rewrite Z.geb_le. lia.
      * rewrite N.eqb_refl. repeat split; try reflexivity.
        eexists _, _, _. split; [reflexivity|].
        rewrite Z.geb_le. lia.
    + destruct (CIP_OK =? CIP_OK_NODECREF) eqn:E; cbn.
      * repeat split; try reflexivity.
        eexists _, _, _. split; [reflexivity|].
        rewrite Z.geb_le. lia.
      * rewrite N.eqb_refl. repeat split; try reflexivity.
        eexists _, _, _. split; [reflexivity|].
        rewrite Z.geb_le. lia.
  - unfold return_python_result, handle_python_error. unfold_run.
    rewrite clear_if_room_twice.
    destruct (h bool PyErr_Occurred w) as [occurred w1]; cbn.
    destruct occurred; cbn; [|split; reflexivity].
    destruct (h _ (PyW_GetError true) w1) as [[ok s] w2]; cbn.
    destruct ok; cbn; (split; [|reflexivity]); [|reflexivity].
    destruct errbufsize; reflexivity.
Qed.

End ResultBridge.

Lemma return_python_result_ownership_witness :
  (* an opaque result: ownership moves into the host value *)
  count (is_decref_of 30%N)
    (calls_of (run toy_python
                 (return_python_result (Some (VT_LONG 0)) (Some 30%N) "" 64)
                 initial_globals session)) = 0%nat
  /\ (* a scalar result: copied out, the object is released *)
  count (is_decref_of 20%N)
    (calls_of (run toy_python
                 (return_python_result (Some (VT_LONG 0)) (Some 20%N) "" 64)
                 initial_globals session)) = 1%nat
  /\ (* no result and a pending exception: its text, cut to 8 bytes *)
  run error_runtime (return_python_result (Some (VT_LONG 0)) None "old" 8)
    initial_globals (Some "NameError: x")
  = (Done ((false, Some (VT_LONG 0), "NameErr"), initial_globals), None,
     [Invoke PyErr_Occurred true;
      Invoke (PyW_GetError true) (true, "NameError: x")]).
Proof.
  split; [|split].
  - exact (proj1 (proj2 (return_python_result_ownership toy_python
             (Some (VT_LONG 0)) (Some 30%N) "" 64 initial_globals session))).
  - exact (proj1 (proj2 (return_python_result_ownership toy_python
             (Some (VT_LONG 0)) (Some 20%N) "" 64 initial_globals session))).
  - exact (proj1 (return_python_result_ownership error_runtime
             (Some (VT_LONG 0)) None "old" 8 initial_globals
             (Some "NameError: x"))).
Defined.

(** ** Interactive console *)

Lemma strrchr_none_single_line (s : string) :
  strrchr s "010" = None -> split_lines s = [s].
Proof.
  induction s as [|c s IH]; simpl; [reflexivity|].
  destruct (strrchr s "010"); [discriminate|].
  destruct (Ascii.eqb c "010"); [discriminate|].
  intros _. now rewrite IH.
Qed.

Lemma split_lines_nonempty (s : string) : split_lines s <> [].
Proof.
  destruct s as [|c s]; simpl; [discriminate|].
  destruct (Ascii.eqb c "010"); [discriminate|].
  destruct (split_lines s); discriminate.
Qed.

Lemma last_cons_nonempty {A : Type} (x d : A) (l : list A) :
  l <> [] -> List.last (x :: l) d = List.last l d.
Proof. destruct l; [congruence|reflexivity]. Qed.

(** The pointer arithmetic on [strrchr] finds the last line. *)
Lemma cli_last_line_spec (line : string) :
  cli_last_line line = last_input_line line.
Proof.
  unfold cli_last_line, last_input_line.
  induction line as [|c s IH]; simpl; [reflexivity|].
  destruct (strrchr s "010") as [i|] eqn:E.
  - rewrite Nat.add_1_r in *. simpl in *. rewrite IH.
    destruct (Ascii.eqb c "010").
    + now rewrite last_cons_nonempty by apply split_lines_nonempty.
    + destruct (split_lines s) as [|l ls] eqn:El;
        [now destruct (split_lines_nonempty s)|].
      destruct ls; [|reflexivity].
      (* a single line has no newline *)
      exfalso. clear IH. revert i l E El.
      induction s as [|a s IHs]; simpl; intros i l E El; [discriminate|].
      destruct (Ascii.eqb a "010") eqn:Ea.
      * destruct (split_lines s) eqn:Es; [|discriminate].
        now destruct (split_lines_nonempty s).
      * destruct (strrchr s "010") as [j|] eqn:Ej; [|discriminate].
        destruct (split_lines s) as [|l' ls'] eqn:Es;
          [now destruct (split_lines_nonempty s)|].
        injection El as _ ->. eapply IHs; reflexivity.
  - rewrite (strrchr_none_single_line s E).
    destruct (Ascii.eqb c "010"); reflexivity.
Qed.

Lemma last_char_ends_with (c : ascii) (l : string) :
  l <> EmptyString ->
  Ascii.eqb (char_at l (qstrlen l - 1)) c = ends_with c l.
Proof.
  induction l as [|a l IH]; [congruence|]. intros _.
  destruct l as [|b l]; [reflexivity|].
  change (ends_with c (String a (String b l))) with (ends_with c (String b l)).
  rewrite <- IH by discriminate.
  unfold char_at, qstrlen. simpl. now rewrite Nat.sub_0_r.
Qed.

Lemma qisspace_whitespace (c : ascii) : qisspace c = whitespace c.
Proof.
  destruct c as [[] [] [] [] [] [] [] []]; reflexivity.
Qed.

Lemma cli_more_spec (line : string) : cli_more line = needs_more_input line.
Proof.
  unfold cli_more, needs_more_input. rewrite cli_last_line_spec.
  destruct (last_input_line line) as [|a l] eqn:E; [reflexivity|].
  cbn [at_end negb]. rewrite last_char_ends_with by discriminate.
  change (char_at (String a l) 0) with a. rewrite qisspace_whitespace.
  reflexivity.
Qed.

Lemma compile_calls_app (l1 l2 : list invocation) :
  compile_calls (l1 ++ l2)%list = (compile_calls l1 ++ compile_calls l2)%list.
Proof.
  induction l1 as [|[X e x] l1 IH]; [reflexivity|].
  destruct e; simpl; now rewrite ?IH.
Qed.

Lemma eval_code_calls_app (l1 l2 : list invocation) :
  eval_code_calls (l1 ++ l2)%list
  = (eval_code_calls l1 ++ eval_code_calls l2)%list.
Proof.
  induction l1 as [|[X e x] l1 IH]; [reflexivity|].
  destruct e; simpl; now rewrite ?IH.
Qed.

Lemma simple_string_runs_app (l1 l2 : list invocation) :
  simple_string_runs (l1 ++ l2)%list
  = (simple_string_runs l1 ++ simple_string_runs l2)%list.
Proof.
  induction l1 as [|[X e x] l1 IH]; [reflexivity|].
  destruct e; simpl; now rewrite ?IH.
Qed.

(** Calls that compile or run nothing around the executed text keep it
    executed. *)
Lemma executed_between (text filename : string) (l1 l2 l3 : list invocation) :
  compile_calls l1 = [] -> eval_code_calls l1 = [] -> simple_string_runs l1 = [] ->
  compile_calls l3 = [] -> eval_code_calls l3 = [] -> simple_string_runs l3 = [] ->
  executed text filename l2 ->
  executed text filename (l1 ++ l2 ++ l3)%list.
Proof.
  intros C1 E1 S1 C3 E3 S3 (code & Hc & He).
  exists code.
  rewrite !compile_calls_app, !eval_code_calls_app, !simple_string_runs_app.
  rewrite C1, E1, S1, C3, E3, S3, !app_nil_r. cbn [app]. auto.
Qed.

Section ConsoleRuns.
Context {F : Foreign} {W : Type} (h : handler W).

(** [PythonEvalOrExec] executes its text. *)
Lemma run_PythonEvalOrExec_executes (str filename : string)
    (g : Globals) (w : W) :
  exists (w' : W) (l : list invocation),
    run h (PythonEvalOrExec str filename) g w = (Done (tt, g), w', l)
    /\ executed str filename l.
Proof.
  unfold PythonEvalOrExec, GetMainGlobals, executed. unfold_run.
  crunch h; eexists _, _; (split; [reflexivity|]);
    eexists; (split; [reflexivity|]); cbn;
    first [ left; split; reflexivity
          | right; eexists _, _, _; repeat split; reflexivity ].
Qed.

(** The run of [IDAPython_cli_execute_line] on an input that needs no more
    input: an execution window around the execution of the rewritten
    line. *)
Lemma run_cli_execute_line (line : string) (g : Globals) (w : W) :
  line <> "" ->
  needs_more_input line = false ->
  exists (g' : Globals) (w' : W) (l1 l2 l3 : list invocation) (shown : bool),
    run h (IDAPython_cli_execute_line line) g w
    = (Done (true, g'), w', (l1 ++ l2 ++ l3)%list)
    /\ l1 = calls_of (run h begin_execution g w)
    /\ executed (cli_pseudo_command line) "<string>" l2
    /\ l3 = ((if shown then [Invoke hide_wait_box tt] else [])
               ++ [Invoke (PyEval_SetTrace None) tt])%list
    /\ executed (cli_pseudo_command line) "<string>" (l1 ++ l2 ++ l3)%list.
Proof.
  intros Hne Hm. unfold IDAPython_cli_execute_line.
  destruct line as [|c line']; [congruence|]. cbn [at_end].
  rewrite cli_more_spec, Hm.
  assert (Hb : exists g1 w1 l1,
             run h begin_execution g w = (Done (tt, g1), w1, l1)
             /\ compile_calls l1 = [] /\ eval_code_calls l1 = []
             /\ simple_string_runs l1 = []).
  { destruct (polling_enabled g) eqn:He.
    - destruct (run_begin_execution_enabled h g w He) as (now & w1 & ->).
      eexists _, _, _. split; [reflexivity|].
      destruct (box_displayed g); repeat split; reflexivity.
    - rewrite (run_begin_execution_disabled h g w He).
      eexists _, _, _. repeat split; reflexivity. }
  destruct Hb as (g1 & w1 & l1 & E1 & C1 & V1 & S1).
  destruct (run_PythonEvalOrExec_executes
              (cli_pseudo_command (String c line')) "<string>" g1 w1)
    as (w2 & l2 & E2 & Hx).
  destruct (run_end_execution h g1 w2) as (w3 & E3).
  rewrite run_bind, E1. cbn. rewrite run_bind, E2. cbn.
  rewrite run_bind, E3. cbn. unfold_run. rewrite app_nil_r.
  eexists _, _, l1, l2, _, (box_displayed g1).
  split; [reflexivity|]. split; [reflexivity|]. split; [exact Hx|].
  split; [reflexivity|].
  apply executed_between; auto; destruct (box_displayed g1); reflexivity.
Qed.

End ConsoleRuns.

Section Console.
Context {F : Foreign} {W : Type} (h : handler W).

(** [PythonEvalOrExec] always returns and leaves the static variables. *)
Lemma run_PythonEvalOrExec (str filename : string) (g : Globals) (w : W) :
  exists (w' : W) (l : list invocation),
    run h (PythonEvalOrExec str filename) g w = (Done (tt, g), w', l).
Proof.
  unfold PythonEvalOrExec, GetMainGlobals. unfold_run.
  crunch h; eexists _, _; reflexivity.
Qed.

Lemma run_begin_execution (g : Globals) (w : W) :
  exists (g' : Globals) (w' : W) (l : list invocation),
    run h begin_execution g w = (Done (tt, g'), w', l).
Proof.
  destruct (polling_enabled g) eqn:E.
  - destruct (run_begin_execution_enabled h g w E) as (now & w' & ->).
    eexists _, _, _; reflexivity.
  - rewrite (run_begin_execution_disabled h g w E).
    eexists _, _, _; reflexivity.
Qed.

(** C10. [IDAPython_cli_execute_line] on the empty string returns true at
    once: no foreign call is made (no execution window is opened, nothing is
    compiled or run), the static variables and the runtime are as before. *)
Theorem cli_execute_line_empty (g : Globals) (w : W) :
  run h (IDAPython_cli_execute_line "") g w = (Done (true, g), w, []).
Proof. reflexivity. Qed.


End Console.


(** ** The adapter: method calls without an object *)

Section CallMethod.
Context {F : Foreign} {W : Type} (h : handler W).

(** [IDAPython_extlang_run] resolves its function through the module
    dictionary: it never asks an object for an attribute. *)
Lemma run_extlang_run_no_attr_lookup (name : string) (args : list idc_value_t)
    (result : option idc_value_t) (errbuf : string) (errbufsize : nat)
    (g : Globals) (w : W) :
  count is_attr_lookup
    (calls_of (run h (IDAPython_extlang_run name args result errbuf errbufsize) g w))
  = 0.
Proof.
  unfold IDAPython_extlang_run, return_python_result, handle_python_error,
    QASSERT, Py_XDECREF.
  destruct (parse_py_modname name "" "" MAXSTR S_IDAAPI_MODNAME)
    as [[imported modname] funcname].
  unfold_run. unfold calls_of. crunch h; reflexivity.
Qed.

(** C7. [IDAPython_extlang_call_method] without a method name (so in
    particular with neither object nor name) returns false with the usage
    message in the error buffer and makes no foreign call at all: no
    attribute lookup, no call.  Without an object but with a method name it
    is [IDAPython_extlang_run] on that name and the same arguments, result
    slot and buffer, and no attribute is looked up on any object. *)
Theorem call_method_without_object (args : list idc_value_t)
    (result : option idc_value_t) (errbuf : string) (errbufsize : nat)
    (g : Globals) (w : W) :
  (forall idc_obj : option idc_value_t,
      run h (IDAPython_extlang_call_method idc_obj None args result
               errbuf errbufsize) g w
      = (Done ((false, result,
                qstrncpy errbuf "call_method does not support this operation"
                         errbufsize), g), w, []))
  /\ (forall method_name : string,
      IDAPython_extlang_call_method None (Some method_name) args result
        errbuf errbufsize
      = IDAPython_extlang_run method_name args result errbuf errbufsize
      /\ run h (IDAPython_extlang_call_method None (Some method_name) args
                  result errbuf errbufsize) g w
         = run h (IDAPython_extlang_run method_name args result
                    errbuf errbufsize) g w
      /\ count is_attr_lookup
           (calls_of (run h (IDAPython_extlang_call_method None
                               (Some method_name) args result
                               errbuf errbufsize) g w)) = 0).
Proof.
  split.
  - intros [v|]; reflexivity.
  - intros method_name. split; [reflexivity|]. split; [reflexivity|].
    apply run_extlang_run_no_attr_lookup.
Qed.

End CallMethod.

(** ** The adapter: running an undefined function *)

Section RunUndefined.
Context {F : Foreign} {W : Type} (h : handler W).



End RunUndefined.



(** ** The adapter: the class name of an object *)

Section ClassName.
Context {F : Foreign} {W : Type} (h : handler W).
Local Open Scope Z_scope.


End ClassName.


(** The class name of the object bound to [greet], and of [__main__]. *)
Lemma get_attr_class_name_of_greet :
  result_of (run toy_python
               (IDAPython_extlang_get_attr (Some (VT_STR2 "greet")) (Some "")
                  (Some (VT_LONG 0)))
               initial_globals session)
  = Done ((true, Some (VT_STR2 "Greeter")), initial_globals)
  /\ result_of (run toy_python
                  (IDAPython_extlang_get_attr None None (Some (VT_LONG 0)))
                  initial_globals session)
     = Done ((true, Some (VT_STR2 "module")), initial_globals).
Proof. split; reflexivity. Qed.


(** ** Execution control: more properties *)

Lemma time_readings_app (l1 l2 : list invocation) :
  time_readings (l1 ++ l2)%list = (time_readings l1 ++ time_readings l2)%list.
Proof.
  induction l1 as [|[X e x] l1 IH]; [reflexivity|].
  destruct e; simpl; now rewrite ?IH.
Qed.

Section ExecutionControlMore.
Context {F : Foreign} {W : Type} (h : handler W).
Local Open Scope Z_scope.

(** Everything one invocation of the hook can do to the statics. *)
Lemma run_break_check_frame (g : Globals) (w : W) :
  exists (g' : Globals) (w' : W) (l : list invocation),
    run h break_check g w = (Done (0, g'), w', l)
    /\ (count is_show l + flag_count g = flag_count g')%nat
    /\ count is_hide l = 0%nat
    /\ script_timeout g' = script_timeout g
    /\ start_time g' = start_time g
    /\ g_ui_ready g' = g_ui_ready g
    /\ (counter_in_range g -> counter_in_range g')
    /\ (script_timeout g = 0 -> count is_show l = 0%nat).
Proof.
  unfold counter_in_range, flag_count.
  unfold break_check. unfold_run. answer h. destruct x; cbn.
  - answer h. destruct x. eexists _, _, _; split; [reflexivity|].
    cbn. repeat split; auto; try lia.
  - destruct (box_displayed g) eqn:Hb; cbn.
    + eexists _, _, _; split; [reflexivity|]. cbn. rewrite Hb.
      repeat split; auto; lia.
    + destruct (int_wrap (ninsns g + 1) >? 10) eqn:E; cbn.
      * destruct (script_timeout g =? 0) eqn:Et; cbn.
        -- eexists _, _, _; split; [reflexivity|]. cbn. rewrite Hb.
           repeat split; auto; lia.
        -- answer h. destruct (x - start_time g >? script_timeout g); cbn.
           ++ answer h. destruct x0.
              eexists _, _, _; split; [reflexivity|]. cbn.
              repeat split; auto; try lia;
                try (intros Hz; rewrite Hz in Et; discriminate).
           ++ eexists _, _, _; split; [reflexivity|]. cbn. rewrite Hb.
              repeat split; auto; lia.
      * eexists _, _, _; split; [reflexivity|]. cbn. rewrite Hb.
        repeat split; auto; try lia;
          try (rewrite int_wrap_small in * by lia;
               rewrite Z.gtb_ltb in E; apply Z.ltb_ge in E; lia).
Qed.

Lemma run_set_script_timeout_frame (t : Z) (g : Globals) (w : W) :
  exists (now : Z) (w' : W) (l : list invocation),
    run h (set_script_timeout t) g w
    = (Done (script_timeout g,
             mkGlobals 0 false now t (g_ui_ready g)), w', l)
    /\ count is_show l = 0%nat
    /\ count is_hide l = flag_count g.
Proof.
  unfold set_script_timeout, reset_execution_time, hide_script_waitbox, flag_count.
  unfold_run. destruct g as [n b st tmo u]; cbn. answer h. destruct b; cbn.
  - answer h. destruct x0. eexists _, _, _; split; [reflexivity|]. auto.
  - eexists _, _, _; split; [reflexivity|]. auto.
Qed.

Lemma do_steps_frame (steps : list window_step) :
  forall (g : Globals) (w : W),
  exists (g' : Globals) (w' : W) (l : list invocation),
    run h (do_steps steps) g w = (Done (tt, g'), w', l)
    /\ (count is_hide l + flag_count g' = count is_show l + flag_count g)%nat
    /\ g_ui_ready g' = g_ui_ready g
    /\ (counter_in_range g -> counter_in_range g').
Proof.
  induction steps as [|s steps IH]; intros g w.
  - exists g, w, []. repeat split; auto; try (unfold counter_in_range in *; simpl in *; lia).
  - change (do_steps (s :: steps)) with (do_step s ;; do_steps steps).
    rewrite run_bind.
    assert (Hs : exists g1 w1 l1,
               run h (do_step s) g w = (Done (tt, g1), w1, l1)
               /\ (count is_hide l1 + flag_count g1
                   = count is_show l1 + flag_count g)%nat
               /\ g_ui_ready g1 = g_ui_ready g
               /\ (counter_in_range g -> counter_in_range g1)).
    { destruct s as [|t]; unfold do_step; rewrite run_bind.
      - destruct (run_break_check_frame g w)
          as (g1 & w1 & l1 & -> & Hc & Hh & _ & _ & Hu & Hn & _).
        cbn. exists g1, w1, l1.
        split; [unfold_run; now rewrite app_nil_r|].
        split; [lia|]. split; assumption.
      - destruct (run_set_script_timeout_frame t g w)
          as (now & w1 & l1 & -> & Hc & Hh).
        cbn. eexists _, w1, l1.
        split; [unfold_run; now rewrite app_nil_r|].
        split; [|split; [reflexivity|]].
        + rewrite Hc, Hh. unfold flag_count. simpl. lia.
        + intros _. unfold counter_in_range. simpl. lia. }
    destruct Hs as (g1 & w1 & l1 & -> & Hc & Hu & Hn). cbn.
    destruct (IH g1 w1) as (g2 & w2 & l2 & -> & Hc2 & Hu2 & Hn2). cbn.
    exists g2, w2, (l1 ++ l2)%list. split; [reflexivity|].
    rewrite !count_app. split; [lia|]. split; [congruence|]. auto.
Qed.

(** Every wait box shown in an execution window is hidden again by the end
    of the window, whatever the script does in it (hook invocations and calls
    of [set_script_timeout] in any order): the calls of [hide_wait_box] are
    those of [show_wait_box], plus one if a box was already displayed when
    the window opened; the flag is clear at the end. *)
Theorem wait_box_balanced (steps : list window_step) (g : Globals) (w : W) :
  exists (g' : Globals) (w' : W) (l : list invocation),
    run h (window steps) g w = (Done (tt, g'), w', l)
    /\ count is_hide l = (count is_show l + flag_count g)%nat
    /\ box_displayed g' = false.
Proof.
  unfold window. rewrite run_bind.
  assert (Hb : exists g1 w1 l1,
             run h begin_execution g w = (Done (tt, g1), w1, l1)
             /\ (count is_hide l1 + flag_count g1
                 = count is_show l1 + flag_count g)%nat).
  { destruct (polling_enabled g) eqn:He.
    - destruct (run_begin_execution_enabled h g w He) as (now & w1 & ->).
      eexists _, _, _. split; [reflexivity|].
      unfold flag_count. destruct (box_displayed g); reflexivity.
    - rewrite (run_begin_execution_disabled h g w He).
      eexists _, _, _. split; reflexivity. }
  destruct Hb as (g1 & w1 & l1 & -> & Hc1). cbn. rewrite run_bind.
  destruct (do_steps_frame steps g1 w1) as (g2 & w2 & l2 & -> & Hc2 & _). cbn.
  destruct (run_end_execution h g2 w2) as (w3 & ->). cbn.
  eexists _, _, _. split; [reflexivity|]. split; [|reflexivity].
  unfold flag_count in *.
  destruct (box_displayed g2); rewrite !count_app; unfold count in *;
    simpl in *; lia.
Qed.

(** The sample counter stays in [0, 10] through a whole execution window,
    whatever happens in it; so [++ninsns] never overflows the C [int]. *)
Theorem counter_in_range_window (steps : list window_step)
    (g : Globals) (w : W) :
  counter_in_range g ->
  exists g' : Globals,
    globals_of (run h (window steps) g w) = Some g'
    /\ counter_in_range g'.
Proof.
  intros Hn. unfold window. rewrite run_bind.
  assert (Hb : exists g1 w1 l1,
             run h begin_execution g w = (Done (tt, g1), w1, l1)
             /\ counter_in_range g1).
  { destruct (polling_enabled g) eqn:He.
    - destruct (run_begin_execution_enabled h g w He) as (now & w1 & ->).
      eexists _, _, _. split; [reflexivity|]. unfold counter_in_range. simpl. lia.
    - rewrite (run_begin_execution_disabled h g w He).
      eexists _, _, _. split; [reflexivity|]. exact Hn. }
  destruct Hb as (g1 & w1 & l1 & -> & Hn1). cbn. rewrite run_bind.
  destruct (do_steps_frame steps g1 w1) as (g2 & w2 & l2 & -> & _ & _ & Hn2). cbn.
  destruct (run_end_execution h g2 w2) as (w3 & ->). cbn.
  eexists. split; [reflexivity|]. exact (Hn2 Hn1).
Qed.

(** [set_script_timeout] reads the clock once, into the start time. *)
Lemma run_set_script_timeout_clock (t : Z) (g : Globals) (w : W) :
  exists (now : Z) (w' : W) (l : list invocation),
    run h (set_script_timeout t) g w
    = (Done (script_timeout g,
             mkGlobals 0 false now t (g_ui_ready g)), w', l)
    /\ time_readings l = [now]
    /\ count is_show l = 0%nat.
Proof.
  unfold set_script_timeout, reset_execution_time, hide_script_waitbox.
  unfold_run. destruct g as [n b st tmo u]; cbn. answer h. destruct b; cbn.
  - answer h. destruct x0. eexists _, _, _; split; [reflexivity|]. auto.
  - eexists _, _, _; split; [reflexivity|]. auto.
Qed.

(** [set_script_timeout] returns the timeout it replaces, so a caller can
    put it back: after [old = set_script_timeout(t); set_script_timeout(old)]
    the second call returns [t] and the timeout is the original one; the
    counter is reset, each call has read the clock once and the start time
    is the second reading; no wait box is displayed and none was shown. *)
Theorem set_script_timeout_restores (t : Z) (g : Globals) (w : W) :
  exists (t1 now : Z) (w' : W) (l : list invocation),
    run h (old <- set_script_timeout t ;; set_script_timeout old) g w
    = (Done (t, mkGlobals 0 false now (script_timeout g) (g_ui_ready g)), w', l)
    /\ time_readings l = [t1; now]
    /\ count is_show l = 0%nat.
Proof.
  rewrite run_bind.
  destruct (run_set_script_timeout_clock t g w) as (now1 & w1 & l1 & -> & Ht1 & Hs1).
  cbn.
  destruct (run_set_script_timeout_clock (script_timeout g)
              (mkGlobals 0 false now1 t (g_ui_ready g)) w1)
    as (now2 & w2 & l2 & -> & Ht2 & Hs2).
  cbn. exists now1, now2, w2, (l1 ++ l2)%list. split; [reflexivity|].
  rewrite time_readings_app, Ht1, Ht2, count_app. split; [reflexivity|lia].
Qed.

(** [disable_script_timeout] turns the polling off for good: the timeout is
    0, the wait box is hidden and the trace function uninstalled; from then
    on [begin_execution] does nothing at all, and a hook that is still
    invoked never shows the wait box. *)
Theorem disable_script_timeout_stops_polling (before : option Py_tracefunc)
    (g : Globals) (w : W) :
  exists (g' : Globals) (w' : W) (l : list invocation),
    run h disable_script_timeout g w = (Done (tt, g'), w', l)
    /\ script_timeout g' = 0
    /\ box_displayed g' = false
    /\ installed_hook before l = None
    /\ count is_hide l = flag_count g
    /\ (forall w0 : W, run h begin_execution g' w0 = (Done (tt, g'), w0, []))
    /\ (forall (n : nat) (w0 : W),
          count is_show (calls_of (run h (do_steps (repeat HookCall n)) g' w0))
          = 0%nat).
Proof.
  unfold disable_script_timeout. rewrite run_bind.
  replace (run h (modify (set_timeout 0)) g w)
    with (Done (tt, set_timeout 0 g), w, @nil invocation) by reflexivity.
  cbn.
  destruct (run_end_execution h (set_timeout 0 g) w) as (w1 & ->). cbn.
  eexists _, _, _. split; [reflexivity|].
  split; [reflexivity|]. split; [reflexivity|].
  split; [destruct (box_displayed g); reflexivity|].
  split; [unfold flag_count; destruct (box_displayed g); reflexivity|].
  split.
  - intros w0. apply run_begin_execution_disabled.
    unfold polling_enabled. cbn. now rewrite andb_false_r.
  - intros n.
    assert (Hgen : forall (g0 : Globals) (w0 : W),
               script_timeout g0 = 0 ->
               count is_show
                 (calls_of (run h (do_steps (repeat HookCall n)) g0 w0)) = 0%nat).
    { induction n as [|n IH]; intros g0 w0 Hz; [reflexivity|].
      change (do_steps (repeat HookCall (S n)))
        with (do_step HookCall ;; do_steps (repeat HookCall n)).
      rewrite run_bind. unfold do_step. rewrite run_bind.
      destruct (run_break_check_frame g0 w0)
        as (g1 & w1' & l1 & -> & _ & _ & Ht & _ & _ & _ & Hs).
      cbn.
      change (run h (ret tt) g1 w1') with (Done (tt, g1), w1', @nil invocation).
      cbn. rewrite app_nil_r.
      specialize (IH g1 w1' (eq_trans Ht Hz)).
      destruct (run h (do_steps (repeat HookCall n)) g1 w1') as [[r w2] l2].
      cbn [calls_of result_of world_of fst snd] in *.
      fold (count is_show (l1 ++ l2)%list).
      rewrite count_app, (Hs Hz), IH. reflexivity. }
    intros w0. apply Hgen. reflexivity.
Qed.

End ExecutionControlMore.

(** ** The error buffer *)

Lemma prefix_n_length (n : nat) (s : string) : String.length (prefix_n n s) <= n.
Proof.
  revert s; induction n as [|n IH]; intros [|c s]; simpl; try lia.
  specialize (IH s). lia.
Qed.

Lemma qstrncpy_bounded (dst src : string) (size : nat) :
  (size = 0 -> qstrncpy dst src size = dst)
  /\ (0 < size -> String.length (qstrncpy dst src size) < size).
Proof.
  destruct size as [|n]; simpl; split; try lia; auto.
  intros _. pose proof (prefix_n_length n src). lia.
Qed.

Lemma within_buffer_clear (buf : string) (size : nat) :
  within_buffer buf (clear_if_room buf size) size.
Proof. destruct size; split; simpl; auto; lia. Qed.

Lemma within_buffer_copy (before cur src : string) (size : nat) :
  within_buffer before cur size ->
  within_buffer before (qstrncpy cur src size) size.
Proof.
  intros [H0 H1]. destruct (qstrncpy_bounded cur src size) as [Q0 Q1].
  split; intros H; [rewrite Q0 by assumption|]; auto.
Qed.

Section ErrorBuffer.
Context {F : Foreign} {W : Type} (h : handler W).

(** Neither [handle_python_error] nor [return_python_result] ever overruns
    the error buffer: whatever the runtime answers, a buffer of size 0 is
    returned untouched and a buffer of positive size holds fewer characters
    than its size (room for the terminating NUL). *)
Theorem error_buffer_never_overrun (idc_result : option idc_value_t)
    (py_result : PyPtr) (errbuf : string) (errbufsize : nat)
    (clear_error : bool) (g : Globals) (w : W) :
  (exists eb : string,
      result_of (run h (handle_python_error errbuf errbufsize clear_error) g w)
      = Done (eb, g)
      /\ within_buffer errbuf eb errbufsize)
  /\ (exists (ok : bool) (res : option idc_value_t) (eb : string),
      result_of (run h (return_python_result idc_result py_result
                          errbuf errbufsize) g w)
      = Done ((ok, res, eb), g)
      /\ within_buffer errbuf eb errbufsize).
Proof.
  pose proof (within_buffer_clear errbuf errbufsize) as Hc.
  split.
  - unfold handle_python_error. unfold_run. unfold result_of.
    crunch h; eexists; (split; [reflexivity|]); auto.
    now apply within_buffer_copy.
  - unfold return_python_result, handle_python_error, Py_XDECREF.
    rewrite clear_if_room_twice.
    unfold_run. unfold result_of.
    crunch h; eexists _, _, _; (split; [reflexivity|]); auto;
      try (now apply within_buffer_copy).
Qed.

End ErrorBuffer.

(** ** The adapter: cleaning up after [IDAPython_extlang_run] *)

Section RunCleanup.
Context {F : Foreign} {W : Type} (h : handler W).

(** When the arguments cannot be converted, [IDAPython_extlang_run] (on a
    name shorter than [MAXSTR]) stops there: it only releases what the
    conversion left and returns false with the buffer as the conversion
    wrote it; no module is fetched, no name looked up, nothing evaluated,
    and the result slot is untouched. *)
Theorem extlang_run_conversion_failure (name : string)
    (args : list idc_value_t) (result : option idc_value_t)
    (errbuf : string) (errbufsize : nat) (g : Globals) (w : W) :
  String.length name < MAXSTR ->
  let R := run h (IDAPython_extlang_run name args result errbuf errbufsize) g w in
  let conv := fst (h _ (pyw_convert_idc_args args true errbuf errbufsize) w) in
  fst (fst (fst conv)) = false ->
  result_of R = Done ((false, result, snd conv), g)
  /\ calls_of R
     = [Invoke (pyw_convert_idc_args args true errbuf errbufsize) conv;
        Invoke (pyw_free_idc_args (snd (fst (fst conv))) (Some (snd (fst conv)))) tt].
Proof.
  intros _. cbv zeta.
  unfold IDAPython_extlang_run, Py_XDECREF.
  destruct (parse_py_modname name "" "" MAXSTR S_IDAAPI_MODNAME)
    as [[imported modname] funcname].
  unfold_run. unfold calls_of, result_of.
  destruct (h _ (pyw_convert_idc_args args true errbuf errbufsize) w)
    as [[[[ok pargs] decref] eb] w1]; cbn.
  intros ->. cbn.
  destruct (h _ (pyw_free_idc_args pargs (Some decref)) w1) as [[] w2]; cbn.
  destruct imported; cbn; split; reflexivity.
Qed.

(** Whenever [IDAPython_extlang_run] (on a name shorter than [MAXSTR])
    returns, it has released the converted arguments exactly once, with the
    very vectors the conversion produced, on every path (conversion failure,
    undefined function, call); when one of its assertions fires instead,
    nothing has been released. *)
Theorem extlang_run_releases_arguments (name : string)
    (args : list idc_value_t) (result : option idc_value_t)
    (errbuf : string) (errbufsize : nat) (g : Globals) (w : W) :
  String.length name < MAXSTR ->
  let R := run h (IDAPython_extlang_run name args result errbuf errbufsize) g w in
  let conv := fst (h _ (pyw_convert_idc_args args true errbuf errbufsize) w) in
  match result_of R with
  | Done _ =>
      free_calls (calls_of R)
      = [(snd (fst (fst conv)), Some (snd (fst conv)))]
  | Crashed _ => free_calls (calls_of R) = []
  end.
Proof.
  intros _. cbv zeta.
  set (R := run h (IDAPython_extlang_run name args result errbuf errbufsize) g w).
  assert (Hq : match result_of R with
               | Done _ =>
                   free_calls (calls_of R)
                   = [(snd (fst (fst (fst (h _ (pyw_convert_idc_args args true
                                                  errbuf errbufsize) w)))),
                       Some (snd (fst (fst (h _ (pyw_convert_idc_args args true
                                                   errbuf errbufsize) w)))))]
               | Crashed f =>
                   free_calls (calls_of R) = []
                   /\ (f = INTERR 30156 \/ f = INTERR 30157)
               end).
  { subst R.
    unfold IDAPython_extlang_run, return_python_result, handle_python_error,
      QASSERT, Py_XDECREF.
    pose proof (parse_py_modname_flag name "" "" S_IDAAPI_MODNAME MAXSTR) as Hflag.
    destruct (parse_py_modname name "" "" MAXSTR S_IDAAPI_MODNAME)
      as [[imported modname] funcname].
    cbn in Hflag. subst imported.
    unfold_run. unfold calls_of, result_of.
    destruct (h _ (pyw_convert_idc_args args true errbuf errbufsize) w)
      as [[[[ok pargs] decref] eb] w1]; cbn.
    destruct (no_dot name); cbn; crunch h; cbn; auto. }
  destruct (result_of R); [exact Hq | exact (proj1 Hq)].
Qed.

(** The module reference, for a name shorter than [MAXSTR]: for a dotted
    name a module that was imported is released as the very last call,
    after the arguments; for an undotted name [__main__] is borrowed and
    never released: the only object the run can release is the value the
    function call returned. *)
Theorem extlang_run_module_reference (name : string)
    (args : list idc_value_t) (result : option idc_value_t)
    (errbuf : string) (errbufsize : nat) (g : Globals) (w : W) :
  String.length name < MAXSTR ->
  let R := run h (IDAPython_extlang_run name args result errbuf errbufsize) g w in
  (no_dot name = true ->
     decref_list (calls_of R) = []
     \/ exists o : PyObject,
          eval_code_ex_answers (calls_of R) = [Some o]
          /\ decref_list (calls_of R) = [o])
  /\ (no_dot name = false ->
      forall (m : PyObject) (r : bool * option idc_value_t * string * Globals),
        import_module_answers (calls_of R) = [Some m] ->
        result_of R = Done r ->
        exists before : list invocation,
          calls_of R = (before ++ [Invoke (Py_DECREF m) tt])%list).
Proof.
  intros _. cbv zeta.
  unfold IDAPython_extlang_run, return_python_result, handle_python_error,
    QASSERT, Py_XDECREF.
  pose proof (parse_py_modname_flag name "" "" S_IDAAPI_MODNAME MAXSTR) as Hflag.
  destruct (parse_py_modname name "" "" MAXSTR S_IDAAPI_MODNAME)
    as [[imported modname] funcname].
  cbn in Hflag. subst imported.
  unfold_run. unfold calls_of, result_of.
  destruct (no_dot name); cbn; (split; [intros Hd | intros Hd m r]);
    try discriminate Hd.
  - crunch h; cbn; auto; right; eexists; split; reflexivity.
  - crunch h; cbn; intros Hi Hr; try discriminate Hi; try discriminate Hr;
      injection Hi as ->;
      match goal with
      | |- exists before, ?l = _ =>
          exists (removelast l); reflexivity
      end.
Qed.

End RunCleanup.

(** ** The adapter: creating an object *)

Lemma parse_py_modname_undotted (full_name modname attrname defmod : string)
    (sz : nat) :
  no_dot full_name = true ->
  String.length full_name < sz -> String.length defmod < sz ->
  parse_py_modname full_name modname attrname sz defmod
  = (false, defmod, full_name).
Proof.
  intros H Hn Hd. unfold parse_py_modname. rewrite (strchr_no_dot _ H).
  now rewrite !qstrncpy_fits.
Qed.

Lemma parse_py_modname_dotted (m l modname attrname defmod : string) (sz : nat) :
  no_dot m = true ->
  String.length l < sz ->
  parse_py_modname (m ++ String "." l) modname attrname sz defmod = (true, m, l).
Proof.
  intros Hm Hl. unfold parse_py_modname.
  rewrite (strchr_split m l Hm), advance_app.
  rewrite (qstrncpy_fits attrname l sz) by lia.
  unfold qstrncpy. rewrite Nat.add_1_r.
  now rewrite (prefix_n_app m (String "." l)).
Qed.

Section CreateObject.
Context {F : Foreign} {W : Type} (h : handler W).

(** Where [IDAPython_extlang_create_object] looks for the class.  A class
    name without a dot is looked up in the default module
    ([S_IDAAPI_MODNAME]), not in [__main__]; a dotted name is cut at its
    first dot only: the text before it is imported as the module and
    everything after it, further dots included, is asked from that module as
    one attribute name. *)
Theorem create_object_resolution (name : string)
    (args : list idc_value_t) (result : option idc_value_t)
    (errbuf : string) (errbufsize : nat) (g : Globals) (w : W) :
  String.length name < MAXSTR ->
  String.length S_IDAAPI_MODNAME < MAXSTR ->
  let R := run h (IDAPython_extlang_create_object name args result
                    errbuf errbufsize) g w in
  let looks_in (modname clsname : string) :=
    exists (p : PyPtr) (rest : list invocation),
      calls_of R = Invoke (PyW_TryImportModule modname) p :: rest
      /\ (forall m : PyObject, p = Some m ->
          exists (q : PyPtr) (rest' : list invocation),
            rest = Invoke (PyW_TryGetAttrString (Some m) clsname) q :: rest') in
  (no_dot name = true -> looks_in S_IDAAPI_MODNAME name)
  /\ (forall m l : string,
        name = m ++ String "." l -> no_dot m = true -> looks_in m l).
Proof.
  intros Hn Hd. cbv zeta.
  assert (Hgen : forall modname clsname b,
             parse_py_modname name "" "" MAXSTR S_IDAAPI_MODNAME
             = (b, modname, clsname) ->
             exists (p : PyPtr) (rest : list invocation),
               calls_of (run h (IDAPython_extlang_create_object name args result
                                  errbuf errbufsize) g w)
               = Invoke (PyW_TryImportModule modname) p :: rest
               /\ (forall m : PyObject, p = Some m ->
                   exists (q : PyPtr) (rest' : list invocation),
                     rest = Invoke (PyW_TryGetAttrString (Some m) clsname) q
                              :: rest')).
  { intros modname clsname b E.
    unfold IDAPython_extlang_create_object. rewrite E.
    unfold return_python_result, handle_python_error, Py_XDECREF.
    unfold_run. unfold calls_of.
    destruct (h _ (PyW_TryImportModule modname) w) as [[m|] w1]; cbn.
    - eexists _, _. split; [reflexivity|].
      intros m' Hm. injection Hm as <-.
      eexists _, _. reflexivity.
    - eexists _, _. split; [reflexivity|]. intros m' Hm. discriminate Hm. }
  split.
  - intros Hdot. eapply Hgen. now apply parse_py_modname_undotted.
  - intros m l -> Hm. eapply Hgen. apply parse_py_modname_dotted; [assumption|].
    rewrite string_length_app in Hn. simpl in Hn. lia.
Qed.

(** The two resolution failures of [IDAPython_extlang_create_object] (on a
    name shorter than [MAXSTR]): if the module cannot be imported, or the
    module has no such attribute, the call returns false with a message
    naming the module, respectively the class; the result slot is
    untouched, no argument is converted and nothing is called; a module
    that was imported is released. *)
Theorem create_object_resolution_failures (name : string)
    (args : list idc_value_t) (result : option idc_value_t)
    (errbuf : string) (errbufsize : nat) (g : Globals) (w : W) :
  String.length name < MAXSTR ->
  let R := run h (IDAPython_extlang_create_object name args result
                    errbuf errbufsize) g w in
  let modname := snd (fst (parse_py_modname name "" "" MAXSTR S_IDAAPI_MODNAME)) in
  let clsname := snd (parse_py_modname name "" "" MAXSTR S_IDAAPI_MODNAME) in
  let py_mod := fst (h _ (PyW_TryImportModule modname) w) in
  (py_mod = None ->
     result_of R
     = Done ((false, result,
              qsnprintf errbuf errbufsize
                ("Could not import module '" ++ modname ++ "'!")), g)
     /\ calls_of R = [Invoke (PyW_TryImportModule modname) None;
                      Invoke (pyw_free_idc_args [] None) tt])
  /\ (attr_lookup_answers (calls_of R) = [(py_mod, clsname, None)] ->
      result_of R
      = Done ((false, result,
               qsnprintf errbuf errbufsize
                 ("Could not find class type '" ++ clsname ++ "'!")), g)
      /\ count is_convert_args (calls_of R) = 0
      /\ count is_python_call (calls_of R) = 0
      /\ decref_list (calls_of R) = pointer_list py_mod
      /\ free_calls (calls_of R) = [([], None)]).
Proof.
  intros _. cbv zeta. unfold IDAPython_extlang_create_object,
    return_python_result, handle_python_error, Py_XDECREF.
  destruct (parse_py_modname name "" "" MAXSTR S_IDAAPI_MODNAME)
    as [[imported modname] clsname].
  unfold_run. unfold calls_of, result_of.
  destruct (h _ (PyW_TryImportModule modname) w) as [[m|] w1]; cbn.
  - split; [intros Hm; discriminate Hm|].
    crunch h; cbn; intros Hl; try discriminate Hl; repeat split; reflexivity.
  - split; [|intros Hl; discriminate Hl].
    intros _. crunch h. split; reflexivity.
Qed.

(** Whenever [IDAPython_extlang_create_object] (on a name shorter than
    [MAXSTR]) returns, it has given back what it took: it converted the
    arguments at most once and released, exactly once, the very vector the
    conversion left (the empty vector if it did not get that far); and the
    objects it released are, in this order, the constructor's result (when
    [return_python_result] releases it), the module and the class, each
    only if it was obtained. *)
Theorem create_object_releases_references (name : string)
    (args : list idc_value_t) (result : option idc_value_t)
    (errbuf : string) (errbufsize : nat) (g : Globals) (w : W)
    (r : bool * option idc_value_t * string * Globals) :
  String.length name < MAXSTR ->
  let R := run h (IDAPython_extlang_create_object name args result
                    errbuf errbufsize) g w in
  let modname := snd (fst (parse_py_modname name "" "" MAXSTR S_IDAAPI_MODNAME)) in
  let py_mod := fst (h _ (PyW_TryImportModule modname) w) in
  let py_cls := match attr_lookup_answers (calls_of R) with
                | [(_, _, c)] => c
                | _ => None
                end in
  result_of R = Done r ->
  free_calls (calls_of R) = [(converted_vector (calls_of R), None)]
  /\ List.length (convert_answers (calls_of R)) <= 1
  /\ (exists inner : list PyObject,
        decref_list (calls_of R)
        = (inner ++ pointer_list py_mod ++ pointer_list py_cls)%list
        /\ (inner = []
            \/ exists o : PyObject,
                 call_object_answers (calls_of R) = [Some o] /\ inner = [o])).
Proof.
  intros _. cbv zeta. intros _. unfold IDAPython_extlang_create_object,
    return_python_result, handle_python_error, Py_XDECREF.
  destruct (parse_py_modname name "" "" MAXSTR S_IDAAPI_MODNAME)
    as [[imported modname] clsname].
  unfold_run. unfold calls_of, result_of, converted_vector.
  destruct (h _ (PyW_TryImportModule modname) w) as [[m|] w1]; cbn.
  - crunch h; cbn;
      (split; [reflexivity|]);
      (split; [lia|]);
      first [ exists []; split; [reflexivity|]; left; reflexivity
            | eexists [_]; split; [reflexivity|]; right; eexists;
              split; reflexivity ].
  - crunch h; cbn.
    split; [reflexivity|].
    split; [lia|].
    exists []. split; [reflexivity|]. left; reflexivity.
Qed.

End CreateObject.

(** ** The adapter: attributes *)

Section GetAttr.
Context {F : Foreign} {W : Type} (h : handler W).
Local Open Scope Z_scope.



End GetAttr.

(** ** The adapter: calling a method of an object *)

Section CallMethodObject.
Context {F : Foreign} {W : Type} (h : handler W).
Local Open Scope Z_scope.


(** Whenever [IDAPython_extlang_call_method] on an object returns, it has
    converted the arguments at most once and released, exactly once, the
    very vector the conversion left (the empty vector if it did not get that
    far); and it has released, after the result of the call (when
    [return_python_result] releases it), the object, but only if its
    conversion made a new reference (outcome other than [CIP_OK_NODECREF];
    an opaque object stays owned by its host value), and then the method,
    if one was found. *)
Theorem call_method_releases_references (obj : idc_value_t)
    (method_name : string) (args : list idc_value_t)
    (result : option idc_value_t) (errbuf : string) (errbufsize : nat)
    (g : Globals) (w : W)
    (r : bool * option idc_value_t * string * Globals) :
  let R := run h (IDAPython_extlang_call_method (Some obj) (Some method_name)
                    args result errbuf errbufsize) g w in
  let cv := fst (h _ (idcvar_to_pyvar obj) w) in
  let py_method := match attr_lookup_answers (calls_of R) with
                   | [(_, _, m)] => m
                   | _ => None
                   end in
  result_of R = Done r ->
  free_calls (calls_of R) = [(converted_vector (calls_of R), None)]
  /\ (List.length (convert_answers (calls_of R)) <= 1)%nat
  /\ (exists inner : list PyObject,
        decref_list (calls_of R)
        = (inner
             ++ (if fst cv =? CIP_OK_NODECREF then [] else pointer_list (snd cv))
             ++ pointer_list py_method)%list
        /\ (inner = []
            \/ exists o : PyObject,
                 call_object_answers (calls_of R) = [Some o] /\ inner = [o])).
Proof.
  cbv zeta. intros _.
  unfold IDAPython_extlang_call_method, return_python_result,
    handle_python_error, Py_XDECREF.
  unfold_run. unfold calls_of, result_of, converted_vector.
  destruct (h _ (idcvar_to_pyvar obj) w) as [[cvt py_obj] w1]; cbn.
  destruct (cvt =? CIP_OK_NODECREF) eqn:En; cbn;
    crunch h; cbn;
    (split; [reflexivity|]);
    (split; [lia|]);
    first [ exists []; split; [reflexivity|]; left; reflexivity
          | eexists [_]; split; [reflexivity|]; right; eexists;
            split; reflexivity ].
Qed.

End CallMethodObject.

(** ** The console: more properties *)

Lemma strrchr_single_line (l : string) :
  no_newline l = true -> strrchr l "010" = None.
Proof.
  induction l as [|c l IH]; simpl; [reflexivity|].
  intros H. apply andb_prop in H as [Hc Hl]. rewrite (IH Hl).
  apply negb_true_iff in Hc. now rewrite Hc.
Qed.

Lemma cli_last_line_after_newline (pre l : string) :
  no_newline l = true ->
  cli_last_line (pre ++ String "010" l) = l.
Proof.
  intros Hl. unfold cli_last_line.
  induction pre as [|c pre IH]; simpl.
  - now rewrite (strrchr_single_line l Hl).
  - destruct (strrchr (pre ++ String "010" l) "010") as [i|] eqn:E.
    + rewrite Nat.add_1_r in *. simpl. exact IH.
    + exfalso. clear IH. induction pre as [|a pre IHp]; simpl in E.
      * rewrite (strrchr_single_line l Hl) in E. discriminate.
      * destruct (strrchr (pre ++ String "010" l) "010"); [discriminate|].
        now apply IHp.
Qed.

Section ConsoleMore.
Context {F : Foreign} {W : Type} (h : handler W).

(** [PythonEvalOrExec] does one of two things with its text, never both:
    either it runs the very text with [PyRun_SimpleString] (the text did not
    compile as an expression, or an error was pending) and prints nothing; or
    it evaluates the compiled expression once, and then prints at most one
    line, namely the string form of the value followed by a newline, and
    only for a value other than [None]. *)
Theorem PythonEvalOrExec_modes (str filename : string) (g : Globals) (w : W) :
  let l := calls_of (run h (PythonEvalOrExec str filename) g w) in
  (simple_string_runs l = [str]
   /\ eval_code_answers l = [] /\ msg_texts l = [])
  \/ (simple_string_runs l = []
      /\ exists a : PyPtr,
           eval_code_answers l = [a]
           /\ (msg_texts l = []
               \/ exists (r : PyObject) (s : string),
                    a = Some r /\ r <> Py_None
                    /\ to_string_answers l = [(r, (true, s))]
                    /\ msg_texts l = [s ++ String "010" ""])).
Proof.
  cbv zeta. unfold PythonEvalOrExec, GetMainGlobals. unfold_run.
  unfold calls_of.
  crunch h; cbn;
    first [ left; repeat split; reflexivity
          | right; split; [reflexivity|]; eexists; split; [reflexivity|];
            first [ left; reflexivity
                  | right; eexists _, _; repeat split; try reflexivity;
                    match goal with
                    | Hn : negb (N.eqb ?r Py_None) = true |- ?r <> Py_None =>
                        apply negb_true_iff, N.eqb_neq in Hn; exact Hn
                    end ] ].
Qed.

(** Whatever the runtime answers (the executed code not calling back into
    this file), [IDAPython_cli_execute_line] closes the execution window it
    opened: either it made no foreign call at all (empty input, or more
    input needed), or at its return no trace function is installed and no
    wait box is displayed. *)
Theorem cli_execute_line_closes_window (line : string)
    (before : option Py_tracefunc) (g : Globals) (w : W) :
  let R := run h (IDAPython_cli_execute_line line) g w in
  (calls_of R = []
   /\ (line = "" \/ needs_more_input line = true))
  \/ (installed_hook before (calls_of R) = None
      /\ option_map box_displayed (globals_of R) = Some false
      /\ line <> "" /\ needs_more_input line = false).
Proof.
  cbv zeta. unfold IDAPython_cli_execute_line.
  destruct line as [|c line']; [left; split; [reflexivity|left; reflexivity]|].
  cbn [at_end]. rewrite cli_more_spec.
  destruct (needs_more_input (String c line')) eqn:Hm.
  - left. split; [reflexivity|right; reflexivity].
  - right.
    destruct (run_begin_execution h g w) as (g1 & w1 & l1 & E1).
    destruct (run_PythonEvalOrExec h
                (cli_pseudo_command (String c line')) "<string>" g1 w1)
      as (w2 & l2 & E2).
    destruct (run_end_execution h g1 w2) as (w3 & E3).
    rewrite run_bind, E1. cbn. rewrite run_bind, E2. cbn.
    rewrite run_bind, E3. cbn.
    change (run h (ret true) (set_box_displayed false g1) w3)
      with (Done (true, set_box_displayed false g1), w3, @nil invocation).
    cbn. rewrite !installed_hook_app.
    repeat split; try discriminate.
Qed.

(** Only the last line of a multi-line input decides whether more input is
    needed: for an input ending in a line [l] after a newline, the function
    returns false, having done nothing, exactly when [l] is not empty and
    ends with [':'] or begins with white space, whatever the earlier lines
    are; otherwise it returns true and the whole input has been executed:
    compiled once as "<string>" and then evaluated, or run as statements.
    In particular an input that ends with a newline is always executed. *)
Theorem cli_execute_line_last_line (pre l : string) (g : Globals) (w : W) :
  no_newline l = true ->
  let more := negb (at_end l) && (ends_with ":" l || begins_with_whitespace l) in
  let R := run h (IDAPython_cli_execute_line (pre ++ String "010" l)) g w in
  let R0 := run h (IDAPython_cli_execute_line (pre ++ String "010" "")) g w in
  value_of R = Some (negb more)
  /\ value_of R0 = Some true
  /\ (more = true -> calls_of R = [])
  /\ (more = false ->
      executed (cli_pseudo_command (pre ++ String "010" l)) "<string>"
        (calls_of R))
  /\ executed (cli_pseudo_command (pre ++ String "010" "")) "<string>"
       (calls_of R0).
Proof.
  intros Hl. cbv zeta.
  assert (Hne : forall l0, pre ++ String "010" l0 <> "")
    by (intros l0; destruct pre; discriminate).
  assert (Hmore : forall l0, no_newline l0 = true ->
            needs_more_input (pre ++ String "010" l0)
            = negb (at_end l0)
              && (ends_with ":" l0 || begins_with_whitespace l0)).
  { intros l0 Hl0. rewrite <- cli_more_spec.
    unfold cli_more. rewrite (cli_last_line_after_newline pre l0 Hl0).
    destruct l0 as [|a l0']; [reflexivity|].
    cbn [at_end negb andb]. rewrite last_char_ends_with by discriminate.
    change (char_at (String a l0') 0) with a.
    now rewrite qisspace_whitespace. }
  assert (Hgen : forall l0, no_newline l0 = true ->
            let more := negb (at_end l0)
                        && (ends_with ":" l0 || begins_with_whitespace l0) in
            let R := run h (IDAPython_cli_execute_line
                              (pre ++ String "010" l0)) g w in
            value_of R = Some (negb more)
            /\ (more = true -> calls_of R = [])
            /\ (more = false ->
                executed (cli_pseudo_command (pre ++ String "010" l0))
                  "<string>" (calls_of R))).
  { intros l0 Hl0. cbv zeta. rewrite <- (Hmore l0 Hl0).
    destruct (needs_more_input (pre ++ String "010" l0)) eqn:Hm.
    - unfold IDAPython_cli_execute_line.
      assert (Hat : at_end (pre ++ String "010" l0) = false)
        by (destruct pre; reflexivity).
      rewrite Hat, cli_more_spec, Hm.
      repeat split; try reflexivity. discriminate.
    - destruct (run_cli_execute_line h _ g w (Hne l0) Hm)
        as (g' & w' & l1 & l2 & l3 & shown & -> & _ & _ & _ & Hx).
      repeat split; try reflexivity; try discriminate. intros _. exact Hx. }
  destruct (Hgen l Hl) as (H1 & H2 & H3).
  destruct (Hgen "" eq_refl) as (H4 & _ & H5).
  repeat split; auto.
Qed.

End ConsoleMore.

(** ** Start-up helpers: the path list *)

Lemma string_app_assoc (a b c : string) : (a ++ b) ++ c = a ++ (b ++ c).
Proof. induction a as [|x a IH]; simpl; [reflexivity|]. now rewrite IH. Qed.

Lemma string_app_nil_r (a : string) : a ++ "" = a.
Proof. induction a as [|x a IH]; simpl; [reflexivity|]. now rewrite IH. Qed.

Lemma path_entries_nonempty (delim s : string) : path_entries delim s <> [].
Proof.
  destruct s as [|c s]; simpl; [discriminate|].
  destruct (is_delim delim c); [discriminate|].
  destruct (path_entries delim s); discriminate.
Qed.

Lemma skip_delims_entries (delim s : string) :
  nonempty_entries delim (skip_delims delim s) = nonempty_entries delim s.
Proof.
  unfold nonempty_entries. induction s as [|c s IH]; simpl; [reflexivity|].
  destruct (is_delim delim c) eqn:E; simpl; [exact IH|].
  now rewrite E.
Qed.

Lemma skip_delims_head (delim s : string) :
  skip_delims delim s = EmptyString
  \/ exists c s', skip_delims delim s = String c s' /\ is_delim delim c = false.
Proof.
  induction s as [|c s IH]; simpl; [now left|].
  destruct (is_delim delim c) eqn:E; [exact IH|].
  right. now exists c, s.
Qed.

Lemma skip_delims_length (delim s : string) :
  String.length (skip_delims delim s) <= String.length s.
Proof.
  induction s as [|c s IH]; simpl; [lia|].
  destruct (is_delim delim c); simpl; lia.
Qed.

Lemma take_token_entries (delim s : string) :
  exists rest : list string,
    path_entries delim s = fst (take_token delim s) :: rest
    /\ filter (fun e => negb (at_end e)) rest
       = nonempty_entries delim (snd (take_token delim s)).
Proof.
  unfold nonempty_entries. induction s as [|c s IH]; simpl.
  - exists []. split; reflexivity.
  - destruct (is_delim delim c) eqn:E; simpl.
    + exists (path_entries delim s). split; reflexivity.
    + destruct IH as (rest & -> & Hr). exists rest. split; [reflexivity|exact Hr].
Qed.

Lemma take_token_length (delim s : string) :
  String.length (snd (take_token delim s)) <= String.length s - 1.
Proof.
  induction s as [|c s IH]; simpl; [lia|].
  destruct (is_delim delim c); simpl; lia.
Qed.

Section SanitizePath.
Context {P : Platform}.

Lemma sanitize_path_loop_spec (fuel : nat) :
  forall ctx newpath : string,
    String.length ctx < fuel ->
    sanitize_path_loop fuel ctx newpath
    = join_onto newpath (nonempty_entries DELIMITER ctx).
Proof.
  induction fuel as [|fuel IH]; intros ctx newpath Hf; [lia|].
  simpl. unfold qstrtok.
  rewrite <- (skip_delims_entries DELIMITER ctx).
  pose proof (skip_delims_length DELIMITER ctx) as Hlen.
  destruct (skip_delims_head DELIMITER ctx) as [E|(c & s' & E & Hc)];
    rewrite E in *.
  - reflexivity.
  - cbn [at_end].
    destruct (take_token_entries DELIMITER (String c s')) as (rest & Hp & Hr).
    pose proof (take_token_length DELIMITER (String c s')) as Ht.
    assert (Hd0 : exists t, fst (take_token DELIMITER (String c s')) = String c t)
      by (simpl; rewrite Hc; eexists; reflexivity).
    destruct Hd0 as (t & Hd0).
    destruct (take_token DELIMITER (String c s')) as [d0 ctx'] eqn:Et.
    cbn [fst snd] in *. subst d0. cbn [at_end].
    rewrite IH by (simpl in *; lia).
    unfold nonempty_entries at 2. rewrite Hp. cbn [filter at_end negb].
    rewrite Hr. reflexivity.
Qed.

Lemma join_onto_concat (acc : string) (entries : list string) :
  acc <> "" ->
  join_onto acc entries = String.concat DELIMITER (acc :: entries).
Proof.
  revert acc. induction entries as [|e es IH]; intros acc Ha; [reflexivity|].
  unfold join_onto in *. simpl fold_left.
  destruct acc as [|a acc']; [congruence|]. cbn [at_end negb].
  rewrite IH by (simpl; discriminate).
  cbn [String.concat]. destruct es as [|e' es'].
  - now rewrite string_app_assoc.
  - now rewrite !string_app_assoc.
Qed.

Lemma sanitize_path_loop_concat (py_path : string) :
  sanitize_path py_path
  = String.concat DELIMITER
      (nonempty_entries DELIMITER (qstrncpy "" py_path QMAXPATH)).
Proof.
  unfold sanitize_path. rewrite sanitize_path_loop_spec by lia.
  destruct (nonempty_entries DELIMITER (qstrncpy "" py_path QMAXPATH))
    as [|e es] eqn:E; [reflexivity|].
  assert (He : e <> "").
  { assert (Hin : In e (nonempty_entries DELIMITER
                          (qstrncpy "" py_path QMAXPATH)))
      by (rewrite E; now left).
    unfold nonempty_entries in Hin. apply filter_In in Hin as [_ Hin].
    destruct e; [discriminate|discriminate]. }
  unfold join_onto. simpl fold_left. fold (join_onto e es).
  now apply join_onto_concat.
Qed.

(** [sanitize_path] removes the empty entries of the path list, and only
    them: the path given to [PySys_SetPath] consists of the non-empty entries
    of the interpreter's path (as far as it fits the buffer), in their order,
    joined by the delimiter.  The fuel of the loop is enough for every
    input. *)
Theorem sanitize_path_drops_empty_entries (py_path : string) :
  sanitize_path py_path
  = String.concat DELIMITER
      (nonempty_entries DELIMITER (qstrncpy "" py_path QMAXPATH))
  /\ (String.length py_path < QMAXPATH ->
      sanitize_path py_path
      = String.concat DELIMITER (nonempty_entries DELIMITER py_path)).
Proof.
  pose proof (sanitize_path_loop_concat py_path) as H.
  split; [exact H|].
  intros Hfit. rewrite H. now rewrite qstrncpy_fits.
Qed.

End SanitizePath.

Section SanitizePathSingle.
Context {P : Platform}.

Lemma is_delim_single (d c : ascii) :
  is_delim (String d "") c = Ascii.eqb c d.
Proof. unfold is_delim. simpl. now rewrite orb_false_r. Qed.

Lemma concat_path_entries (d : ascii) (s : string) :
  String.concat (String d "") (path_entries (String d "") s) = s.
Proof.
  induction s as [|c s IH]; [reflexivity|].
  cbn [path_entries]. rewrite is_delim_single.
  destruct (Ascii.eqb c d) eqn:E.
  - apply Ascii.eqb_eq in E. subst c.
    destruct (path_entries (String d "") s) as [|e es] eqn:Ep;
      [now destruct (path_entries_nonempty (String d "") s)|].
    cbn [String.concat]. cbn [String.concat] in IH.
    rewrite IH. reflexivity.
  - destruct (path_entries (String d "") s) as [|e es] eqn:Ep;
      [now destruct (path_entries_nonempty (String d "") s)|].
    cbn [String.concat] in *. destruct es; rewrite <- IH; reflexivity.
Qed.

Lemma path_entries_delim_free (d : ascii) (s : string) :
  forallb (delim_free d) (path_entries (String d "") s) = true.
Proof.
  induction s as [|c s IH]; [reflexivity|].
  cbn [path_entries]. rewrite is_delim_single.
  destruct (Ascii.eqb c d) eqn:E; [exact IH|].
  destruct (path_entries (String d "") s) as [|e es]; simpl in *.
  - now rewrite E.
  - now rewrite E.
Qed.

Lemma path_entries_of_entry (d : ascii) (e : string) :
  delim_free d e = true -> path_entries (String d "") e = [e].
Proof.
  induction e as [|c e IH]; [reflexivity|]. simpl delim_free. intros H.
  apply andb_prop in H as [Hc He]. apply negb_true_iff in Hc.
  cbn [path_entries]. rewrite is_delim_single, Hc, (IH He). reflexivity.
Qed.

Lemma path_entries_of_app (d : ascii) (e rest : string) :
  delim_free d e = true ->
  path_entries (String d "") (e ++ String d rest)
  = e :: path_entries (String d "") rest.
Proof.
  induction e as [|c e IH]; simpl delim_free; intros H.
  - simpl append. cbn [path_entries]. rewrite is_delim_single, Ascii.eqb_refl.
    reflexivity.
  - apply andb_prop in H as [Hc He]. apply negb_true_iff in Hc.
    simpl append. cbn [path_entries]. rewrite is_delim_single, Hc, (IH He).
    reflexivity.
Qed.

Lemma path_entries_concat (d : ascii) (es : list string) :
  forall e : string,
    forallb (delim_free d) (e :: es) = true ->
    path_entries (String d "") (String.concat (String d "") (e :: es)) = e :: es.
Proof.
  induction es as [|e' es IH]; intros e H; simpl in H.
  - rewrite andb_true_r in H. now apply path_entries_of_entry.
  - apply andb_prop in H as [He H]. cbn [String.concat].
    simpl append. rewrite path_entries_of_app by assumption.
    f_equal. apply IH. exact H.
Qed.

Lemma filter_delim_free (d : ascii) (l : list string) :
  forallb (delim_free d) l = true ->
  forallb (delim_free d) (filter nonempty l) = true.
Proof.
  induction l as [|e l IH]; simpl; [reflexivity|]. intros H.
  apply andb_prop in H as [He H]. destruct (nonempty e); simpl; auto.
  now rewrite He, IH.
Qed.

Lemma filter_idempotent (l : list string) :
  filter nonempty (filter nonempty l) = filter nonempty l.
Proof.
  induction l as [|e l IH]; simpl; [reflexivity|].
  destruct (nonempty e) eqn:E; simpl; [now rewrite E, IH|exact IH].
Qed.

Lemma concat_filter_length (sep : string) (l : list string) :
  String.length (String.concat sep (filter nonempty l))
  <= String.length (String.concat sep l).
Proof.
  assert (Hc : forall e es,
             String.length (String.concat sep (e :: es))
             = String.length e
               + match es with
                 | [] => 0
                 | _ => String.length sep + String.length (String.concat sep es)
                 end).
  { intros e es. cbn [String.concat]. destruct es; [lia|].
    now rewrite !string_length_app. }
  induction l as [|e l IH]; [simpl; lia|].
  simpl filter. destruct (nonempty e) eqn:E.
  - rewrite !Hc. destruct l as [|e' l']; [simpl; lia|].
    destruct (filter nonempty (e' :: l')) eqn:Ef; lia.
  - rewrite Hc. destruct l as [|e' l']; [simpl; lia|]. simpl in *. lia.
Qed.

Lemma nonempty_entries_concat (d : ascii) (s : string) :
  nonempty_entries (String d "")
    (String.concat (String d "") (nonempty_entries (String d "") s))
  = nonempty_entries (String d "") s.
Proof.
  unfold nonempty_entries. fold nonempty.
  pose proof (filter_delim_free d _ (path_entries_delim_free d s)) as Hf.
  destruct (filter nonempty (path_entries (String d "") s)) as [|e es] eqn:E.
  - reflexivity.
  - rewrite path_entries_concat by exact Hf.
    rewrite <- E. apply filter_idempotent.
Qed.

(** With a one-character delimiter (":" or ";"): [sanitize_path] leaves a
    path list without empty entries as it is (when it fits the buffer);
    applying it twice is the same as applying it once; and its result is
    either empty or has no empty entry. *)
Theorem sanitize_path_idempotent (py_path : string) :
  is_single_char DELIMITER = true ->
  sanitize_path (sanitize_path py_path) = sanitize_path py_path
  /\ (String.length py_path < QMAXPATH ->
      forallb nonempty (path_entries DELIMITER py_path) = true ->
      sanitize_path py_path = py_path)
  /\ (sanitize_path py_path = ""
      \/ forallb nonempty (path_entries DELIMITER (sanitize_path py_path))
         = true).
Proof.
  intros Hd. destruct DELIMITER as [|d [|? ?]] eqn:Ed; try discriminate Hd.
  clear Hd.
  assert (Hs : forall p,
             sanitize_path p
             = String.concat (String d "")
                 (nonempty_entries (String d "") (qstrncpy "" p QMAXPATH))).
  { intros p. rewrite <- Ed. apply sanitize_path_loop_concat. }
  split; [|split].
  - rewrite (Hs (sanitize_path py_path)), (Hs py_path).
    set (buf := qstrncpy "" py_path QMAXPATH).
    assert (Hfit : qstrncpy ""
                     (String.concat (String d "")
                        (nonempty_entries (String d "") buf)) QMAXPATH
                   = String.concat (String d "")
                       (nonempty_entries (String d "") buf)).
    { destruct QMAXPATH as [|n] eqn:Eq.
      - subst buf. reflexivity.
      - apply qstrncpy_fits.
        pose proof (concat_filter_length (String d "")
                      (path_entries (String d "") buf)) as Hl.
        rewrite concat_path_entries in Hl.
        destruct (qstrncpy_bounded "" py_path (S n)) as [_ Hb].
        fold nonempty in Hl. unfold nonempty_entries. fold nonempty.
        subst buf. specialize (Hb ltac:(lia)). lia. }
    rewrite Hfit. now rewrite nonempty_entries_concat.
  - intros Hfit Hclean. rewrite Hs, qstrncpy_fits by assumption.
    unfold nonempty_entries. fold nonempty.
    assert (Hid : forall l, forallb nonempty l = true -> filter nonempty l = l).
    { induction l as [|e l IH]; simpl; [reflexivity|]. intros H.
      apply andb_prop in H as [He H]. now rewrite He, IH. }
    rewrite Hid by exact Hclean. apply concat_path_entries.
  - rewrite Hs. set (buf := qstrncpy "" py_path QMAXPATH).
    pose proof (filter_delim_free d _ (path_entries_delim_free d buf)) as Hf.
    unfold nonempty_entries. fold nonempty.
    destruct (filter nonempty (path_entries (String d "") buf)) as [|e es] eqn:E.
    + left. reflexivity.
    + right. rewrite path_entries_concat by exact Hf.
      rewrite <- E. clear. induction (path_entries (String d "") buf) as [|x l IH];
        simpl; [reflexivity|].
      destruct (nonempty x) eqn:Ex; simpl; [now rewrite Ex|exact IH].
Qed.

End SanitizePathSingle.

(** ** Start-up helpers: the plugin options *)

Lemma atoi_digits_numeral (d : Decimal.uint) (rest : string) :
  forall a : nat,
    atoi_digits (NilEmpty.string_of_uint d ++ String ";" rest) (Z.of_nat a)
    = Z.of_nat (Nat.of_uint_acc d a).
Proof.
  induction d; intros a;
    cbn [NilEmpty.string_of_uint append atoi_digits Nat.of_uint_acc];
    try reflexivity;
    match goal with
    | |- context [is_digit ?c] =>
        change (is_digit c) with true; cbv iota;
        let n := eval compute in (nat_of_ascii c) in
        change (nat_of_ascii c) with n;
        rewrite <- IHd; f_equal; rewrite Nat.tail_mul_spec; lia
    end.
Qed.

Lemma strchr_numeral (d : Decimal.uint) (rest : string) :
  strchr (NilEmpty.string_of_uint d ++ String ";" rest) ";"
  = Some (String.length (NilEmpty.string_of_uint d)).
Proof.
  induction d; cbn [NilEmpty.string_of_uint append strchr String.length];
    try reflexivity;
    rewrite IHd; reflexivity.
Qed.

Lemma decimal_numeral (n : nat) :
  exists d : Decimal.uint,
    decimal n = NilEmpty.string_of_uint d
    /\ Nat.of_uint d = n
    /\ exists c s, NilEmpty.string_of_uint d = String c s /\ is_digit c = true.
Proof.
  unfold decimal, NilZero.string_of_uint.
  pose proof (DecimalNat.Unsigned.of_to n) as Hn.
  destruct (Nat.to_uint n) as [|d|d|d|d|d|d|d|d|d|d] eqn:E.
  - exists (Decimal.D0 Decimal.Nil). split; [reflexivity|].
    split; [exact Hn|]. eexists _, _. split; reflexivity.
  - eexists. split; [reflexivity|]. split; [exact Hn|].
    eexists _, _. split; reflexivity.
  - eexists. split; [reflexivity|]. split; [exact Hn|].
    eexists _, _. split; reflexivity.
  - eexists. split; [reflexivity|]. split; [exact Hn|].
    eexists _, _. split; reflexivity.
  - eexists. split; [reflexivity|]. split; [exact Hn|].
    eexists _, _. split; reflexivity.
  - eexists. split; [reflexivity|]. split; [exact Hn|].
    eexists _, _. split; reflexivity.
  - eexists. split; [reflexivity|]. split; [exact Hn|].
    eexists _, _. split; reflexivity.
  - eexists. split; [reflexivity|]. split; [exact Hn|].
    eexists _, _. split; reflexivity.
  - eexists. split; [reflexivity|]. split; [exact Hn|].
    eexists _, _. split; reflexivity.
  - eexists. split; [reflexivity|]. split; [exact Hn|].
    eexists _, _. split; reflexivity.
  - eexists. split; [reflexivity|]. split; [exact Hn|].
    eexists _, _. split; reflexivity.
Qed.

Lemma is_digit_not_space (c : ascii) :
  is_digit c = true ->
  qisspace c = false /\ c <> "-"%char /\ c <> "+"%char.
Proof.
  destruct c as [[] [] [] [] [] [] [] []]; cbv; intros H;
    try discriminate H; repeat split; discriminate.
Qed.

Section PluginOptions.
Context {P : Platform}.
Local Open Scope Z_scope.

(** The plugin option string is read back as it is written:
    "<when>;<script>", with <when> a decimal number that fits an [int] and a
    script name that fits the buffer, gives exactly that number and that
    script name (anything after the first [';'], further semicolons
    included).  Without a [';'] the whole string is the script, to be run
    when the database opens; without options nothing changes. *)
Theorem parse_plugin_options_round_trip (st : RunOptions) :
  (forall (when : nat) (script : string),
      Z.of_nat when < 2 ^ 31 ->
      (String.length script < QMAXPATH)%nat ->
      parse_plugin_options (Some (decimal when ++ String ";" script)) st
      = mkRunOptions (Z.of_nat when) script)
  /\ (forall options : string,
        strchr options ";" = None ->
        (String.length options < QMAXPATH)%nat ->
        parse_plugin_options (Some options) st
        = mkRunOptions run_on_db_open options)
  /\ parse_plugin_options None st = st.
Proof.
  split; [|split; [|reflexivity]].
  - intros when script Hw Hs.
    destruct (decimal_numeral when) as (d & Hd & Hn & c & s & Hc & Hdig).
    unfold parse_plugin_options. rewrite Hd, strchr_numeral, advance_app.
    rewrite qstrncpy_fits by assumption. f_equal.
    unfold atoi. rewrite Hc. cbn [append atoi_skip_space].
    destruct (is_digit_not_space c Hdig) as (Hsp & Hm & Hp).
    rewrite Hsp.
    assert (Hval : atoi_digits (String c (s ++ String ";" script)) 0
                   = Z.of_nat when).
    { change (String c (s ++ String ";" script))
        with (String c s ++ String ";" script).
      rewrite <- Hc. change 0 with (Z.of_nat 0).
      rewrite atoi_digits_numeral. unfold Nat.of_uint in Hn. now rewrite Hn. }
    assert (Hwrap : int_wrap (Z.of_nat when) = Z.of_nat when)
      by (apply int_wrap_small; lia).
    destruct c as [[] [] [] [] [] [] [] []];
      try (exfalso; apply Hm; reflexivity);
      try (exfalso; apply Hp; reflexivity);
      rewrite Hval; exact Hwrap.
  - intros options Hno Hfit. unfold parse_plugin_options.
    rewrite Hno. now rewrite qstrncpy_fits.
Qed.

(** [set_python_options]: an option is accepted exactly when it is numeric
    and its keyword is one of the four known ones; a rejected option changes
    nothing.  SCRIPT_TIMEOUT stores the value as a C [int] and touches
    nothing else; with it, [begin_execution] stays without any effect
    exactly when the UI is not ready or the stored timeout is 0, which is how
    a configured timeout of 0 turns the cancellation polling off. *)
Theorem set_python_options_timeout {F : Foreign} {W : Type} (h : handler W)
    (IDPOPT_NUM : Z) (keyword : string) (value_type value : Z)
    (g : Globals) (sw : Switches) (w : W) :
  let r := set_python_options IDPOPT_NUM keyword value_type value g sw in
  let t := set_python_options IDPOPT_NUM "SCRIPT_TIMEOUT" IDPOPT_NUM value g sw in
  (fst (fst r) = IDPOPT_OK <->
     value_type = IDPOPT_NUM
     /\ In keyword ["SCRIPT_TIMEOUT"; "ALERT_AUTO_SCRIPTS";
                    "REMOVE_CWD_SYS_PATH"; "USE_LOCAL_PYTHON"]%string)
  /\ (fst (fst r) = IDPOPT_BADKEY -> snd (fst r) = g /\ snd r = sw)
  /\ t = (IDPOPT_OK, set_timeout (int_wrap value) g, sw)
  /\ (calls_of (run h begin_execution (snd (fst t)) w) = []
      <-> g_ui_ready g = false \/ int_wrap value = 0).
Proof.
  cbv zeta. split; [|split; [|split]].
  - unfold set_python_options.
    destruct (value_type =? IDPOPT_NUM) eqn:Ev.
    + apply Z.eqb_eq in Ev.
      destruct (String.eqb keyword "SCRIPT_TIMEOUT") eqn:E1;
        [apply String.eqb_eq in E1; subst; simpl; intuition|].
      destruct (String.eqb keyword "ALERT_AUTO_SCRIPTS") eqn:E2;
        [apply String.eqb_eq in E2; subst; simpl; intuition|].
      destruct (String.eqb keyword "REMOVE_CWD_SYS_PATH") eqn:E3;
        [apply String.eqb_eq in E3; subst; simpl; intuition|].
      destruct (String.eqb keyword "USE_LOCAL_PYTHON") eqn:E4;
        [apply String.eqb_eq in E4; subst; simpl; intuition|].
      apply String.eqb_neq in E1, E2, E3, E4. simpl.
      split; [discriminate|]. intros [_ [H|[H|[H|[H|[]]]]]]; congruence.
    + apply Z.eqb_neq in Ev. simpl. split; [discriminate|]. intros [H _].
      congruence.
  - unfold set_python_options.
    destruct (value_type =? IDPOPT_NUM); [|auto].
    destruct (String.eqb keyword "SCRIPT_TIMEOUT"); [discriminate|].
    destruct (String.eqb keyword "ALERT_AUTO_SCRIPTS"); [discriminate|].
    destruct (String.eqb keyword "REMOVE_CWD_SYS_PATH"); [discriminate|].
    destruct (String.eqb keyword "USE_LOCAL_PYTHON"); [discriminate|].
    auto.
  - unfold set_python_options. now rewrite Z.eqb_refl.
  - assert (Et : set_python_options IDPOPT_NUM "SCRIPT_TIMEOUT" IDPOPT_NUM
                   value g sw
                 = (IDPOPT_OK, set_timeout (int_wrap value) g, sw))
      by (unfold set_python_options; now rewrite Z.eqb_refl).
    rewrite Et. cbn [fst snd].
    destruct (polling_enabled (set_timeout (int_wrap value) g)) eqn:He.
    + destruct (run_begin_execution_enabled h _ w He) as (now & w' & ->).
      cbn. unfold polling_enabled in He. cbn in He.
      apply andb_prop in He as [Hu Ht]. apply negb_true_iff, Z.eqb_neq in Ht.
      split.
      * intros Hl. destruct (box_displayed g); discriminate Hl.
      * intros [Hr|Hz]; [congruence|contradiction].
    + rewrite (run_begin_execution_disabled h _ w He). cbn.
      split; [|reflexivity]. intros _.
      unfold polling_enabled in He. cbn in He.
      apply andb_false_iff in He as [Hu|Ht]; [now left|].
      right. apply negb_false_iff, Z.eqb_eq in Ht. exact Ht.
Qed.

End PluginOptions.

(** ** Running statements for IDC *)

Lemma run_ret {W A : Type} (h : handler W) (a : A) (g : Globals) (w : W) :
  run h (ret a) g w = (Done (a, g), w, []).
Proof. reflexivity. Qed.

Lemma run_call {W X : Type} (h : handler W) (e : Ext X) (g : Globals) (w : W) :
  run h (call e) g w
  = (Done (fst (h X e w), g), snd (h X e w), [Invoke e (fst (h X e w))]).
Proof. reflexivity. Qed.

Section StatementsFacts.
Context {F : Foreign} {W : Type} (h : handler W).
Variable PyRun_String : string -> PyObject -> M PyPtr.
Hypothesis PyRun_String_returns :
  forall (str : string) (globals : PyObject) (g : Globals) (w : W),
  exists (p : PyPtr) (g' : Globals) (w' : W) (l : list invocation),
    run h (PyRun_String str globals) g w = (Done (p, g'), w', l).

(** What follows the return of [PyRun_String]. *)
Lemma run_statements_epilogue (result : PyPtr) (errbufsize : nat)
    (g : Globals) (w : W) :
  exists (ok : bool) (eb : string) (g' : Globals) (w' : W)
         (l : list invocation),
    run h (call PYW_GIL_RELEASE ;;
           Py_XDECREF result ;;
           end_execution ;;
           ok <- match result with
                 | None => ret false
                 | Some _ => occurred <- call PyErr_Occurred ;; ret (negb occurred)
                 end ;;
           if negb ok then
             errbuf <- handle_python_error "" errbufsize true ;;
             ret (ok, errbuf)
           else ret (ok, "")) g w
    = (Done ((ok, eb), g'), w', l)
    /\ (ok = true -> eb = "")
    /\ (result = None -> ok = false)
    /\ (result <> None ->
        (forall w0 : W, fst (h _ PyErr_Occurred w0) = false) -> ok = true).
Proof.
  unfold end_execution, hide_script_waitbox, handle_python_error, Py_XDECREF.
  unfold_run.
  crunch h; cbn; eexists _, _, _, _, _; (split; [reflexivity|]);
    (split; [intros Hok; try reflexivity; try discriminate;
             rewrite Hok in *; discriminate|]);
    (split; [intros Hr; try reflexivity; discriminate Hr|]);
    intros Hr Hno; try congruence;
    repeat match goal with
           | Hq : h bool PyErr_Occurred ?w0 = (?b, _) |- _ =>
               let E := fresh "E" in
               pose proof (Hno w0) as E; rewrite Hq in E; cbn in E; subst b;
               clear Hq
           end;
    cbn in *; congruence.
Qed.

Lemma internal_error_not_empty (eb : string) (size : nat) :
  2 <= size ->
  (if at_end eb then qstrncpy eb "internal error" size else eb) <> "".
Proof.
  intros Hs. destruct eb as [|c eb]; [|discriminate].
  destruct size as [|[|n]]; try lia. discriminate.
Qed.

Lemma run_GetMainGlobals (g : Globals) (w : W) :
  exists (p : PyPtr) (w' : W) (l : list invocation),
    run h GetMainGlobals g w = (Done (p, g), w', l)
    /\ ((forall w0 : W, fst (h _ (PyImport_AddModule S_MAIN) w0) <> None) ->
        (forall (m : PyPtr) (w0 : W), fst (h _ (PyModule_GetDict m) w0) <> None) ->
        p <> None).
Proof.
  unfold GetMainGlobals. unfold_run.
  destruct (h _ (PyImport_AddModule S_MAIN) w) as [[m|] w1] eqn:E1; cbn.
  - destruct (h _ (PyModule_GetDict (Some m)) w1) as [p w2] eqn:E2; cbn.
    eexists _, _, _. split; [reflexivity|].
    intros _ Hd. specialize (Hd (Some m) w1). now rewrite E2 in Hd.
  - eexists _, _, _. split; [reflexivity|].
    intros Ha _. specialize (Ha w). now rewrite E1 in Ha.
Qed.

(** [IDAPython_extlang_run_statements] never fails silently: provided the
    statement run itself returns, the function returns, and with a buffer of
    at least two bytes a false result always comes with a non-empty message
    ("internal error" when nothing better is known), while a true result
    comes with an empty one.  The result follows the statement run: it is
    false when the run yields NULL, and true when the run yields an object,
    no error is pending and the dictionary of [__main__] is there.
    [idc_runpythonstatement] hands that outcome (for the buffer of [MAXSTR]
    bytes) to the IDC caller: the number 0 when it is true, the non-empty
    message as a string when it is false; it always returns [eOk]. *)
Theorem run_statements_failure_has_message (str errbuf : string)
    (errbufsize : nat) (res : idc_value_t) (g : Globals) (w : W) :
  (2 <= errbufsize ->
   exists (ok : bool) (eb : string) (g' : Globals),
     result_of (run h (IDAPython_extlang_run_statements PyRun_String
                         str errbuf errbufsize) g w)
     = Done ((ok, eb), g')
     /\ (ok = false -> eb <> "")
     /\ (ok = true -> eb = "")
     /\ ((forall (s : string) (d : PyObject) (g0 : Globals) (w0 : W),
            value_of (run h (PyRun_String s d) g0 w0) = Some None) ->
         ok = false)
     /\ ((forall (s : string) (d : PyObject) (g0 : Globals) (w0 : W),
            exists o : PyObject,
              value_of (run h (PyRun_String s d) g0 w0) = Some (Some o)) ->
         (forall w0 : W, fst (h _ PyErr_Occurred w0) = false) ->
         (forall w0 : W, fst (h _ (PyImport_AddModule S_MAIN) w0) <> None) ->
         (forall (m : PyPtr) (w0 : W),
            fst (h _ (PyModule_GetDict m) w0) <> None) ->
         ok = true))
  /\ (2 <= MAXSTR ->
      exists (ok : bool) (eb : string) (g' : Globals),
        result_of (run h (IDAPython_extlang_run_statements PyRun_String
                            str errbuf MAXSTR) g w)
        = Done ((ok, eb), g')
        /\ result_of (run h (idc_runpythonstatement PyRun_String str res errbuf)
                        g w)
           = Done ((eOk, if ok then VT_LONG 0 else VT_STR2 eb), g')
        /\ (ok = false -> eb <> "")).
Proof.
  assert (Hmain : forall size, 2 <= size ->
            exists ok eb g' w' l,
              run h (IDAPython_extlang_run_statements PyRun_String
                       str errbuf size) g w
              = (Done ((ok, eb), g'), w', l)
              /\ (ok = false -> eb <> "") /\ (ok = true -> eb = "")
              /\ ((forall s d g0 w0,
                     value_of (run h (PyRun_String s d) g0 w0) = Some None) ->
                  ok = false)
              /\ ((forall s d g0 w0,
                     exists o : PyObject,
                       value_of (run h (PyRun_String s d) g0 w0)
                       = Some (Some o)) ->
                  (forall w0 : W, fst (h _ PyErr_Occurred w0) = false) ->
                  (forall w0 : W,
                     fst (h _ (PyImport_AddModule S_MAIN) w0) <> None) ->
                  (forall (m : PyPtr) (w0 : W),
                     fst (h _ (PyModule_GetDict m) w0) <> None) ->
                  ok = true)).
  { intros size Hsize. unfold IDAPython_extlang_run_statements.
    rewrite run_bind.
    destruct (run_GetMainGlobals g w) as (p & w1 & l1 & -> & Hmainmod). cbn.
    destruct p as [globals|].
    - rewrite run_bind, run_bind, run_call. cbn.
      rewrite run_bind.
      destruct (run_begin_execution h g (snd (h unit PyErr_Clear w1)))
        as (g2 & w2 & l2 & ->). cbn.
      rewrite run_bind, run_call. cbn. rewrite run_bind.
      destruct (PyRun_String_returns str globals g2
                  (snd (h unit PYW_GIL_ENSURE w2)))
        as (result & g3 & w3 & l3 & Hrun). rewrite Hrun. cbn.
      destruct (run_statements_epilogue result size g3 w3)
        as (ok & eb & g4 & w4 & l4 & -> & Hok & Hnull & Hobj). cbn.
      assert (Hyn : (forall s d g0 w0,
                       value_of (run h (PyRun_String s d) g0 w0) = Some None) ->
                    ok = false).
      { intros Hy. apply Hnull. specialize (Hy str globals g2
                  (snd (h unit PYW_GIL_ENSURE w2))).
        rewrite Hrun in Hy. cbn in Hy. congruence. }
      assert (Hyo : (forall s d g0 w0,
                       exists o : PyObject,
                         value_of (run h (PyRun_String s d) g0 w0)
                         = Some (Some o)) ->
                    (forall w0 : W, fst (h _ PyErr_Occurred w0) = false) ->
                    ok = true).
      { intros Hy Hno. apply Hobj; [|exact Hno].
        destruct (Hy str globals g2 (snd (h unit PYW_GIL_ENSURE w2)))
          as (o & Ho).
        rewrite Hrun in Ho. cbn in Ho. congruence. }
      destruct ok; cbn.
      + rewrite (Hok eq_refl). cbn. rewrite run_ret. cbn.
        eexists _, _, _, _, _. split; [reflexivity|].
        split; [discriminate|]. split; [reflexivity|]. split; auto.
      + pose proof (internal_error_not_empty eb size Hsize) as Hne.
        destruct (at_end eb); rewrite run_ret; cbn;
          eexists _, _, _, _, _; (split; [reflexivity|]);
          (split; [auto|]); (split; [discriminate|]); split; auto.
    - rewrite run_bind, run_ret. cbn.
      pose proof (internal_error_not_empty errbuf size Hsize) as Hne.
      destruct (at_end errbuf); rewrite run_ret; cbn;
        eexists _, _, _, _, _; (split; [reflexivity|]);
        (split; [auto|]); (split; [discriminate|]);
        (split; [reflexivity|]);
        intros _ _ Ha Hd; exfalso; now apply (Hmainmod Ha Hd). }
  split.
  - intros Hsize. destruct (Hmain errbufsize Hsize)
      as (ok & eb & g' & w' & l & E & H1 & H2 & H3 & H4).
    exists ok, eb, g'. rewrite E. auto.
  - intros Hsize. destruct (Hmain MAXSTR Hsize)
      as (ok & eb & g' & w' & l & E & H1 & H2 & _).
    exists ok, eb, g'. rewrite E. split; [reflexivity|]. split; [|exact H1].
    unfold idc_runpythonstatement. rewrite run_bind, E. cbn.
    destruct ok; rewrite run_ret; reflexivity.
Qed.

End StatementsFacts.

(** ** The properties above on the concrete runtimes *)

(** A window with three hook calls and a change of the timeout, on the
    runtime where nothing is defined and the clock advances by one. *)
Lemma counter_in_range_window_witness :
  exists g' : Globals,
    globals_of (run (bare_runtime 1)
                  (window [HookCall; HookCall; SetTimeout 5; HookCall])
                  initial_globals 0%Z) = Some g'
    /\ counter_in_range g'.
Proof.
  apply (counter_in_range_window (bare_runtime 1)
           [HookCall; HookCall; SetTimeout 5; HookCall] initial_globals 0%Z).
  unfold counter_in_range. simpl. lia.
Defined.

(** [run("greet", [<wild>])] in the session: the conversion fails, and
    although [greet] is defined nothing but the conversion and the release
    of the arguments happens. *)
Lemma extlang_run_conversion_failure_witness :
  let R := run toy_python
             (IDAPython_extlang_run "greet" [VT_WILD] (Some (VT_LONG 0)) "" 1024)
             initial_globals session in
  result_of R
  = Done ((false, Some (VT_LONG 0), "arg#0 has wrong type"), initial_globals)
  /\ List.length (calls_of R) = 2%nat.
Proof.
  destruct (extlang_run_conversion_failure (F := idapython_foreign)
              (@toy_python idapython_foreign)
              "greet" [VT_WILD] (Some (VT_LONG 0)) "" 1024
              initial_globals session ltac:(simpl; lia) ltac:(reflexivity))
    as [H1 H2].
  split; [exact H1|]. rewrite H2. reflexivity.
Defined.

(** [run("__main__.undefinedName", [])]: the module is imported, the name
    is not found, and the module is released last. *)
Lemma extlang_run_module_reference_witness :
  let R := run toy_python
             (IDAPython_extlang_run "__main__.undefinedName" []
                (Some (VT_LONG 0)) "" 1024)
             initial_globals session in
  exists before : list invocation,
    calls_of R = (before ++ [Invoke (Py_DECREF 10%N) tt])%list.
Proof.
  exact (proj2 (extlang_run_module_reference (F := idapython_foreign)
                  (@toy_python idapython_foreign) "__main__.undefinedName" []
                  (Some (VT_LONG 0)) "" 1024 initial_globals session
                  ltac:(simpl; lia))
           ltac:(reflexivity) 10%N _ ltac:(reflexivity) ltac:(reflexivity)).
Defined.

(** [create_object("__main__.greet.x", [])]: [__main__] is imported and
    asked for the attribute [greet.x]. *)
Lemma create_object_resolution_witness :
  let R := run toy_python
             (IDAPython_extlang_create_object "__main__.greet.x" []
                (Some (VT_LONG 0)) "" 1024)
             initial_globals session in
  exists (p : PyPtr) (rest : list invocation),
    calls_of R = Invoke (PyW_TryImportModule "__main__") p :: rest
    /\ (forall m : PyObject, p = Some m ->
        exists (q : PyPtr) (rest' : list invocation),
          rest = Invoke (PyW_TryGetAttrString (Some m) "greet.x") q :: rest').
Proof.
  refine (proj2 (create_object_resolution (F := idapython_foreign)
                   (@toy_python idapython_foreign) "__main__.greet.x" [] (Some (VT_LONG 0))
                   "" 1024 initial_globals session _ _)
            "__main__" "greet.x" ltac:(reflexivity) ltac:(reflexivity))%string;
    simpl; lia.
Defined.

(** [create_object("Greeter", [])]: the default module is not loaded in the
    session. *)
Lemma create_object_resolution_failures_witness :
  result_of (run toy_python
               (IDAPython_extlang_create_object "Greeter" []
                  (Some (VT_LONG 0)) "" 1024)
               initial_globals session)
  = Done ((false, Some (VT_LONG 0), "Could not import module 'idaapi'!"),
          initial_globals).
Proof.
  exact (proj1 (proj1 (create_object_resolution_failures
                         (F := idapython_foreign)
                         (@toy_python idapython_foreign) "Greeter" []
                         (Some (VT_LONG 0)) "" 1024 initial_globals session
                         ltac:(simpl; lia))
                  ltac:(reflexivity))).
Defined.




(** A two-line input whose last line opens a block, and the same input
    closed by a newline. *)
Lemma cli_execute_line_last_line_witness :
  value_of (run toy_python
              (IDAPython_cli_execute_line ("x = 1" ++ String "010" "if x:"))
              initial_globals session)
  = Some false
  /\ executed
       (cli_pseudo_command (("x = 1" ++ String "010" "if x:") ++ String "010" ""))
       "<string>"
       (calls_of (run toy_python
                    (IDAPython_cli_execute_line
                       (("x = 1" ++ String "010" "if x:") ++ String "010" ""))
                    initial_globals session)).
Proof.
  split.
  - exact (proj1 (cli_execute_line_last_line (F := idapython_foreign)
                    (@toy_python idapython_foreign)
                    "x = 1" "if x:" initial_globals session
                    ltac:(reflexivity))).
  - exact (proj2 (proj2 (proj2 (proj2
             (cli_execute_line_last_line (F := idapython_foreign)
                (@toy_python idapython_foreign)
                ("x = 1" ++ String "010" "if x:") "" initial_globals session
                ltac:(reflexivity)))))).
Defined.

(** A path list with a leading, a doubled and a trailing delimiter. *)
Lemma sanitize_path_drops_empty_entries_witness :
  sanitize_path (P := unix_platform) ":/usr/lib/python27::/opt/ida/python:"
  = "/usr/lib/python27:/opt/ida/python".
Proof.
  refine (eq_trans
            (proj2 (sanitize_path_drops_empty_entries (P := unix_platform)
                      ":/usr/lib/python27::/opt/ida/python:") _) _).
  - simpl. lia.
  - reflexivity.
Defined.

Lemma sanitize_path_idempotent_witness :
  sanitize_path (P := unix_platform)
    (sanitize_path (P := unix_platform) ":/usr/lib/python27::/opt/ida/python:")
  = sanitize_path (P := unix_platform) ":/usr/lib/python27::/opt/ida/python:"
  /\ sanitize_path (P := unix_platform) "/usr/lib/python27:/opt/ida/python"
     = "/usr/lib/python27:/opt/ida/python".
Proof.
  split.
  - exact (proj1 (sanitize_path_idempotent (P := unix_platform)
                    ":/usr/lib/python27::/opt/ida/python:"
                    ltac:(reflexivity))).
  - refine (proj1 (proj2 (sanitize_path_idempotent (P := unix_platform)
                            "/usr/lib/python27:/opt/ida/python"
                            ltac:(reflexivity)))
              _ ltac:(reflexivity)).
    simpl. lia.
Defined.

(** The option string "2;startup.py;x". *)
Lemma parse_plugin_options_round_trip_witness :
  parse_plugin_options (P := unix_platform) (Some "2;startup.py;x")
    (mkRunOptions 0 "")
  = mkRunOptions 2 "startup.py;x".
Proof.
  refine (proj1 (parse_plugin_options_round_trip (P := unix_platform)
                   (mkRunOptions 0 ""))
            2%nat "startup.py;x"%string _ _).
  - reflexivity.
  - simpl. lia.
Defined.

(** A statement run that yields NULL with nothing pending: the IDC caller
    gets the message "internal error". *)
Lemma run_statements_failure_has_message_witness :
  result_of (run toy_python
               (idc_runpythonstatement (fun _ _ => ret None)
                  "1/0" (VT_LONG 0) "")
               initial_globals session)
  = Done ((eOk, VT_STR2 "internal error"), initial_globals).
Proof.
  destruct (proj2 (run_statements_failure_has_message (F := idapython_foreign)
                     (@toy_python idapython_foreign) (fun _ _ => ret None)
                     ltac:(intros str globals g w; exists None, g, w, [];
                           reflexivity)
                     "1/0" "" 1024 (VT_LONG 0) initial_globals session)
              ltac:(simpl; lia))
    as (ok & eb & g' & H1 & H2 & _).
  rewrite H2. vm_compute in H1. injection H1 as <- <- <-. reflexivity.
Defined.

(** SCRIPT_TIMEOUT = 0 in the configuration file, with the UI ready: the
    timeout is stored and [begin_execution] does nothing. *)
Lemma set_python_options_timeout_witness :
  let g := mkGlobals 0 false 0 2 true in
  set_python_options 2 "SCRIPT_TIMEOUT" 2 0 g initial_switches
  = (IDPOPT_OK, set_timeout 0 g, initial_switches)
  /\ calls_of (run (bare_runtime 1) begin_execution (set_timeout 0 g) 0%Z) = [].
Proof.
  destruct (set_python_options_timeout (F := idapython_foreign)
              (bare_runtime 1) 2 "SCRIPT_TIMEOUT" 2 0
              (mkGlobals 0 false 0 2 true) initial_switches 0%Z)
    as (_ & _ & H3 & H4).
  split; [exact H3|].
  apply (proj2 H4). right. reflexivity.
Defined.

(** [run("answer", [])] in the session: [answer] is found and evaluated
    (to nothing, in this runtime); the empty vectors of the conversion are
    released once. *)
Lemma extlang_run_releases_arguments_witness :
  free_calls
    (calls_of (run toy_python
                 (IDAPython_extlang_run "answer" [] (Some (VT_LONG 0)) "" 1024)
                 initial_globals session))
  = [([], Some [])].
Proof.
  exact (extlang_run_releases_arguments (F := idapython_foreign)
           (@toy_python idapython_foreign) "answer" [] (Some (VT_LONG 0))
           "" 1024 initial_globals session ltac:(simpl; lia)).
Defined.

(** [create_object("__main__.greet", [7])]: [greet] is found, the argument
    converted to a new object (at address 100), the call attempted; the
    converted vector is released once, then the module and [greet]. *)
Lemma create_object_releases_references_witness :
  let R := run toy_python
             (IDAPython_extlang_create_object "__main__.greet" [VT_LONG 7]
                (Some (VT_LONG 0)) "" 1024)
             initial_globals session in
  free_calls (calls_of R) = [([Some 100%N], None)]
  /\ decref_list (calls_of R) = [10%N; 30%N].
Proof.
  destruct (create_object_releases_references (F := idapython_foreign)
              (@toy_python idapython_foreign) "__main__.greet" [VT_LONG 7]
              (Some (VT_LONG 0)) "" 1024 initial_globals session
              _ ltac:(simpl; lia) ltac:(reflexivity))
    as (H1 & _ & _).
  split; [exact H1 | reflexivity].
Defined.

(** [call_method(answer, "real", [7])] with [answer] given by value: the
    number is converted to a new object (at address 100), which has no
    attribute [real] in this runtime; nothing is converted, the empty vector
    is released and then the object. *)
Lemma call_method_releases_references_witness :
  let R := run toy_python
             (IDAPython_extlang_call_method (Some (VT_LONG 42)) (Some "real")
                [VT_LONG 7] (Some (VT_LONG 0)) "" 1024)
             initial_globals session in
  free_calls (calls_of R) = [([], None)]
  /\ decref_list (calls_of R) = [100%N].
Proof.
  destruct (call_method_releases_references (F := idapython_foreign)
              (@toy_python idapython_foreign) (VT_LONG 42) "real"
              [VT_LONG 7] (Some (VT_LONG 0)) "" 1024 initial_globals session
              _ ltac:(reflexivity))
    as (H1 & _ & _).
  split; [exact H1 | reflexivity].
Defined.
